(** * CLIProxyAPI: the Copilot request adaptation layer

    A shallow embedding of [internal/runtime/executor/copilot_headers.go]
    and of the helpers its tests exercise, with the properties the
    specification states about them. *)

From Stdlib Require Import ZArith NArith List Ascii String Bool Lia.
From stdpp Require Import base option list gmap strings.

Local Open Scope string_scope.

(** ** Go's [strings] package, on byte strings

    A Go [string] is a sequence of bytes, which is what [String.string]
    is.  [HasPrefix] and [TrimPrefix] compare bytes and are written out in
    full.  [ToLower] and [TrimSpace] read the bytes as UTF-8: outside
    ASCII they fold the letters of every script, rewrite invalid
    encodings and trim U+0085, U+00A0 and the other Unicode spaces, all of
    it driven by the tables of package [unicode].  Those tables are not
    reproduced: the two functions are the members of the interface
    [Strings], which fixes them where the Go sources fix them without the
    tables, on ASCII input, where both take a byte-wise fast path. *)
Module GoStrings.

Definition isUpper (c : ascii) : bool :=
  let n := N_of_ascii c in (65 <=? n)%N && (n <=? 90)%N.

Definition lowerByte (c : ascii) : ascii :=
  if isUpper c then ascii_of_N (N_of_ascii c + 32) else c.

(** The fast path of [strings.ToLower]: ['A'..'Z'] moved to ['a'..'z']. *)
Fixpoint asciiToLower (s : string) : string :=
  match s with
  | EmptyString => EmptyString
  | String c r => String (lowerByte c) (asciiToLower r)
  end.

(** [asciiSpace]: the bytes ['\t'], ['\n'], ['\v'], ['\f'], ['\r'], [' ']. *)
Definition isSpace (c : ascii) : bool :=
  let n := N_of_ascii c in ((9 <=? n)%N && (n <=? 13)%N) || (n =? 32)%N.

Fixpoint TrimLeftSpace (s : string) : string :=
  match s with
  | EmptyString => EmptyString
  | String c r => if isSpace c then TrimLeftSpace r else s
  end.

Fixpoint TrimRightSpace (s : string) : string :=
  match s with
  | EmptyString => EmptyString
  | String c r =>
      match TrimRightSpace r with
      | EmptyString => if isSpace c then EmptyString else String c EmptyString
      | r' => String c r'
      end
  end.

(** The fast path of [strings.TrimSpace]. *)
Definition asciiTrimSpace (s : string) : string := TrimRightSpace (TrimLeftSpace s).

(** Every byte is below [utf8.RuneSelf]. *)
Fixpoint isASCII (s : string) : bool :=
  match s with
  | EmptyString => true
  | String c r => (N_of_ascii c <? 128)%N && isASCII r
  end.

(** [strings.ToLower] and [strings.TrimSpace], with what their sources do
    for a string that is ASCII throughout. *)
Class Strings := {
  ToLower : string -> string;
  TrimSpace : string -> string;
  ToLower_ascii : forall s, isASCII s = true -> ToLower s = asciiToLower s;
  TrimSpace_ascii : forall s, isASCII s = true -> TrimSpace s = asciiTrimSpace s;
}.

(** The two fast paths alone, for running the layer on ASCII payloads. *)
Definition asciiStrings : Strings :=
  {| ToLower := asciiToLower; TrimSpace := asciiTrimSpace;
     ToLower_ascii := fun _ _ => eq_refl; TrimSpace_ascii := fun _ _ => eq_refl |}.

Fixpoint HasPrefix (s prefix : string) {struct prefix} : bool :=
  match prefix, s with
  | EmptyString, _ => true
  | String p prefix', String c s' => Ascii.eqb c p && HasPrefix s' prefix'
  | String _ _, EmptyString => false
  end.

Fixpoint dropBytes (n : nat) (s : string) : string :=
  match n, s with
  | S n', String _ s' => dropBytes n' s'
  | _, _ => s
  end.

Definition TrimPrefix (s prefix : string) : string :=
  if HasPrefix s prefix then dropBytes (String.length prefix) s else s.

Lemma HasPrefix_split s p : HasPrefix s p = true -> s = p ++ TrimPrefix s p.
Proof.
  unfold TrimPrefix. intros H. rewrite H. revert s H.
  induction p as [|a p IH]; intros s H; simpl in *; [reflexivity|].
  destruct s as [|c s]; [discriminate|].
  apply andb_prop in H as [Hc Hp]. apply Ascii.eqb_eq in Hc. subst c.
  change (String a s = String a (p ++ dropBytes (String.length p) s)).
  f_equal. now apply IH.
Qed.

Lemma HasPrefix_app p r : HasPrefix (p ++ r) p = true.
Proof.
  induction p as [|a p IH]; simpl; [reflexivity|].
  now rewrite Ascii.eqb_refl.
Qed.

Lemma TrimPrefix_app p r : TrimPrefix (p ++ r) p = r.
Proof.
  unfold TrimPrefix. rewrite HasPrefix_app.
  induction p as [|a p IH]; simpl; [now destruct r | exact IH].
Qed.

(** On a closed ASCII literal the two functions are their fast paths. *)
Ltac on_ascii :=
  repeat match goal with
         | |- context [ToLower ?s] => rewrite (ToLower_ascii s eq_refl)
         | |- context [TrimSpace ?s] => rewrite (TrimSpace_ascii s eq_refl)
         end.

End GoStrings.

Example ToLower_ex : GoStrings.asciiToLower "GPT-5.1 Codex" = "gpt-5.1 codex".
Proof. reflexivity. Qed.

Example TrimSpace_ex : GoStrings.asciiTrimSpace "  a b  " = "a b".
Proof. reflexivity. Qed.

Example TrimPrefix_ex : GoStrings.TrimPrefix "copilot-gpt-5" "copilot-" = "gpt-5".
Proof. reflexivity. Qed.

(** ** [internal/config]: the Copilot credential entry

    The package is an external collaborator of this layer; the fields are
    the ones [copilot_headers.go] reads. *)
Module config.

Record CopilotKey := {
  HeaderProfile : string;
  CLIHeaderModels : list string;
  VSCodeChatHeaderModels : list string;
  ForceAgentCall : bool;
  AgentInitiatorPersist : bool;
}.

(** [Config.CopilotKey] is the slice of credential entries. *)
Record Config := { Config_CopilotKey : list CopilotKey }.

(** The zero value [config.CopilotKey{}]. *)
Definition zeroCopilotKey : CopilotKey :=
  {| HeaderProfile := ""; CLIHeaderModels := []; VSCodeChatHeaderModels := [];
     ForceAgentCall := false; AgentInitiatorPersist := false |}.

End config.

(** ** Header profile selection *)
Module HeaderProfile.
Import GoStrings config.

(** [type copilotHeaderProfile string] with its two constants. *)
Definition copilotHeaderProfile := string.
Definition copilotHeaderProfileCLI : copilotHeaderProfile := "cli".
Definition copilotHeaderProfileVSCodeChat : copilotHeaderProfile := "vscode-chat".

Definition defaultCopilotCLIHeaderModels : gset string :=
  list_to_set
    [ "claude-sonnet-4.5"; "claude-haiku-4.5"; "claude-opus-4.5"; "claude-sonnet-4";
      "gpt-5.1-codex-max"; "gpt-5.1-codex"; "gpt-5.2"; "gpt-5.1"; "gpt-5";
      "gpt-5.1-codex-mini"; "gpt-5-mini"; "gpt-4o"; "gpt-4.1"; "gemini-3-pro-preview" ].

Section HeaderProfileGeneric.
Context {lib : Strings}.

Definition normalizeModelID (model : string) : string := TrimSpace (ToLower model).

(** [for _, v := range models { if normalizeModelID(v) == m { return ... } }] *)
Definition listsModel (models : list string) (m : string) : bool :=
  existsb (fun v => String.eqb (normalizeModelID v) m) models.

Definition copilotHeaderProfileForModel (entry : option CopilotKey) (model : string)
  : copilotHeaderProfile :=
  let m := normalizeModelID model in
  if String.eqb m "" then copilotHeaderProfileCLI else
  let mDeAliased := TrimPrefix m "copilot-" in
  if String.eqb mDeAliased "" then copilotHeaderProfileCLI else
  if String.eqb mDeAliased "gpt-4" then copilotHeaderProfileCLI else
  let fromAllowlist :=
    if bool_decide (mDeAliased ∈ defaultCopilotCLIHeaderModels)
    then copilotHeaderProfileCLI else copilotHeaderProfileVSCodeChat in
  match entry with
  | Some entry =>
      if listsModel (CLIHeaderModels entry) mDeAliased then copilotHeaderProfileCLI else
      if listsModel (VSCodeChatHeaderModels entry) mDeAliased
      then copilotHeaderProfileVSCodeChat else
      let p := ToLower (TrimSpace (HeaderProfile entry)) in
      if String.eqb p copilotHeaderProfileCLI then copilotHeaderProfileCLI else
      if String.eqb p copilotHeaderProfileVSCodeChat then copilotHeaderProfileVSCodeChat
      else fromAllowlist
  | None => fromAllowlist
  end.

End HeaderProfileGeneric.

(** The selector as the specification words it: an ordered list of
    independent rules, the first whose predicate holds giving the result. *)
Section Rules.
Context {R : Type}.

Fixpoint firstMatch (rules : list (bool * R)) (otherwise : R) : R :=
  match rules with
  | [] => otherwise
  | (true, r) :: _ => r
  | (false, _) :: rest => firstMatch rest otherwise
  end.
End Rules.

Definition configSays (entry : option CopilotKey) (p : CopilotKey -> bool) : bool :=
  match entry with Some e => p e | None => false end.

Section HeaderProfileRules.
Context {lib : Strings}.

Definition profileRules (entry : option CopilotKey) (model : string)
  : list (bool * copilotHeaderProfile) :=
  let normalized := normalizeModelID model in
  let dealiased := TrimPrefix normalized "copilot-" in
  let defaultProfile e := ToLower (TrimSpace (HeaderProfile e)) in
  [ (String.eqb normalized "", copilotHeaderProfileCLI);
    (String.eqb dealiased "", copilotHeaderProfileCLI);
    (String.eqb dealiased "gpt-4", copilotHeaderProfileCLI);
    (configSays entry (fun e => listsModel (CLIHeaderModels e) dealiased),
      copilotHeaderProfileCLI);
    (configSays entry (fun e => listsModel (VSCodeChatHeaderModels e) dealiased),
      copilotHeaderProfileVSCodeChat);
    (configSays entry (fun e => String.eqb (defaultProfile e) "cli"),
      copilotHeaderProfileCLI);
    (configSays entry (fun e => String.eqb (defaultProfile e) "vscode-chat"),
      copilotHeaderProfileVSCodeChat);
    (bool_decide (dealiased ∈ defaultCopilotCLIHeaderModels), copilotHeaderProfileCLI) ].

Definition profileBySpec (entry : option CopilotKey) (model : string)
  : copilotHeaderProfile :=
  firstMatch (profileRules entry model) copilotHeaderProfileVSCodeChat.

End HeaderProfileRules.

End HeaderProfile.

Section HeaderProfileExamples.
Local Existing Instance GoStrings.asciiStrings.

Example profile_gpt5 :
  HeaderProfile.copilotHeaderProfileForModel None "copilot-gpt-5" = "cli".
Proof. vm_compute. reflexivity. Qed.

Example profile_gemini :
  HeaderProfile.copilotHeaderProfileForModel None "gemini-2.5-pro" = "vscode-chat".
Proof. vm_compute. reflexivity. Qed.

End HeaderProfileExamples.

Module HeaderProfileFacts.
Import GoStrings config HeaderProfile.

Section HeaderProfileFactsGeneric.
Context {lib : Strings}.

Lemma profile_rules_agree entry model :
  copilotHeaderProfileForModel entry model = profileBySpec entry model.
Proof.
  unfold copilotHeaderProfileForModel, profileBySpec, profileRules, configSays.
  unfold copilotHeaderProfileCLI, copilotHeaderProfileVSCodeChat.
  set (m := normalizeModelID model). set (d := TrimPrefix m "copilot-").
  destruct (String.eqb m ""); [reflexivity|].
  destruct (String.eqb d ""); [reflexivity|].
  destruct (String.eqb d "gpt-4"); [reflexivity|].
  destruct entry as [e|]; cbn [firstMatch].
  - destruct (listsModel (CLIHeaderModels e) d); [reflexivity|].
    destruct (listsModel (VSCodeChatHeaderModels e) d); [reflexivity|].
    destruct (String.eqb (ToLower (TrimSpace (HeaderProfile e))) "cli"); [reflexivity|].
    destruct (String.eqb (ToLower (TrimSpace (HeaderProfile e))) "vscode-chat");
      [reflexivity|].
    destruct (bool_decide (d ∈ defaultCopilotCLIHeaderModels)); reflexivity.
  - destruct (bool_decide (d ∈ defaultCopilotCLIHeaderModels)); reflexivity.
Qed.

Lemma profile_range entry model :
  copilotHeaderProfileForModel entry model = copilotHeaderProfileCLI \/
  copilotHeaderProfileForModel entry model = copilotHeaderProfileVSCodeChat.
Proof.
  unfold copilotHeaderProfileForModel.
  repeat match goal with
         | |- context [if ?b then _ else _] => destruct b; auto
         | |- context [match ?e with Some _ => _ | None => _ end] => destruct e; auto
         end.
Qed.

(** C5: the header profile selector is total with range {cli, vscode-chat}
    and is the first-match-wins evaluation of the eight ordered rules
    (empty normalized model, empty de-aliased model, gpt-4, CLI override
    list, VSCodeChat override list, recognized HeaderProfile, built-in
    allowlist, otherwise VSCodeChat).  In particular gpt-4 is CLI under
    every config, the override lists beat HeaderProfile, and HeaderProfile
    beats the built-in allowlist. *)
Theorem copilotHeaderProfileForModel_precedence :
  (forall entry model,
      copilotHeaderProfileForModel entry model = profileBySpec entry model) /\
  (forall entry model,
      copilotHeaderProfileForModel entry model = copilotHeaderProfileCLI \/
      copilotHeaderProfileForModel entry model = copilotHeaderProfileVSCodeChat) /\
  (forall entry model,
      TrimPrefix (normalizeModelID model) "copilot-" = "gpt-4" ->
      copilotHeaderProfileForModel entry model = copilotHeaderProfileCLI) /\
  (forall e model d,
      d = TrimPrefix (normalizeModelID model) "copilot-" ->
      listsModel (CLIHeaderModels e) d = true ->
      copilotHeaderProfileForModel (Some e) model = copilotHeaderProfileCLI) /\
  (forall e model d,
      d = TrimPrefix (normalizeModelID model) "copilot-" ->
      normalizeModelID model <> "" -> d <> "" -> d <> "gpt-4" ->
      listsModel (CLIHeaderModels e) d = false ->
      listsModel (VSCodeChatHeaderModels e) d = true ->
      copilotHeaderProfileForModel (Some e) model = copilotHeaderProfileVSCodeChat) /\
  (forall e model d p,
      d = TrimPrefix (normalizeModelID model) "copilot-" ->
      normalizeModelID model <> "" -> d <> "" -> d <> "gpt-4" ->
      listsModel (CLIHeaderModels e) d = false ->
      listsModel (VSCodeChatHeaderModels e) d = false ->
      ToLower (TrimSpace (HeaderProfile e)) = p ->
      p = copilotHeaderProfileCLI \/ p = copilotHeaderProfileVSCodeChat ->
      copilotHeaderProfileForModel (Some e) model = p).
Proof.
  split; [exact profile_rules_agree|].
  split; [exact profile_range|].
  split; [|split; [|split]].
  - intros entry model H. unfold copilotHeaderProfileForModel. rewrite H.
    destruct (String.eqb (normalizeModelID model) ""); reflexivity.
  - intros e model d -> H. unfold copilotHeaderProfileForModel. rewrite H.
    repeat match goal with
           | |- context [if ?b then _ else _] => destruct b; try reflexivity
           end.
  - intros e model d -> Hn Hd H4 Hc Hv. unfold copilotHeaderProfileForModel.
    apply String.eqb_neq in Hn, Hd, H4. now rewrite Hn, Hd, H4, Hc, Hv.
  - intros e model d p -> Hn Hd H4 Hc Hv Hp Hrec. unfold copilotHeaderProfileForModel.
    apply String.eqb_neq in Hn, Hd, H4. rewrite Hn, Hd, H4, Hc, Hv, Hp.
    destruct Hrec as [-> | ->]; reflexivity.
Qed.

End HeaderProfileFactsGeneric.

Section HeaderProfileFactsExamples.
Local Existing Instance asciiStrings.

(** The cases of [TestCopilotHeaderProfileForModel] that set precedence
    against each other, read off the theorem. *)
Lemma copilotHeaderProfileForModel_precedence_witness :
  copilotHeaderProfileForModel
    (Some {| HeaderProfile := "cli"; CLIHeaderModels := [];
             VSCodeChatHeaderModels := ["gpt-4"; "gpt-5"];
             ForceAgentCall := false; AgentInitiatorPersist := false |})
    " Copilot-GPT-4 " = "cli" /\
  copilotHeaderProfileForModel
    (Some {| HeaderProfile := "cli"; CLIHeaderModels := [];
             VSCodeChatHeaderModels := ["gpt-4"; "gpt-5"];
             ForceAgentCall := false; AgentInitiatorPersist := false |})
    "gpt-5" = "vscode-chat" /\
  copilotHeaderProfileForModel
    (Some {| HeaderProfile := " VSCode-Chat"; CLIHeaderModels := ["gemini-3-pro"];
             VSCodeChatHeaderModels := [];
             ForceAgentCall := false; AgentInitiatorPersist := false |})
    "gpt-5" = "vscode-chat".
Proof.
  destruct copilotHeaderProfileForModel_precedence as (_ & _ & H4 & _ & Hvs & Hdef).
  split; [|split].
  - apply H4. reflexivity.
  - eapply Hvs; try reflexivity; vm_compute; congruence.
  - eapply Hdef; try reflexivity; try (vm_compute; congruence).
    right. reflexivity.
Defined.

End HeaderProfileFactsExamples.

End HeaderProfileFacts.

(** ** [github.com/tidwall/gjson] on parsed payloads

    The layer reads payloads that an external collaborator has already
    parsed, so a payload is a JSON tree here; bytes that are not JSON have
    no counterpart.  An object keeps its fields in source order, duplicates
    included: gjson returns the first field with the key.  What a tree
    does not keep is the spacing and the escapes of the bytes it was parsed
    from; the one place where gjson hands those bytes out, the text of an
    array or an object, is the member [Raw] of the interface
    [SourceText]. *)
Module gjson.

#[warnings="-register-all"] Inductive JSON :=
| JNull
| JBool (b : bool)
| JNumber (repr : string)      (* the text [String()] gives for the number *)
| JString (s : string)
| JArray (elems : list JSON)
| JObject (fields : list (string * JSON)).

(** A [gjson.Result]: [None] is the result of a path that matched nothing. *)
Definition Result := option JSON.

Definition quoteByte : ascii := ascii_of_N 34.
Definition backslash : ascii := ascii_of_N 92.

Fixpoint escape (s : string) : string :=
  match s with
  | EmptyString => EmptyString
  | String c r =>
      if Ascii.eqb c quoteByte || Ascii.eqb c backslash
      then String backslash (String c (escape r))
      else String c (escape r)
  end.

Definition quoted (s : string) : string :=
  String quoteByte (escape s ++ String quoteByte EmptyString).

(** The JSON text of a value in its compact form. *)
Fixpoint compact (v : JSON) : string :=
  match v with
  | JNull => "null"
  | JBool true => "true"
  | JBool false => "false"
  | JNumber repr => repr
  | JString s => quoted s
  | JArray elems =>
      "[" ++ (fix items (l : list JSON) : string :=
                match l with
                | [] => ""
                | x :: r =>
                    match r with
                    | [] => compact x
                    | _ :: _ => compact x ++ "," ++ items r
                    end
                end) elems ++ "]"
  | JObject fields =>
      "{" ++ (fix members (l : list (string * JSON)) : string :=
                match l with
                | [] => ""
                | (k, x) :: r =>
                    match r with
                    | [] => quoted k ++ ":" ++ compact x
                    | _ :: _ => quoted k ++ ":" ++ compact x ++ "," ++ members r
                    end
                end) fields ++ "}"
  end.

(** [Result.Raw] of an array or an object: the bytes of the payload that
    hold the value, as the client wrote them.  Nothing is assumed of the
    text.  The layer reads it where a role, a type, a [tool_choice] or a
    cache key is an array or an object, and no statement below relates the
    texts of two values. *)
Class SourceText := { Raw : JSON -> string }.

(** Payloads written in compact form. *)
Definition compactText : SourceText := {| Raw := compact |}.

Definition Exists (r : Result) : bool :=
  match r with Some _ => true | None => false end.

Section gjsonGeneric.
Context {src : SourceText}.

(** [Result.String()]: the string itself, the literal of a number or a
    boolean, the empty string for null and for a missing result, the raw
    text of an array or an object. *)
Definition String_ (r : Result) : string :=
  match r with
  | None | Some JNull => ""
  | Some (JString s) => s
  | Some (JBool true) => "true"
  | Some (JBool false) => "false"
  | Some (JNumber repr) => repr
  | Some ((JArray _ | JObject _) as v) => Raw v
  end.

End gjsonGeneric.

Definition IsArray (r : Result) : bool :=
  match r with Some (JArray _) => true | _ => false end.

(** [Result.Array()]: the elements of an array, nothing for null or a
    missing result, the value alone otherwise. *)
Definition Array (r : Result) : list JSON :=
  match r with
  | Some (JArray elems) => elems
  | None | Some JNull => []
  | Some v => [v]
  end.

Fixpoint lookupField (key : string) (fields : list (string * JSON)) : Result :=
  match fields with
  | [] => None
  | (k, v) :: rest => if String.eqb k key then Some v else lookupField key rest
  end.

(** [Result.Get(key)] for a path of one plain key: only an object has
    named members. *)
Definition Get (r : Result) (key : string) : Result :=
  match r with
  | Some (JObject fields) => lookupField key fields
  | _ => None
  end.

(** [Get] for a path [outer.inner]: gjson descends into every member named
    [outer], in order, until one holds [inner]. *)
Fixpoint lookupNested (outer inner : string) (fields : list (string * JSON)) : Result :=
  match fields with
  | [] => None
  | (k, v) :: rest =>
      if String.eqb k outer then
        match Get (Some v) inner with
        | Some x => Some x
        | None => lookupNested outer inner rest
        end
      else lookupNested outer inner rest
  end.

Definition Get2 (r : Result) (outer inner : string) : Result :=
  match r with
  | Some (JObject fields) => lookupNested outer inner fields
  | _ => None
  end.

(** [gjson.GetBytes(payload, path)] on the parsed payload. *)
Definition GetBytes (payload : JSON) (key : string) : Result := Get (Some payload) key.
Definition GetBytes2 (payload : JSON) (outer inner : string) : Result :=
  Get2 (Some payload) outer inner.

Lemma compact_composite_head v :
  match v with
  | JArray _ => exists r, compact v = String "[" r
  | JObject _ => exists r, compact v = String "{" r
  | _ => True
  end.
Proof. destruct v; try exact I; cbn; eexists; reflexivity. Qed.

End gjson.

Example compact_ex :
  gjson.compact (gjson.JObject [("a", gjson.JArray [gjson.JNumber "1"; gjson.JNull]);
                            ("b", gjson.JString "x")])
  = String "{" (gjson.quoted "a" ++ ":[1,null]," ++ gjson.quoted "b" ++ ":"
                ++ gjson.quoted "x" ++ "}").
Proof. reflexivity. Qed.

(** ** [net/http]: the inbound header map *)
Module http.
Import GoStrings.

(** [type Header map[string][]string] *)
Abbreviation Header := (gmap string (list string)).

Definition upperByte (c : ascii) : ascii :=
  let n := N_of_ascii c in
  if (97 <=? n)%N && (n <=? 122)%N then ascii_of_N (n - 32) else c.

(** [textproto.CanonicalMIMEHeaderKey] on a key made of letters, digits
    and hyphens: the first letter and every letter after a hyphen in upper
    case, the others in lower case. *)
Fixpoint canonicalFrom (upper : bool) (key : string) : string :=
  match key with
  | EmptyString => EmptyString
  | String c r =>
      String (if upper then upperByte c else lowerByte c)
             (canonicalFrom (Ascii.eqb c "-") r)
  end.

Definition CanonicalMIMEHeaderKey (key : string) : string := canonicalFrom true key.

(** [Header.Get]: the first value stored under the canonical key. *)
Definition Header_Get (h : Header) (key : string) : string :=
  match h !! CanonicalMIMEHeaderKey key with
  | Some (v :: _) => v
  | _ => ""
  end.

(** [Header.Set]: one value under the canonical key. *)
Definition Header_Set (h : Header) (key value : string) : Header :=
  <[CanonicalMIMEHeaderKey key := [value]]> h.

End http.

Example canonical_ex : http.CanonicalMIMEHeaderKey "force-copilot-agent" = "Force-Copilot-Agent".
Proof. reflexivity. Qed.

(** ** Hint collection: [collectCopilotHeaderHints] *)
Module Hints.
Import GoStrings gjson http.

Definition responsesAPIAgentTypes : gset string :=
  list_to_set
    [ "function_call"; "function_call_output"; "computer_call"; "computer_call_output";
      "web_search_call"; "file_search_call"; "code_interpreter_call";
      "local_shell_call"; "local_shell_call_output"; "mcp_call"; "mcp_list_tools";
      "mcp_approval_request"; "mcp_approval_response"; "image_generation_call";
      "reasoning" ].

Section HintsGeneric.
Context {lib : Strings} {src : SourceText}.

(** [strings.ToLower(strings.TrimSpace(item.Get("role").String()))] *)
Definition roleOf (item : JSON) : string :=
  ToLower (TrimSpace (String_ (Get (Some item) "role"))).

Definition typeOf (item : JSON) : string := String_ (Get (Some item) "type").

Definition isResponsesAPIAgentItem (item : JSON) : bool :=
  let role := roleOf item in
  if String.eqb role "assistant" || String.eqb role "tool" then true
  else bool_decide (typeOf item ∈ responsesAPIAgentTypes).

Definition isResponsesAPIVisionContent (part : JSON) : bool :=
  String.eqb (typeOf part) "input_image".

Record copilotHeaderHints := {
  hasVision : bool;
  userFromPayload : bool;
  lastUserFromPayload : bool;
  agentFromPayload : bool;
  forceAgentFromHeaders : bool;
  promptCacheKey : string;
}.

(** Assignments [hints.field = true], guarded by [cond]. *)
Definition setVision (cond : bool) (h : copilotHeaderHints) : copilotHeaderHints :=
  {| hasVision := hasVision h || cond; userFromPayload := userFromPayload h;
     lastUserFromPayload := lastUserFromPayload h; agentFromPayload := agentFromPayload h;
     forceAgentFromHeaders := forceAgentFromHeaders h; promptCacheKey := promptCacheKey h |}.

Definition setUser (cond : bool) (h : copilotHeaderHints) : copilotHeaderHints :=
  {| hasVision := hasVision h; userFromPayload := userFromPayload h || cond;
     lastUserFromPayload := lastUserFromPayload h; agentFromPayload := agentFromPayload h;
     forceAgentFromHeaders := forceAgentFromHeaders h; promptCacheKey := promptCacheKey h |}.

Definition setLastUser (cond : bool) (h : copilotHeaderHints) : copilotHeaderHints :=
  {| hasVision := hasVision h; userFromPayload := userFromPayload h;
     lastUserFromPayload := lastUserFromPayload h || cond;
     agentFromPayload := agentFromPayload h;
     forceAgentFromHeaders := forceAgentFromHeaders h; promptCacheKey := promptCacheKey h |}.

Definition setAgent (cond : bool) (h : copilotHeaderHints) : copilotHeaderHints :=
  {| hasVision := hasVision h; userFromPayload := userFromPayload h;
     lastUserFromPayload := lastUserFromPayload h;
     agentFromPayload := agentFromPayload h || cond;
     forceAgentFromHeaders := forceAgentFromHeaders h; promptCacheKey := promptCacheKey h |}.

Definition truthy (raw : string) : bool :=
  let v := ToLower raw in
  String.eqb v "1" || String.eqb v "true" || String.eqb v "t" ||
  String.eqb v "yes" || String.eqb v "y" || String.eqb v "on".

(** [headers == nil] is [None]. *)
Definition forceAgentCallFromHeaders (headers : option Header) : bool :=
  match headers with
  | None => false
  | Some headers =>
      let raw := TrimSpace (Header_Get headers "force-copilot-agent") in
      let raw := if String.eqb raw "" then TrimSpace (Header_Get headers "Force-Copilot-Agent")
                 else raw in
      if String.eqb raw "" then false else truthy raw
  end.

Definition promptCacheKeyFromPayload (payload : JSON) : string :=
  let top := TrimSpace (String_ (GetBytes payload "prompt_cache_key")) in
  if Exists (GetBytes payload "prompt_cache_key") && negb (String.eqb top "") then top else
  let nested := TrimSpace (String_ (GetBytes2 payload "metadata" "prompt_cache_key")) in
  if Exists (GetBytes2 payload "metadata" "prompt_cache_key") && negb (String.eqb nested "")
  then nested else "".

(** The image test on the parts of [content], when it is an array. *)
Definition contentHas (isImage : JSON -> bool) (item : JSON) : bool :=
  let content := Get (Some item) "content" in
  IsArray content && existsb isImage (Array content).

(** The loop over [messages]; [i == len(arr)-1] holds at the entry after
    which nothing is left. *)
Fixpoint scanMessages (arr : list JSON) (hints : copilotHeaderHints) : copilotHeaderHints :=
  match arr with
  | [] => hints
  | msg :: rest =>
      let hints := setVision (contentHas (fun part => String.eqb (typeOf part) "image_url") msg)
                             hints in
      let role := roleOf msg in
      let hints :=
        if String.eqb role "user" then
          setLastUser (match rest with [] => true | _ => false end) (setUser true hints)
        else if negb (String.eqb role "") then setAgent true hints
        else hints in
      scanMessages rest hints
  end.

(** The loop over [input]. *)
Fixpoint scanInput (arr : list JSON) (hints : copilotHeaderHints) : copilotHeaderHints :=
  match arr with
  | [] => hints
  | item :: rest =>
      let hints := setVision (contentHas isResponsesAPIVisionContent item) hints in
      let role := roleOf item in
      let hints :=
        if String.eqb role "user" then
          setLastUser (match rest with [] => true | _ => false end) (setUser true hints)
        else hints in
      let hints := setAgent (negb (String.eqb role "") && negb (String.eqb role "user")) hints in
      let hints := setAgent (isResponsesAPIAgentItem item) hints in
      scanInput rest hints
  end.

Definition nonEmptyArray (r : Result) : bool :=
  IsArray r && (0 <? length (Array r))%nat.

Definition collectCopilotHeaderHints (payload : JSON) (headers : option Header)
  : copilotHeaderHints :=
  let hints :=
    {| hasVision := false; userFromPayload := false; lastUserFromPayload := false;
       agentFromPayload := false;
       forceAgentFromHeaders := forceAgentCallFromHeaders headers;
       promptCacheKey := promptCacheKeyFromPayload payload |} in
  let hints := setAgent (Exists (GetBytes payload "previous_response_id")) hints in
  let hints := setAgent (nonEmptyArray (GetBytes payload "tools")) hints in
  let hints := setAgent (nonEmptyArray (GetBytes payload "functions")) hints in
  let tc := GetBytes payload "tool_choice" in
  let hints := setAgent (Exists tc && negb (String.eqb (String_ tc) "none")) hints in
  let messages := GetBytes payload "messages" in
  let hints := if IsArray messages then scanMessages (Array messages) hints else hints in
  let input := GetBytes payload "input" in
  let hints := if IsArray input then scanInput (Array input) hints else hints in
  hints.

End HintsGeneric.

End Hints.

(** ** The executor: configuration lookups and the initiator decision *)
Module Executor.
Import GoStrings config HeaderProfile gjson http Hints.

(** Modelled from the spec: the declaration of [CopilotExecutor] is not
    among the sources.  The two fields the methods below read are the
    configuration pointer [cfg] (nil is [None]) and [initiatorCount], the
    specification's mapping from prompt cache key to visit counter; a key
    that the Go map does not hold reads as the zero counter.  The counter
    is an unbounded integer here: a machine counter would have to be
    incremented 2^63 times under one key before it could wrap. *)
Record CopilotExecutor := {
  cfg : option Config;
  initiatorCount : gmap string Z;
}.

(** Modelled from the spec: [NewCopilotExecutor] is not among the sources;
    a fresh executor holds the given configuration and no counter. *)
Definition NewCopilotExecutor (c : Config) : CopilotExecutor :=
  {| cfg := Some c; initiatorCount := ∅ |}.

(** The credential entries a receiver can see: none behind a nil
    receiver or a nil configuration. *)
Definition entries (e : option CopilotExecutor) : list CopilotKey :=
  match e with
  | Some ex => match cfg ex with Some c => Config_CopilotKey c | None => [] end
  | None => []
  end.

Definition copilotKeyConfig (e : option CopilotExecutor) : option CopilotKey :=
  match e with
  | None => None
  | Some ex =>
      match cfg ex with
      | None => None
      | Some c =>
          match Config_CopilotKey c with
          | [] => None
          | first :: _ => Some first
          end
      end
  end.

Definition forceAgentCallEnabled (e : option CopilotExecutor) : bool :=
  match e with
  | None => false
  | Some ex =>
      match cfg ex with
      | None => false
      | Some c => existsb ForceAgentCall (Config_CopilotKey c)
      end
  end.

Definition agentInitiatorPersistEnabled (e : option CopilotExecutor) : bool :=
  match e with
  | None => false
  | Some ex =>
      match cfg ex with
      | None => false
      | Some c => existsb AgentInitiatorPersist (Config_CopilotKey c)
      end
  end.

(** [e.initiatorCount[key]], zero for a key the map does not hold. *)
Definition counter (m : gmap string Z) (key : string) : Z := default 0%Z (m !! key).

(** The locked section: read the counter, store its successor. *)
Definition bump (key : string) (ex : CopilotExecutor) : Z * CopilotExecutor :=
  let count := counter (initiatorCount ex) key in
  (count, {| cfg := cfg ex;
             initiatorCount := <[key := (count + 1)%Z]> (initiatorCount ex) |}).

(** The method returns its verdict and leaves the receiver in the second
    component. *)
Definition shouldUseAgentInitiator (e : option CopilotExecutor) (h : copilotHeaderHints)
  : bool * option CopilotExecutor :=
  if forceAgentFromHeaders h then (true, e) else
  if forceAgentCallEnabled e then (true, e) else
  if agentFromPayload h then (true, e) else
  if negb (userFromPayload h) then (true, e) else
  if negb (lastUserFromPayload h) then (true, e) else
  match e with
  | Some ex =>
      if agentInitiatorPersistEnabled e && negb (String.eqb (promptCacheKey h) "") then
        let '(count, ex') := bump (promptCacheKey h) ex in
        ((0 <? count)%Z, Some ex')
      else (false, e)
  | None => (false, e)
  end.

Definition applyCopilotVSCodeChatHeaderProfile (r : Header) : Header :=
  let r := Header_Set r "Copilot-Integration-Id" "vscode-chat" in
  let r := Header_Set r "Editor-Plugin-Version" "copilot-chat/0.35.2" in
  let r := Header_Set r "Editor-Version" "vscode/1.108.0-insider" in
  let r := Header_Set r "VScode-SessionId" "00000000-0000-0000-0000-000000000000" in
  let r := Header_Set r "VScode-MachineId" "00000000-0000-0000-0000-000000000000" in
  Header_Set r "OpenAI-Intent" "conversation-agent".

Definition applyCopilotCLIHeaderProfile (r : Header) : Header := r.

Definition applyProfile (profile : copilotHeaderProfile) (r : Header) : Header :=
  if String.eqb profile copilotHeaderProfileVSCodeChat
  then applyCopilotVSCodeChatHeaderProfile r
  else applyCopilotCLIHeaderProfile r.

Section ExecutorGeneric.
Context {lib : Strings} {src : SourceText}.

Definition applyCopilotHeaderProfile (e : option CopilotExecutor) (r : Header)
    (model : string) : Header :=
  let entry := copilotKeyConfig e in
  let profile := copilotHeaderProfileForModel entry model in
  applyProfile profile r.

(** The part of [applyCopilotHeaders] that decides [X-Initiator]. *)
Definition xInitiator (e : option CopilotExecutor) (payload : JSON)
    (incoming : option Header) : string * option CopilotExecutor :=
  let hints := collectCopilotHeaderHints payload incoming in
  let '(isAgentCall, e') := shouldUseAgentInitiator e hints in
  (if isAgentCall then "agent" else "user", e').

End ExecutorGeneric.

(** A sequence of calls on one executor, each verdict in call order. *)
Fixpoint classifyAll (e : option CopilotExecutor) (hs : list copilotHeaderHints)
  : list bool * option CopilotExecutor :=
  match hs with
  | [] => ([], e)
  | h :: rest =>
      let '(v, e1) := shouldUseAgentInitiator e h in
      let '(vs, e2) := classifyAll e1 rest in
      (v :: vs, e2)
  end.

(** The decision as the specification words it: rules (a) to (e) in order,
    then the persisted counter. *)
Definition initiatorRules (e : option CopilotExecutor) (h : copilotHeaderHints)
  : list (bool * bool) :=
  [ (forceAgentFromHeaders h, true);
    (existsb ForceAgentCall (entries e), true);
    (agentFromPayload h, true);
    (negb (userFromPayload h), true);
    (negb (lastUserFromPayload h), true);
    (existsb AgentInitiatorPersist (entries e) && negb (String.eqb (promptCacheKey h) ""),
      (0 <? match e with
            | Some ex => counter (initiatorCount ex) (promptCacheKey h)
            | None => 0
            end)%Z) ].

Definition initiatorBySpec (e : option CopilotExecutor) (h : copilotHeaderHints) : bool :=
  firstMatch (initiatorRules e h) false.

(** Rules (a) to (e) all fail to match. *)
Definition reachesCounter (e : option CopilotExecutor) (h : copilotHeaderHints) : bool :=
  negb (forceAgentFromHeaders h) && negb (forceAgentCallEnabled e) &&
  negb (agentFromPayload h) && userFromPayload h && lastUserFromPayload h.

End Executor.

Module Fixtures.
Import config gjson Hints Executor.

Definition userText (text : string) : JSON :=
  JObject [("role", JString "user"); ("content", JString text)].

(** [{"messages":[{"role":"user","content":"hello"}]}] *)
Definition userOnly : JSON := JObject [("messages", JArray [userText "hello"])].

(** [{"messages":[{"role":"system",...},{"role":"user",...}]}] *)
Definition systemAndUser : JSON :=
  JObject [("messages",
            JArray [JObject [("role", JString "system");
                             ("content", JString "You are helpful")];
                    userText "hello"])].

(** The payload of [TestApplyCopilotHeaders_XInitiator_PersistAcrossCalls]
    under a chosen cache key. *)
Definition threadPayload (key : string) : JSON :=
  JObject [("prompt_cache_key", JString key);
           ("input", JArray [JObject [("role", JString "user");
                                      ("content", JArray [JObject [("type", JString "input_text");
                                                                   ("text", JString "hello")]])]])].

Definition persisting : option CopilotExecutor :=
  Some (NewCopilotExecutor
          {| Config_CopilotKey :=
               [ {| HeaderProfile := ""; CLIHeaderModels := []; VSCodeChatHeaderModels := [];
                    ForceAgentCall := false; AgentInitiatorPersist := true |} ] |}).

Definition plain : option CopilotExecutor :=
  Some (NewCopilotExecutor {| Config_CopilotKey := [] |}).

End Fixtures.

Section FixturesExamples.
Local Existing Instance GoStrings.asciiStrings.
Local Existing Instance gjson.compactText.

Example xInitiator_user_only :
  (Executor.xInitiator Fixtures.plain Fixtures.userOnly None).1 = "user".
Proof. vm_compute. reflexivity. Qed.

Example xInitiator_system_and_user :
  (Executor.xInitiator Fixtures.plain Fixtures.systemAndUser None).1 = "agent".
Proof. vm_compute. reflexivity. Qed.

Example xInitiator_persist_twice :
  let '(first, e1) := Executor.xInitiator Fixtures.persisting (Fixtures.threadPayload "thread-1") None in
  let '(second, _) := Executor.xInitiator e1 (Fixtures.threadPayload "thread-1") None in
  (first, second) = ("user", "agent").
Proof. vm_compute. reflexivity. Qed.

End FixturesExamples.

Module InitiatorFacts.
Import GoStrings config HeaderProfile gjson http Hints Executor.

Section InitiatorFactsGeneric.
Context {lib : Strings} {src : SourceText}.

(** *** What hint collection leaves alone *)

Lemma scanMessages_force arr h :
  forceAgentFromHeaders (scanMessages arr h) = forceAgentFromHeaders h.
Proof.
  revert h. induction arr as [|msg rest IH]; intros h; [reflexivity|].
  cbn [scanMessages]. rewrite IH.
  destruct (String.eqb (roleOf msg) "user"); [reflexivity|].
  destruct (negb (String.eqb (roleOf msg) "")); reflexivity.
Qed.

Lemma scanInput_force arr h :
  forceAgentFromHeaders (scanInput arr h) = forceAgentFromHeaders h.
Proof.
  revert h. induction arr as [|item rest IH]; intros h; [reflexivity|].
  cbn [scanInput]. rewrite IH.
  destruct (String.eqb (roleOf item) "user"); reflexivity.
Qed.

Lemma collect_force payload headers :
  forceAgentFromHeaders (collectCopilotHeaderHints payload headers)
  = forceAgentCallFromHeaders headers.
Proof.
  unfold collectCopilotHeaderHints.
  destruct (IsArray (GetBytes payload "input"));
    destruct (IsArray (GetBytes payload "messages"));
    rewrite ?scanInput_force, ?scanMessages_force; reflexivity.
Qed.

(** *** The two configuration flags *)

Lemma forceAgentCallEnabled_entries e :
  forceAgentCallEnabled e = existsb ForceAgentCall (entries e).
Proof. destruct e as [[[c|] m]|]; reflexivity. Qed.

Lemma agentInitiatorPersistEnabled_entries e :
  agentInitiatorPersistEnabled e = existsb AgentInitiatorPersist (entries e).
Proof. destruct e as [[[c|] m]|]; reflexivity. Qed.

Lemma decision_rules_agree e h :
  (shouldUseAgentInitiator e h).1 = initiatorBySpec e h.
Proof.
  unfold shouldUseAgentInitiator, initiatorBySpec, initiatorRules.
  rewrite <- forceAgentCallEnabled_entries, <- agentInitiatorPersistEnabled_entries.
  cbn [firstMatch].
  destruct (forceAgentFromHeaders h); [reflexivity|].
  destruct (forceAgentCallEnabled e); [reflexivity|].
  destruct (agentFromPayload h); [reflexivity|].
  destruct (userFromPayload h); [|reflexivity].
  destruct (lastUserFromPayload h); [|reflexivity]. cbn [negb].
  destruct e as [ex|]; [|reflexivity].
  destruct (agentInitiatorPersistEnabled (Some ex) && negb (String.eqb (promptCacheKey h) ""));
    reflexivity.
Qed.

(** C1: the verdict of [shouldUseAgentInitiator] is the first-match-wins
    evaluation of rules (a) force header, (b) a credential entry with
    ForceAgentCall, (c) agentFromPayload, (d) no user message, (e) last
    item not user, then (f) with persistence on and a non-empty cache key
    agent iff the stored counter was positive, and user otherwise; and a
    truthy force header gives agent for every executor and payload. *)
Theorem shouldUseAgentInitiator_decision :
  (forall e h, (shouldUseAgentInitiator e h).1 = initiatorBySpec e h) /\
  (forall e h, forceAgentFromHeaders h = true -> (shouldUseAgentInitiator e h).1 = true) /\
  (forall e payload headers,
      forceAgentCallFromHeaders headers = true ->
      (shouldUseAgentInitiator e (collectCopilotHeaderHints payload headers)).1 = true /\
      (xInitiator e payload headers).1 = "agent").
Proof.
  split; [exact decision_rules_agree|].
  assert (Hforce : forall e h, forceAgentFromHeaders h = true ->
                               (shouldUseAgentInitiator e h).1 = true).
  { intros e h Hh. unfold shouldUseAgentInitiator. now rewrite Hh. }
  split; [exact Hforce|].
  intros e payload headers Hh.
  assert (Hv : (shouldUseAgentInitiator e (collectCopilotHeaderHints payload headers)).1 = true).
  { apply Hforce. now rewrite collect_force. }
  split; [exact Hv|].
  unfold xInitiator.
  destruct (shouldUseAgentInitiator e (collectCopilotHeaderHints payload headers)) as [v e'].
  cbn in Hv. now rewrite Hv.
Qed.

(** C10: ForceAgentCall and AgentInitiatorPersist are each read as a
    disjunction over all configured credential entries, the header profile
    selector is given the first entry only, and with no entry both flags
    are off and the selector gets no config. *)
Theorem flags_any_entry_profile_first_entry :
  (forall e, forceAgentCallEnabled e = true <->
             exists k, In k (entries e) /\ ForceAgentCall k = true) /\
  (forall e, agentInitiatorPersistEnabled e = true <->
             exists k, In k (entries e) /\ AgentInitiatorPersist k = true) /\
  (forall e, copilotKeyConfig e = head (entries e)) /\
  (forall e r model,
      applyCopilotHeaderProfile e r model
      = applyProfile (copilotHeaderProfileForModel (head (entries e)) model) r) /\
  (forall e, entries e = [] ->
             forceAgentCallEnabled e = false /\
             agentInitiatorPersistEnabled e = false /\
             copilotKeyConfig e = None).
Proof.
  assert (Hhead : forall e, copilotKeyConfig e = head (entries e)).
  { intros [[[[[|k ks]]|] m]|]; reflexivity. }
  split; [|split; [|split; [|split]]].
  - intros e. rewrite forceAgentCallEnabled_entries. apply existsb_exists.
  - intros e. rewrite agentInitiatorPersistEnabled_entries. apply existsb_exists.
  - exact Hhead.
  - intros e r model. unfold applyCopilotHeaderProfile. now rewrite Hhead.
  - intros e H.
    rewrite forceAgentCallEnabled_entries, agentInitiatorPersistEnabled_entries, Hhead, H.
    repeat split.
Qed.

End InitiatorFactsGeneric.

Section InitiatorFactsExamples.
Local Existing Instance asciiStrings.
Local Existing Instance compactText.

(** [TestApplyCopilotHeaders_XInitiator_ForcedByIncomingHeader]: the
    header set through [Header.Set], over the pure user payload. *)
Lemma shouldUseAgentInitiator_decision_witness :
  (xInitiator Fixtures.plain Fixtures.userOnly None).1 = "user" /\
  (xInitiator Fixtures.plain Fixtures.userOnly
     (Some (Header_Set ∅ "force-copilot-agent" "true"))).1 = "agent".
Proof.
  split; [vm_compute; reflexivity|].
  apply (proj2 (proj2 shouldUseAgentInitiator_decision)).
  vm_compute. reflexivity.
Defined.

(** Two entries: the second alone turns both flags on, and its profile
    settings are not consulted. *)
Lemma flags_any_entry_profile_first_entry_witness :
  let e := Some (NewCopilotExecutor
                   {| Config_CopilotKey :=
                        [ zeroCopilotKey;
                          {| HeaderProfile := "vscode-chat"; CLIHeaderModels := [];
                             VSCodeChatHeaderModels := ["gpt-5"];
                             ForceAgentCall := true; AgentInitiatorPersist := true |} ] |}) in
  forceAgentCallEnabled e = true /\
  agentInitiatorPersistEnabled e = true /\
  copilotKeyConfig e = Some zeroCopilotKey /\
  applyCopilotHeaderProfile e ∅ "gpt-5" = ∅ /\
  forceAgentCallEnabled Fixtures.plain = false.
Proof.
  destruct flags_any_entry_profile_first_entry as (Hf & Hp & Hk & Ha & Hz).
  cbv zeta. split; [|split; [|split; [|split]]].
  - apply Hf. eexists. split; [right; left; reflexivity | reflexivity].
  - apply Hp. eexists. split; [right; left; reflexivity | reflexivity].
  - rewrite Hk. reflexivity.
  - rewrite Ha. reflexivity.
  - apply Hz. reflexivity.
Defined.

End InitiatorFactsExamples.

End InitiatorFacts.

(** ** The persisted counters *)
Module CounterFacts.
Import GoStrings config HeaderProfile gjson http Hints Executor.

Definition countersOf (e : option CopilotExecutor) : gmap string Z :=
  match e with Some ex => initiatorCount ex | None => ∅ end.

Definition counterOf (e : option CopilotExecutor) (key : string) : Z :=
  counter (countersOf e) key.

(** The one case in which a call reaches the locked section. *)
Definition increments (e : option CopilotExecutor) (h : copilotHeaderHints) : bool :=
  reachesCounter e h && agentInitiatorPersistEnabled e &&
  negb (String.eqb (promptCacheKey h) "").

(** Rules (a), (c), (d), (e) fail on the hints alone, and the cache key
    is not empty. *)
Definition freshTurn (h : copilotHeaderHints) : bool :=
  negb (forceAgentFromHeaders h) && negb (agentFromPayload h) &&
  userFromPayload h && lastUserFromPayload h && negb (String.eqb (promptCacheKey h) "").

Definition keysOf (hs : list copilotHeaderHints) : list string := map promptCacheKey hs.

(** How often [key] is the cache key of a call in [hs]. *)
Fixpoint uses (key : string) (hs : list copilotHeaderHints) : Z :=
  match hs with
  | [] => 0
  | h :: rest => (if String.eqb (promptCacheKey h) key then 1 else 0) + uses key rest
  end.

Lemma counter_insert_eq m k v : counter (<[k := v]> m) k = v.
Proof. unfold counter. now rewrite lookup_insert_eq. Qed.

Lemma counter_insert_ne m k k' v : k <> k' -> counter (<[k := v]> m) k' = counter m k'.
Proof. intros H. unfold counter. now rewrite lookup_insert_ne. Qed.

Lemma step_entries e h : entries (shouldUseAgentInitiator e h).2 = entries e.
Proof.
  unfold shouldUseAgentInitiator.
  repeat match goal with
         | |- context [if ?b then _ else _] => destruct b; try reflexivity
         end.
  destruct e as [ex|]; [|reflexivity].
  destruct (agentInitiatorPersistEnabled (Some ex) && negb (String.eqb (promptCacheKey h) ""));
    reflexivity.
Qed.

Lemma step_idle e h : increments e h = false -> (shouldUseAgentInitiator e h).2 = e.
Proof.
  unfold increments, reachesCounter, shouldUseAgentInitiator.
  destruct (forceAgentFromHeaders h); [reflexivity|].
  destruct (forceAgentCallEnabled e); [reflexivity|].
  destruct (agentFromPayload h); [reflexivity|].
  destruct (userFromPayload h); [|reflexivity].
  destruct (lastUserFromPayload h); [|reflexivity]. cbn [negb andb].
  destruct e as [ex|]; [|reflexivity].
  intros ->. reflexivity.
Qed.

Lemma step_bump e h :
  increments e h = true ->
  exists ex, e = Some ex /\
    shouldUseAgentInitiator e h
    = ((0 <? counter (initiatorCount ex) (promptCacheKey h))%Z,
       Some {| cfg := cfg ex;
               initiatorCount :=
                 <[promptCacheKey h := (counter (initiatorCount ex) (promptCacheKey h) + 1)%Z]>
                   (initiatorCount ex) |}).
Proof.
  unfold increments, reachesCounter, shouldUseAgentInitiator.
  destruct (forceAgentFromHeaders h); [discriminate|].
  destruct (forceAgentCallEnabled e); [discriminate|].
  destruct (agentFromPayload h); [discriminate|].
  destruct (userFromPayload h); [|discriminate].
  destruct (lastUserFromPayload h); [|discriminate]. cbn [negb andb].
  destruct e as [ex|]; [|discriminate].
  intros ->. exists ex. split; reflexivity.
Qed.

Lemma step_counters e h :
  countersOf (shouldUseAgentInitiator e h).2
  = if increments e h
    then <[promptCacheKey h := (counterOf e (promptCacheKey h) + 1)%Z]> (countersOf e)
    else countersOf e.
Proof.
  destruct (increments e h) eqn:E.
  - destruct (step_bump e h E) as (ex & -> & ->). reflexivity.
  - now rewrite step_idle.
Qed.

Lemma step_monotone e h k :
  (counterOf e k <= counterOf (shouldUseAgentInitiator e h).2 k)%Z /\
  (is_Some (countersOf e !! k) -> is_Some (countersOf (shouldUseAgentInitiator e h).2 !! k)).
Proof.
  unfold counterOf. rewrite step_counters.
  destruct (increments e h); [|split; [lia | auto]].
  destruct (decide (promptCacheKey h = k)) as [->|Hne].
  - rewrite counter_insert_eq, lookup_insert_eq. unfold counterOf. split; [lia | eauto].
  - rewrite counter_insert_ne, lookup_insert_ne by exact Hne. split; [lia | auto].
Qed.

Lemma classifyAll_cons e h rest :
  classifyAll e (h :: rest)
  = ((shouldUseAgentInitiator e h).1 :: (classifyAll (shouldUseAgentInitiator e h).2 rest).1,
     (classifyAll (shouldUseAgentInitiator e h).2 rest).2).
Proof.
  cbn [classifyAll]. destruct (shouldUseAgentInitiator e h) as [v e1].
  cbn [fst snd]. destruct (classifyAll e1 rest) as [vs e2]. reflexivity.
Qed.

Lemma classifyAll_monotone hs : forall e k,
  (counterOf e k <= counterOf (classifyAll e hs).2 k)%Z /\
  (is_Some (countersOf e !! k) -> is_Some (countersOf (classifyAll e hs).2 !! k)).
Proof.
  induction hs as [|h rest IH]; intros e k; [split; [cbn; lia | auto]|].
  rewrite classifyAll_cons. cbn [snd].
  destruct (step_monotone e h k) as [H1 H2].
  destruct (IH (shouldUseAgentInitiator e h).2 k) as [H3 H4].
  split; [lia | auto].
Qed.

Lemma uses_nonneg key hs : (0 <= uses key hs)%Z.
Proof.
  induction hs as [|h rest IH]; cbn [uses]; [lia|].
  destruct (String.eqb (promptCacheKey h) key); lia.
Qed.

Lemma uses_positive key hs : (0 <? uses key hs)%Z = bool_decide (key ∈ keysOf hs).
Proof.
  induction hs as [|h rest IH]; cbn [uses keysOf map].
  - symmetry. apply bool_decide_eq_false. apply not_elem_of_nil.
  - pose proof (uses_nonneg key rest) as Hnn.
    destruct (String.eqb (promptCacheKey h) key) eqn:E.
    + apply String.eqb_eq in E. rewrite E.
      transitivity true; [apply Z.ltb_lt; lia|].
      symmetry. apply bool_decide_eq_true. apply elem_of_cons. now left.
    + apply String.eqb_neq in E. rewrite Z.add_0_l, IH.
      apply bool_decide_ext. rewrite elem_of_cons. unfold keysOf.
      split; [now right | intros [Heq | Hin]; [congruence | exact Hin]].
Qed.

Lemma flags_of_cfg ex m :
  forceAgentCallEnabled (Some {| cfg := cfg ex; initiatorCount := m |})
  = forceAgentCallEnabled (Some ex) /\
  agentInitiatorPersistEnabled (Some {| cfg := cfg ex; initiatorCount := m |})
  = agentInitiatorPersistEnabled (Some ex).
Proof. split; reflexivity. Qed.

Lemma freshTurn_increments ex h :
  forceAgentCallEnabled (Some ex) = false ->
  agentInitiatorPersistEnabled (Some ex) = true ->
  freshTurn h = true -> increments (Some ex) h = true.
Proof.
  unfold freshTurn, increments, reachesCounter. intros -> ->.
  destruct (forceAgentFromHeaders h), (agentFromPayload h), (userFromPayload h),
    (lastUserFromPayload h), (String.eqb (promptCacheKey h) ""); cbn; congruence.
Qed.

(** With persistence on, the verdict of the call at position [i] is
    whether the counter found at the start plus the earlier uses of its key
    in the sequence is positive. *)
Lemma classifyAll_persist hs : forall ex,
  forceAgentCallEnabled (Some ex) = false ->
  agentInitiatorPersistEnabled (Some ex) = true ->
  forallb freshTurn hs = true ->
  forall i h, hs !! i = Some h ->
    (classifyAll (Some ex) hs).1 !! i
    = Some (0 <? counter (initiatorCount ex) (promptCacheKey h)
                 + uses (promptCacheKey h) (take i hs))%Z.
Proof.
  induction hs as [|a rest IH]; intros ex Hf Hp Hall i h Hi; [discriminate|].
  cbn [forallb] in Hall. apply andb_prop in Hall as [Ha Hrest].
  rewrite classifyAll_cons. cbn [fst].
  destruct (step_bump (Some ex) a (freshTurn_increments ex a Hf Hp Ha)) as (ex0 & Hex & Hstep).
  injection Hex as <-. rewrite Hstep. cbn [fst snd].
  destruct i as [|i].
  - cbn in Hi. injection Hi as <-. cbn [take uses lookup list_lookup].
    now rewrite Z.add_0_r.
  - cbn in Hi. cbn [lookup list_lookup].
    rewrite (IH _ (eq_trans (proj1 (flags_of_cfg ex _)) Hf)
                  (eq_trans (proj2 (flags_of_cfg ex _)) Hp) Hrest i h Hi).
    cbn [initiatorCount take uses]. f_equal. f_equal.
    destruct (String.eqb (promptCacheKey a) (promptCacheKey h)) eqn:E.
    + apply String.eqb_eq in E. rewrite E, counter_insert_eq. lia.
    + apply String.eqb_neq in E. rewrite counter_insert_ne by exact E. lia.
Qed.

(** With persistence off, nothing is counted and every fresh turn is a
    user call. *)
Lemma classifyAll_no_persist hs : forall e,
  forceAgentCallEnabled e = false ->
  agentInitiatorPersistEnabled e = false ->
  forallb freshTurn hs = true ->
  (classifyAll e hs).1 = map (fun _ => false) hs.
Proof.
  induction hs as [|a rest IH]; intros e Hf Hp Hall; [reflexivity|].
  cbn [forallb] in Hall. apply andb_prop in Hall as [Ha Hrest].
  rewrite classifyAll_cons. cbn [fst map].
  assert (Hidle : increments e a = false).
  { unfold increments. rewrite Hp. now rewrite andb_false_r. }
  assert (Hv : (shouldUseAgentInitiator e a).1 = false).
  { rewrite InitiatorFacts.decision_rules_agree.
    unfold initiatorBySpec, initiatorRules.
    rewrite <- InitiatorFacts.forceAgentCallEnabled_entries,
      <- InitiatorFacts.agentInitiatorPersistEnabled_entries, Hf, Hp.
    unfold freshTurn in Ha.
    destruct (forceAgentFromHeaders a), (agentFromPayload a), (userFromPayload a),
      (lastUserFromPayload a); cbn in Ha |- *; congruence. }
  rewrite Hv, (step_idle e a Hidle), (IH e Hf Hp Hrest). reflexivity.
Qed.

End CounterFacts.

Module PersistenceFacts.
Import GoStrings config HeaderProfile gjson http Hints Executor CounterFacts.

(** C4: a call leaves the executor as it was unless rules (a) to (e) all
    fail, persistence is on and the cache key is not empty; in that case
    the counter of that key goes up by exactly one, every other entry and
    the configuration stay as they were; over any sequence of calls no
    counter goes down and no entry disappears. *)
Theorem shouldUseAgentInitiator_frame :
  (forall e h, increments e h = false -> (shouldUseAgentInitiator e h).2 = e) /\
  (forall e h, increments e h = true ->
      entries (shouldUseAgentInitiator e h).2 = entries e /\
      counterOf (shouldUseAgentInitiator e h).2 (promptCacheKey h)
      = (counterOf e (promptCacheKey h) + 1)%Z /\
      forall k, k <> promptCacheKey h ->
                countersOf (shouldUseAgentInitiator e h).2 !! k = countersOf e !! k) /\
  (forall e hs k,
      (counterOf e k <= counterOf (classifyAll e hs).2 k)%Z /\
      (is_Some (countersOf e !! k) -> is_Some (countersOf (classifyAll e hs).2 !! k))).
Proof.
  split; [exact step_idle|]. split; [|intros e hs k; apply classifyAll_monotone].
  intros e h H. split; [apply step_entries|].
  unfold counterOf. rewrite step_counters, H. split.
  - apply counter_insert_eq.
  - intros k Hk. apply lookup_insert_ne. congruence.
Qed.

(** C3: on an executor with no force-agent entry, for any sequence of calls
    that pass rules (a) to (e) and carry non-empty cache keys whose counters
    are zero at the start: with persistence on, a call is classified agent
    exactly when an earlier call of the sequence carried the same key, so
    for each key only its first call is a user call; with persistence off,
    every call is a user call. *)
Theorem persisted_initiator_first_call_only :
  forall e hs,
    forceAgentCallEnabled e = false ->
    forallb freshTurn hs = true ->
    (agentInitiatorPersistEnabled e = true ->
     (forall h, In h hs -> counterOf e (promptCacheKey h) = 0%Z) ->
     (forall i h, hs !! i = Some h ->
        (classifyAll e hs).1 !! i
        = Some (bool_decide (promptCacheKey h ∈ keysOf (take i hs)))) /\
     (forall i j hi hj,
        hs !! i = Some hi -> hs !! j = Some hj ->
        promptCacheKey hi = promptCacheKey hj ->
        (classifyAll e hs).1 !! i = Some false ->
        (classifyAll e hs).1 !! j = Some false -> i = j)) /\
    (agentInitiatorPersistEnabled e = false ->
     (classifyAll e hs).1 = map (fun _ => false) hs).
Proof.
  intros e hs Hf Hall. split; [|intros Hp; now apply classifyAll_no_persist].
  intros Hp Hzero.
  assert (Hchar : forall i h, hs !! i = Some h ->
            (classifyAll e hs).1 !! i
            = Some (bool_decide (promptCacheKey h ∈ keysOf (take i hs)))).
  { intros i h Hi. destruct e as [ex|]; [|discriminate].
    rewrite (classifyAll_persist hs ex Hf Hp Hall i h Hi).
    assert (Hin : In h hs).
    { apply list_elem_of_In. eapply list_elem_of_lookup_2. exact Hi. }
    specialize (Hzero h Hin). unfold counterOf, countersOf in Hzero.
    now rewrite Hzero, Z.add_0_l, uses_positive. }
  split; [exact Hchar|].
  assert (Hlt : forall i j hi hj,
            hs !! i = Some hi -> hs !! j = Some hj ->
            promptCacheKey hi = promptCacheKey hj -> i < j ->
            (classifyAll e hs).1 !! j = Some false -> False).
  { intros i j hi hj Hi Hj Hk Hij Hvj.
    rewrite (Hchar j hj Hj) in Hvj. injection Hvj as Hvj.
    apply bool_decide_eq_false in Hvj. apply Hvj.
    rewrite <- Hk. unfold keysOf. apply list_elem_of_In, in_map, list_elem_of_In.
    eapply list_elem_of_lookup_2. rewrite lookup_take_lt by exact Hij. exact Hi. }
  intros i j hi hj Hi Hj Hk Hvi Hvj.
  destruct (Nat.lt_trichotomy i j) as [Hij | [Hij | Hij]]; [|exact Hij|].
  - exfalso. exact (Hlt i j hi hj Hi Hj Hk Hij Hvj).
  - exfalso. exact (Hlt j i hj hi Hj Hi (eq_sym Hk) Hij Hvi).
Qed.

Section PersistenceFactsExamples.
Local Existing Instance asciiStrings.
Local Existing Instance compactText.

(** One counted call on a fresh executor, one uncounted call. *)
Lemma shouldUseAgentInitiator_frame_witness :
  let h := collectCopilotHeaderHints (Fixtures.threadPayload "thread-1") None in
  counterOf (shouldUseAgentInitiator Fixtures.persisting h).2 "thread-1" = 1%Z /\
  countersOf (shouldUseAgentInitiator Fixtures.persisting h).2 !! "thread-2" = None /\
  (shouldUseAgentInitiator Fixtures.plain h).2 = Fixtures.plain.
Proof.
  destruct shouldUseAgentInitiator_frame as (Hidle & Hbump & _).
  cbv zeta. split; [|split].
  - destruct (Hbump Fixtures.persisting
                (collectCopilotHeaderHints (Fixtures.threadPayload "thread-1") None))
      as (_ & Hc & _); [vm_compute; reflexivity|].
    etransitivity; [exact Hc | vm_compute; reflexivity].
  - destruct (Hbump Fixtures.persisting
                (collectCopilotHeaderHints (Fixtures.threadPayload "thread-1") None))
      as (_ & _ & Ho); [vm_compute; reflexivity|].
    etransitivity; [apply Ho; vm_compute; congruence | vm_compute; reflexivity].
  - apply Hidle. vm_compute. reflexivity.
Defined.

(** [TestApplyCopilotHeaders_XInitiator_PersistAcrossCalls], with a second
    thread after the two calls of the first. *)
Lemma persisted_initiator_first_call_only_witness :
  let h1 := collectCopilotHeaderHints (Fixtures.threadPayload "thread-1") None in
  let h2 := collectCopilotHeaderHints (Fixtures.threadPayload "thread-2") None in
  (classifyAll Fixtures.persisting [h1; h1; h2]).1 !! 0 = Some false /\
  (classifyAll Fixtures.persisting [h1; h1; h2]).1 !! 1 = Some true /\
  (classifyAll Fixtures.persisting [h1; h1; h2]).1 !! 2 = Some false /\
  (classifyAll Fixtures.plain [h1; h1; h2]).1 = [false; false; false].
Proof.
  cbv zeta.
  set (h1 := collectCopilotHeaderHints (Fixtures.threadPayload "thread-1") None).
  set (h2 := collectCopilotHeaderHints (Fixtures.threadPayload "thread-2") None).
  destruct (persisted_initiator_first_call_only Fixtures.persisting [h1; h1; h2])
    as [Hon _]; [reflexivity | vm_compute; reflexivity |].
  destruct Hon as [Hchar _]; [reflexivity | |].
  { intros h [<- | [<- | [<- | []]]]; vm_compute; reflexivity. }
  destruct (persisted_initiator_first_call_only Fixtures.plain [h1; h1; h2])
    as [_ Hoff]; [reflexivity | vm_compute; reflexivity |].
  split; [|split; [|split]].
  - etransitivity; [apply (Hchar 0 h1); reflexivity | vm_compute; reflexivity].
  - etransitivity; [apply (Hchar 1 h1); reflexivity | vm_compute; reflexivity].
  - etransitivity; [apply (Hchar 2 h2); reflexivity | vm_compute; reflexivity].
  - etransitivity; [apply Hoff; reflexivity | reflexivity].
Defined.

End PersistenceFactsExamples.

End PersistenceFacts.

(** ** When hint collection reports an agent signal *)
Module HintFacts.
Import GoStrings gjson http Hints.

Section HintFactsGeneric.
Context {lib : Strings} {src : SourceText}.

(** A role that is there and is not the user's. *)
Definition otherRole (item : JSON) : bool :=
  negb (String.eqb (roleOf item) "") && negb (String.eqb (roleOf item) "user").

Definition agentRole (item : JSON) : bool :=
  String.eqb (roleOf item) "assistant" || String.eqb (roleOf item) "tool".

(** The signals as the code reads them. *)
Definition agentSignal (payload : JSON) : bool :=
  Exists (GetBytes payload "previous_response_id") ||
  nonEmptyArray (GetBytes payload "tools") ||
  nonEmptyArray (GetBytes payload "functions") ||
  (Exists (GetBytes payload "tool_choice") &&
   negb (String.eqb (String_ (GetBytes payload "tool_choice")) "none")) ||
  (IsArray (GetBytes payload "messages") &&
   existsb otherRole (Array (GetBytes payload "messages"))) ||
  (IsArray (GetBytes payload "input") &&
   existsb (fun item => otherRole item || isResponsesAPIAgentItem item)
           (Array (GetBytes payload "input"))).

(** The signals as the specification lists them: an assistant or tool
    role in [messages], an assistant or tool role or a listed type in
    [input], a non-empty [previous_response_id], non-empty [tools] or
    [functions], a [tool_choice] other than [none]. *)
Definition listedAgentSignal (payload : JSON) : bool :=
  (IsArray (GetBytes payload "messages") &&
   existsb agentRole (Array (GetBytes payload "messages"))) ||
  (IsArray (GetBytes payload "input") &&
   existsb isResponsesAPIAgentItem (Array (GetBytes payload "input"))) ||
  negb (String.eqb (String_ (GetBytes payload "previous_response_id")) "") ||
  nonEmptyArray (GetBytes payload "tools") ||
  nonEmptyArray (GetBytes payload "functions") ||
  (Exists (GetBytes payload "tool_choice") &&
   negb (String.eqb (String_ (GetBytes payload "tool_choice")) "none")).

Lemma scanMessages_agent arr : forall h,
  agentFromPayload (scanMessages arr h) = agentFromPayload h || existsb otherRole arr.
Proof.
  induction arr as [|msg rest IH]; intros h; cbn [scanMessages existsb].
  - now rewrite orb_false_r.
  - rewrite IH. unfold otherRole.
    destruct (String.eqb (roleOf msg) "user") eqn:Eu.
    + cbn. now rewrite andb_false_r.
    + destruct (String.eqb (roleOf msg) ""); cbn;
        [reflexivity | now rewrite orb_true_r].
Qed.

Lemma scanInput_agent arr : forall h,
  agentFromPayload (scanInput arr h)
  = agentFromPayload h ||
    existsb (fun item => otherRole item || isResponsesAPIAgentItem item) arr.
Proof.
  induction arr as [|item rest IH]; intros h; cbn [scanInput existsb].
  - now rewrite orb_false_r.
  - rewrite IH. unfold otherRole.
    destruct (String.eqb (roleOf item) "user"); cbn;
      now rewrite <- !orb_assoc.
Qed.

Lemma collect_agent payload headers :
  agentFromPayload (collectCopilotHeaderHints payload headers) = agentSignal payload.
Proof.
  unfold collectCopilotHeaderHints, agentSignal.
  destruct (IsArray (GetBytes payload "input"));
    destruct (IsArray (GetBytes payload "messages"));
    rewrite ?scanInput_agent, ?scanMessages_agent; cbn;
    rewrite ?orb_false_r; reflexivity.
Qed.

Lemma agentRole_other item : agentRole item = true -> otherRole item = true.
Proof.
  unfold agentRole, otherRole. intros H. apply orb_prop in H as [H | H];
    apply String.eqb_eq in H; rewrite H; reflexivity.
Qed.

Lemma existsb_weaken {A} (p q : A -> bool) l :
  (forall x, p x = true -> q x = true) -> existsb p l = true -> existsb q l = true.
Proof.
  intros Hpq H. apply existsb_exists in H as (x & Hin & Hx).
  apply existsb_exists. exists x. auto.
Qed.

Lemma listed_is_signal payload : listedAgentSignal payload = true -> agentSignal payload = true.
Proof.
  unfold listedAgentSignal, agentSignal. intros H.
  repeat (apply orb_prop in H as [H | H]).
  - apply andb_prop in H as [Ha He]. rewrite Ha.
    rewrite (existsb_weaken _ _ _ agentRole_other He). cbn. now rewrite !orb_true_r.
  - apply andb_prop in H as [Ha He]. rewrite Ha.
    rewrite (existsb_weaken isResponsesAPIAgentItem
               (fun item => otherRole item || isResponsesAPIAgentItem item) _
               (fun x Hx => eq_trans (f_equal (orb (otherRole x)) Hx) (orb_true_r _)) He).
    cbn. now rewrite !orb_true_r.
  - destruct (GetBytes payload "previous_response_id"); [reflexivity | discriminate].
  - rewrite H. now rewrite ?orb_true_r.
  - rewrite H. now rewrite ?orb_true_r.
  - rewrite H. now rewrite ?orb_true_r.
Qed.

(** The two payloads that the listed signals miss, under every
    implementation of the string functions: their roles are ASCII. *)
Lemma unlisted_signals_any_library :
  (listedAgentSignal Fixtures.systemAndUser = false /\
   agentFromPayload (collectCopilotHeaderHints Fixtures.systemAndUser None) = true) /\
  (let p := JObject [("previous_response_id", JString "");
                     ("messages", JArray [Fixtures.userText "hello"])] in
   listedAgentSignal p = false /\
   agentFromPayload (collectCopilotHeaderHints p None) = true).
Proof.
  cbv zeta. rewrite !collect_agent.
  unfold listedAgentSignal, agentSignal, agentRole, otherRole, roleOf, Fixtures.systemAndUser,
    Fixtures.userText.
  cbn [GetBytes Get lookupField String.eqb Ascii.eqb Bool.eqb IsArray Array Exists String_
       nonEmptyArray existsb andb orb negb length Nat.ltb Nat.leb].
  on_ascii. repeat split.
Qed.

(** C2, amended: agentFromPayload is true exactly when previous_response_id
    is present, or tools or functions is a non-empty array, or tool_choice
    is present and reads, through String(), as anything but none, or some
    messages[] entry has a role that trimmed and lower-cased is neither
    empty nor user, or some input[] entry has such a role or a type of the
    closed set.  Every signal the specification lists is one of these, and
    so is a tool_choice of null. *)
Theorem agentFromPayload_signals :
  (forall payload headers,
      agentFromPayload (collectCopilotHeaderHints payload headers) = agentSignal payload) /\
  (forall payload headers,
      listedAgentSignal payload = true ->
      agentFromPayload (collectCopilotHeaderHints payload headers) = true) /\
  (forall payload headers,
      GetBytes payload "tool_choice" = Some JNull ->
      agentFromPayload (collectCopilotHeaderHints payload headers) = true).
Proof.
  split; [exact collect_agent|]. split.
  - intros payload headers H. rewrite collect_agent. now apply listed_is_signal.
  - intros payload headers H. rewrite collect_agent. unfold agentSignal. rewrite H.
    cbn [Exists String_ String.eqb andb negb]. now rewrite !orb_true_r.
Qed.

End HintFactsGeneric.

Section HintFactsExamples.
Local Existing Instance asciiStrings.
Local Existing Instance compactText.

(** C2 as stated fails: a system message next to the user message is none
    of the listed signals, yet the hints report an agent signal (the case
    of the test named chat completions - system and user only); so does an
    empty [previous_response_id]. *)
Lemma agentFromPayload_listed_only_counterexample :
  (listedAgentSignal Fixtures.systemAndUser = false /\
   agentFromPayload (collectCopilotHeaderHints Fixtures.systemAndUser None) = true) /\
  (let p := JObject [("previous_response_id", JString "");
                     ("messages", JArray [Fixtures.userText "hello"])] in
   listedAgentSignal p = false /\
   agentFromPayload (collectCopilotHeaderHints p None) = true).
Proof. exact unlisted_signals_any_library. Qed.

(** A function call item after the user message. *)
Lemma agentFromPayload_signals_witness :
  agentFromPayload
    (collectCopilotHeaderHints
       (JObject [("input", JArray [Fixtures.userText "hello";
                                   JObject [("type", JString "function_call");
                                            ("call_id", JString "123")]])])
       None) = true.
Proof. apply (proj1 (proj2 agentFromPayload_signals)). vm_compute. reflexivity. Defined.

End HintFactsExamples.

End HintFacts.

(** ** AliasResolver: [resolveCodexAlias] *)
Module Alias.
Import GoStrings.

(** Modelled from the spec: [resolveCodexAlias] is not among the sources,
    only [TestResolveCodexAlias] is.  The families of the table are tried
    in order; the first one whose name followed by a hyphen starts the
    identifier fixes the family, and only then is the rest of the
    identifier looked up in that family's effort vocabulary.  A failure
    returns two empty strings, as the test expects. *)
Fixpoint resolveIn (table : list (string * list string)) (modelName : string)
  : string * string * bool :=
  match table with
  | [] => ("", "", false)
  | (family, efforts) :: rest =>
      if HasPrefix modelName (family ++ "-") then
        let suffix := TrimPrefix modelName (family ++ "-") in
        if existsb (String.eqb suffix) efforts then (family, suffix, true)
        else ("", "", false)
      else resolveIn rest modelName
  end.

(** Modelled from the spec: the table itself is not among the sources.
    Its families are the ones the test names, longest first; the
    vocabularies are the three the specification gives, by generation. *)
Definition effortsGPT5 : list string := ["minimal"; "low"; "medium"; "high"].
Definition effortsGPT51 : list string := ["none"; "low"; "medium"; "high"].
Definition effortsXHigh : list string := ["none"; "low"; "medium"; "high"; "xhigh"].

Definition codexFamilies : list (string * list string) :=
  [ ("gpt-5.1-codex-max", effortsXHigh);
    ("gpt-5.2-codex", effortsXHigh);
    ("gpt-5-codex", effortsGPT5);
    ("gpt-5.1", effortsGPT51);
    ("gpt-5.2", effortsXHigh);
    ("gpt-5", effortsGPT5) ].

Definition resolveCodexAlias (modelName : string) : string * string * bool :=
  resolveIn codexFamilies modelName.

Fixpoint hasHyphen (s : string) : bool :=
  match s with
  | EmptyString => false
  | String c r => Ascii.eqb c "-" || hasHyphen r
  end.

(** No family of the table is mistaken for an earlier one: an earlier
    family followed by a hyphen never starts a later family followed by a
    hyphen.  A table sorted longest family first with distinct names has
    this property. *)
Fixpoint wellOrdered (table : list (string * list string)) : bool :=
  match table with
  | [] => true
  | (family, _) :: rest =>
      forallb (fun entry => negb (HasPrefix (fst entry ++ "-") (family ++ "-"))) rest
      && wellOrdered rest
  end.

Definition plainEfforts (table : list (string * list string)) : bool :=
  forallb (fun entry => forallb (fun s => negb (hasHyphen s)) (snd entry)) table.

Lemma append_assoc (a b c : string) : (a ++ b) ++ c = a ++ (b ++ c).
Proof.
  induction a as [|x a IH]; [reflexivity|].
  change (String x ((a ++ b) ++ c) = String x (a ++ (b ++ c))). now rewrite IH.
Qed.

Lemma hasHyphen_tail p : hasHyphen (p ++ "-") = true.
Proof.
  induction p as [|c p IH]; [reflexivity|].
  change (Ascii.eqb c "-" || hasHyphen (p ++ "-") = true). now rewrite IH, orb_true_r.
Qed.

Lemma hasHyphen_prefix s x : HasPrefix s x = true -> hasHyphen x = true -> hasHyphen s = true.
Proof.
  revert s. induction x as [|c x IH]; intros s Hp Hx; [discriminate|].
  destruct s as [|d s]; [discriminate|]. cbn in Hp, Hx |- *.
  apply andb_prop in Hp as [Hc Hp]. apply Ascii.eqb_eq in Hc. subst d.
  destruct (Ascii.eqb c "-"); [reflexivity|]. cbn in Hx |- *. now apply IH.
Qed.

(** A prefix of [a ++ s] either is a prefix of [a] or runs past it into
    [s]. *)
Lemma HasPrefix_app_cases a s p :
  HasPrefix (a ++ s) p = true ->
  HasPrefix a p = true \/ exists x, p = a ++ x /\ HasPrefix s x = true.
Proof.
  revert p. induction a as [|c a IH]; intros p H.
  - right. exists p. split; [reflexivity | exact H].
  - destruct p as [|d p]; [left; reflexivity|].
    change (HasPrefix (String c (a ++ s)) (String d p) = true) in H. cbn in H.
    apply andb_prop in H as [Hc Hp]. apply Ascii.eqb_eq in Hc. subst d.
    destruct (IH p Hp) as [Hl | (x & -> & Hx)].
    + left. cbn. now rewrite Ascii.eqb_refl.
    + right. exists x. split; [reflexivity | exact Hx].
Qed.

Lemma tail_hyphen_in_rest p a x : p ++ "-" = a ++ x -> x <> "" -> hasHyphen x = true.
Proof.
  revert p. induction a as [|c a IH]; intros p H Hx.
  - change (p ++ "-" = x) in H. subst x. apply hasHyphen_tail.
  - destruct p as [|d p].
    + change ("-" = String c (a ++ x)) in H. injection H as _ H.
      destruct a as [|e a]; [change ("" = x) in H; congruence|].
      change ("" = String e (a ++ x)) in H. discriminate.
    + change (String d (p ++ "-") = String c (a ++ x)) in H. injection H as _ H.
      now apply (IH p).
Qed.

Lemma HasPrefix_refl s : HasPrefix s s = true.
Proof. induction s as [|c s IH]; cbn; [reflexivity | now rewrite Ascii.eqb_refl]. Qed.

(** An earlier family cannot claim [family-s] when [s] has no hyphen. *)
Lemma earlier_family_misses earlier family s :
  HasPrefix (family ++ "-") (earlier ++ "-") = false ->
  hasHyphen s = false ->
  HasPrefix (family ++ "-" ++ s) (earlier ++ "-") = false.
Proof.
  intros Hord Hs. destruct (HasPrefix (family ++ "-" ++ s) (earlier ++ "-")) eqn:E;
    [|reflexivity].
  rewrite <- append_assoc in E.
  destruct (HasPrefix_app_cases _ _ _ E) as [Hl | (x & Hx & Hpx)]; [congruence|].
  destruct x as [|c x].
  - exfalso. assert (Heq : earlier ++ "-" = family ++ "-").
    { rewrite Hx. clear. induction (family ++ "-") as [|c r IH]; [reflexivity|].
      change (String c (r ++ "") = String c r). now rewrite IH. }
    rewrite Heq, HasPrefix_refl in Hord. discriminate.
  - assert (Hh : hasHyphen (String c x) = true).
    { eapply tail_hyphen_in_rest; [exact Hx | discriminate]. }
    rewrite (hasHyphen_prefix _ _ Hpx Hh) in Hs. discriminate.
Qed.

Section Resolver.
Variable table : list (string * list string).

Lemma resolveIn_sound modelName family effort :
  resolveIn table modelName = (family, effort, true) ->
  exists efforts, In (family, efforts) table /\ In effort efforts /\
                  modelName = family ++ "-" ++ effort.
Proof.
  induction table as [|[f effs] rest IH]; cbn [resolveIn]; [discriminate|].
  destruct (HasPrefix modelName (f ++ "-")) eqn:Hp.
  - destruct (existsb (String.eqb (TrimPrefix modelName (f ++ "-"))) effs) eqn:He;
      [|discriminate].
    intros [= <- <-]. exists effs. split; [now left|]. split.
    + apply existsb_exists in He as (s & Hin & Hs). apply String.eqb_eq in Hs.
      now rewrite Hs.
    + rewrite <- append_assoc. now apply HasPrefix_split.
  - intros H. destruct (IH H) as (effs' & Hin & Hrest). exists effs'.
    split; [now right | exact Hrest].
Qed.

Lemma resolveIn_failure modelName :
  snd (resolveIn table modelName) = false -> resolveIn table modelName = ("", "", false).
Proof.
  induction table as [|[f effs] rest IH]; cbn [resolveIn]; [reflexivity|].
  destruct (HasPrefix modelName (f ++ "-")); [|exact IH].
  destruct (existsb _ effs); [discriminate | reflexivity].
Qed.

(** Past the earlier families, the family's own turn decides. *)
Lemma resolveIn_at family efforts suffix :
  wellOrdered table = true ->
  In (family, efforts) table -> hasHyphen suffix = false ->
  resolveIn table (family ++ "-" ++ suffix)
  = if existsb (String.eqb suffix) efforts then (family, suffix, true)
    else ("", "", false).
Proof.
  induction table as [|[f effs] rest IH]; intros Hord Hin Hs; [destruct Hin|].
  cbn [wellOrdered forallb fst snd] in Hord.
  apply andb_prop in Hord as [Hhead Hord].
  cbn [resolveIn]. destruct Hin as [[= -> ->] | Hin].
  - now rewrite <- append_assoc, HasPrefix_app, TrimPrefix_app.
  - replace (HasPrefix (family ++ "-" ++ suffix) (f ++ "-")) with false;
      [now apply IH|].
    symmetry. apply earlier_family_misses; [|exact Hs].
    rewrite forallb_forall in Hhead. specialize (Hhead _ Hin). cbn in Hhead.
    now apply negb_true_iff in Hhead.
Qed.

Lemma resolveIn_complete family efforts effort :
  wellOrdered table = true -> plainEfforts table = true ->
  In (family, efforts) table -> In effort efforts ->
  resolveIn table (family ++ "-" ++ effort) = (family, effort, true).
Proof.
  intros Hord Hplain Hin Heff.
  assert (Hs : hasHyphen effort = false).
  { unfold plainEfforts in Hplain. rewrite forallb_forall in Hplain.
    specialize (Hplain _ Hin). cbn in Hplain. rewrite forallb_forall in Hplain.
    specialize (Hplain _ Heff). now apply negb_true_iff in Hplain. }
  rewrite (resolveIn_at family efforts effort Hord Hin Hs).
  replace (existsb (String.eqb effort) efforts) with true; [reflexivity|].
  symmetry. apply existsb_exists. exists effort. split; [exact Heff|].
  apply String.eqb_refl.
Qed.
End Resolver.

(** C6: on the table of known families, the resolver answers ok with base
    F and effort s exactly when the identifier is F-s for a known family F
    and an effort s of F's vocabulary; gpt-5.1-codex-max-xhigh resolves to
    gpt-5.1-codex-max and xhigh; gpt-5-codex is not read as gpt-5 with
    suffix codex; every bare family name, claude-sonnet-4, the empty string
    and a known family followed by a suffix outside its vocabulary give
    ok=false with empty strings. *)
Theorem resolveCodexAlias_spec :
  (forall modelName family effort,
      resolveCodexAlias modelName = (family, effort, true) <->
      (exists efforts, In (family, efforts) codexFamilies /\ In effort efforts /\
                       modelName = family ++ "-" ++ effort)) /\
  (forall modelName,
      snd (resolveCodexAlias modelName) = false ->
      resolveCodexAlias modelName = ("", "", false)) /\
  resolveCodexAlias "gpt-5.1-codex-max-xhigh" = ("gpt-5.1-codex-max", "xhigh", true) /\
  (forall suffix, resolveCodexAlias "gpt-5-codex" <> ("gpt-5", suffix, true)) /\
  (forall family efforts,
      In (family, efforts) codexFamilies -> resolveCodexAlias family = ("", "", false)) /\
  resolveCodexAlias "claude-sonnet-4" = ("", "", false) /\
  resolveCodexAlias "" = ("", "", false) /\
  (forall family efforts suffix,
      In (family, efforts) codexFamilies ->
      hasHyphen suffix = false -> ~ In suffix efforts ->
      resolveCodexAlias (family ++ "-" ++ suffix) = ("", "", false)).
Proof.
  assert (Hord : wellOrdered codexFamilies = true) by reflexivity.
  assert (Hplain : plainEfforts codexFamilies = true) by reflexivity.
  split; [|split; [|split; [|split; [|split; [|split; [|split]]]]]].
  - intros modelName family effort. split.
    + apply resolveIn_sound.
    + intros (efforts & Hin & Heff & ->). now apply (resolveIn_complete _ family efforts).
  - apply resolveIn_failure.
  - reflexivity.
  - intros suffix. discriminate.
  - intros family efforts Hin. unfold codexFamilies in Hin. cbn [In] in Hin.
    repeat (destruct Hin as [[= <- <-] | Hin]; [reflexivity|]). destruct Hin.
  - reflexivity.
  - reflexivity.
  - intros family efforts suffix Hin Hs Hnot. unfold resolveCodexAlias.
    rewrite (resolveIn_at _ family efforts suffix Hord Hin Hs).
    destruct (existsb (String.eqb suffix) efforts) eqn:E; [|reflexivity].
    exfalso. apply Hnot. apply existsb_exists in E as (s & Hsin & Heq).
    apply String.eqb_eq in Heq. now subst s.
Qed.

(** Cases of [TestResolveCodexAlias], and an unknown effort. *)
Lemma resolveCodexAlias_spec_witness :
  resolveCodexAlias "gpt-5.2-codex-xhigh" = ("gpt-5.2-codex", "xhigh", true) /\
  resolveCodexAlias "gpt-5" = ("", "", false) /\
  resolveCodexAlias "gpt-5-ultra" = ("", "", false).
Proof.
  destruct resolveCodexAlias_spec as (Hiff & _ & _ & _ & Hbare & _ & _ & Hunknown).
  split; [|split].
  - apply Hiff. exists effortsXHigh. vm_compute. tauto.
  - apply (Hbare "gpt-5" effortsGPT5). vm_compute. tauto.
  - apply (Hunknown "gpt-5" effortsGPT5 "ultra"); [vm_compute; tauto | reflexivity |].
    vm_compute. intros H. repeat (destruct H as [H | H]; [discriminate|]). exact H.
Defined.

End Alias.

Example resolve_gpt5_high : Alias.resolveCodexAlias "gpt-5-high" = ("gpt-5", "high", true).
Proof. reflexivity. Qed.

Example resolve_codex_low :
  Alias.resolveCodexAlias "gpt-5-codex-low" = ("gpt-5-codex", "low", true).
Proof. reflexivity. Qed.

Example resolve_shortest_first_misparses :
  Alias.resolveIn (rev Alias.codexFamilies) "gpt-5-codex-low" = ("", "", false).
Proof. reflexivity. Qed.

(** ** PayloadMutator: [setReasoningEffortByAlias] *)
Module PayloadMutator.
Import GoStrings gjson.

Section PayloadMutatorGeneric.
Context {lib : Strings} {src : SourceText}.

(** Modelled from the spec: [setReasoningEffortByAlias] is not among the
    sources, only [TestSetReasoningEffortByAlias] is.  A request payload
    is a JSON object (the data model's RequestPayload), given by its
    members in order.  Writing a key overwrites the first member of that
    name where it stands and adds a member at the end when there is none. *)
Fixpoint setField (key : string) (v : JSON) (fields : list (string * JSON))
  : list (string * JSON) :=
  match fields with
  | [] => [(key, v)]
  | (k, x) :: rest =>
      if String.eqb k key then (k, v) :: rest else (k, x) :: setField key v rest
  end.

(** Writing [outer.inner]: into the object under [outer] when there is
    one, into a new object otherwise. *)
Definition setNested (outer inner : string) (v : JSON) (fields : list (string * JSON))
  : list (string * JSON) :=
  match lookupField outer fields with
  | Some (JObject members) => setField outer (JObject (setField inner v members)) fields
  | _ => setField outer (JObject [(inner, v)]) fields
  end.

Definition normalizeEffort (effort : string) : string := ToLower (TrimSpace effort).

Definition setReasoningEffortByAlias (payload : list (string * JSON))
    (baseModel effort : string) : list (string * JSON) :=
  let payload := setField "model" (JString baseModel) payload in
  let effort := normalizeEffort effort in
  if String.eqb effort "" then payload
  else setNested "reasoning" "effort" (JString effort) payload.

(** The members a mutation must not touch. *)
Definition others (names : list string) (fields : list (string * JSON))
  : list (string * JSON) :=
  List.filter (fun member => negb (existsb (String.eqb (fst member)) names)) fields.

Lemma lookup_setField_eq key v fields : lookupField key (setField key v fields) = Some v.
Proof.
  induction fields as [|[k x] rest IH]; cbn.
  - now rewrite String.eqb_refl.
  - destruct (String.eqb k key) eqn:E; cbn; rewrite E; [reflexivity | exact IH].
Qed.

Lemma lookup_setField_ne key key' v fields :
  key <> key' -> lookupField key' (setField key v fields) = lookupField key' fields.
Proof.
  intros Hne. induction fields as [|[k x] rest IH]; cbn.
  - apply String.eqb_neq in Hne. now rewrite Hne.
  - destruct (String.eqb k key) eqn:E; cbn.
    + apply String.eqb_eq in E. subst k. apply String.eqb_neq in Hne. now rewrite Hne.
    + now rewrite IH.
Qed.

Lemma others_setField names key v fields :
  In key names -> others names (setField key v fields) = others names fields.
Proof.
  intros Hin.
  assert (Hk : existsb (String.eqb key) names = true).
  { apply existsb_exists. exists key. split; [exact Hin | apply String.eqb_refl]. }
  unfold others. induction fields as [|[k x] rest IH]; cbn.
  - now rewrite Hk.
  - destruct (String.eqb k key) eqn:E; cbn.
    + apply String.eqb_eq in E. subst k. now rewrite Hk.
    + now rewrite IH.
Qed.

Lemma others_setNested names outer inner v fields :
  In outer names -> others names (setNested outer inner v fields) = others names fields.
Proof.
  intros Hin. unfold setNested.
  destruct (lookupField outer fields) as [[| | | | |members]|];
    now apply others_setField.
Qed.

Lemma lookupNested_setField outer inner members x fields :
  lookupField inner members = Some x ->
  lookupNested outer inner (setField outer (JObject members) fields) = Some x.
Proof.
  intros Hx. induction fields as [|[k y] rest IH]; cbn.
  - now rewrite String.eqb_refl, Hx.
  - destruct (String.eqb k outer) eqn:E; cbn; rewrite E; [now rewrite Hx | exact IH].
Qed.

Lemma nested_written outer inner v fields :
  lookupNested outer inner (setNested outer inner v fields) = Some v.
Proof.
  unfold setNested.
  destruct (lookupField outer fields) as [[| | | | |members]|];
    apply lookupNested_setField; try apply lookup_setField_eq;
    cbn; now rewrite String.eqb_refl.
Qed.

(** Below [outer], the members other than [inner] read as before. *)
Lemma nested_frame outer inner v fields key :
  inner <> key ->
  Get (lookupField outer (setNested outer inner v fields)) key
  = Get (lookupField outer fields) key.
Proof.
  intros Hne. unfold setNested.
  destruct (lookupField outer fields) as [[| | | | |members]|] eqn:E;
    rewrite lookup_setField_eq; cbn [Get];
    try (cbn; apply String.eqb_neq in Hne; now rewrite Hne).
  now apply lookup_setField_ne.
Qed.

(** C7: the output's top-level model is baseModel; when the effort,
    trimmed and lower-cased, is not empty, reasoning.effort is that value;
    when it is empty, reasoning is what it was, so an absent
    reasoning.effort stays absent; the members other than model and
    reasoning keep their values and order, and so do the members of
    reasoning other than effort. *)
Theorem setReasoningEffortByAlias_spec :
  forall payload baseModel effort,
    let out := setReasoningEffortByAlias payload baseModel effort in
    GetBytes (JObject out) "model" = Some (JString baseModel) /\
    (normalizeEffort effort <> "" ->
     GetBytes2 (JObject out) "reasoning" "effort"
     = Some (JString (normalizeEffort effort))) /\
    (normalizeEffort effort = "" ->
     out = setField "model" (JString baseModel) payload /\
     GetBytes (JObject out) "reasoning" = GetBytes (JObject payload) "reasoning" /\
     (GetBytes2 (JObject payload) "reasoning" "effort" = None ->
      GetBytes2 (JObject out) "reasoning" "effort" = None)) /\
    others ["model"; "reasoning"] out = others ["model"; "reasoning"] payload /\
    (forall key, key <> "model" -> key <> "reasoning" ->
                 GetBytes (JObject out) key = GetBytes (JObject payload) key) /\
    (forall key, key <> "effort" ->
                 Get (GetBytes (JObject out) "reasoning") key
                 = Get (GetBytes (JObject payload) "reasoning") key).
Proof.
  intros payload baseModel effort out. subst out.
  unfold setReasoningEffortByAlias, GetBytes, GetBytes2. cbn [Get Get2].
  destruct (String.eqb (normalizeEffort effort) "") eqn:E.
  - apply String.eqb_eq in E.
    split; [apply lookup_setField_eq|]. split; [congruence|]. split.
    + intros _. split; [reflexivity|]. split.
      * now apply lookup_setField_ne.
      * intros Hnone. rewrite <- Hnone. clear.
        induction payload as [|[k x] rest IH]; [reflexivity|]. cbn.
        destruct (String.eqb k "model") eqn:Em; cbn.
        -- apply String.eqb_eq in Em. subst k. reflexivity.
        -- now rewrite IH.
    + split; [now apply others_setField; left|]. split.
      * intros key Hm _. now apply lookup_setField_ne.
      * intros key _. now rewrite lookup_setField_ne.
  - apply String.eqb_neq in E.
    split.
    { unfold setNested.
      destruct (lookupField "reasoning" _) as [[| | | | |members]|];
        (rewrite lookup_setField_ne by discriminate); apply lookup_setField_eq. }
    split; [intros _; apply nested_written|]. split; [congruence|]. split.
    { rewrite others_setNested by (right; left; reflexivity).
      apply others_setField. now left. }
    split.
    + intros key Hm Hr. unfold setNested.
      destruct (lookupField "reasoning" _) as [[| | | | |members]|];
        (rewrite lookup_setField_ne by congruence); now apply lookup_setField_ne.
    + intros key Hk. rewrite nested_frame by congruence.
      now rewrite lookup_setField_ne.
Qed.

End PayloadMutatorGeneric.

Section PayloadMutatorExamples.
Local Existing Instance asciiStrings.
Local Existing Instance compactText.

(** Cases of [TestSetReasoningEffortByAlias]: an effort in upper case with
    spaces over a payload that has a model and other members, and the empty
    effort over the empty object. *)
Lemma setReasoningEffortByAlias_spec_witness :
  let payload := [("model", JString "gpt-5-high"); ("stream", JBool true)] in
  GetBytes2 (JObject (setReasoningEffortByAlias payload "gpt-5" "  XHIGH ")) "reasoning" "effort"
  = Some (JString "xhigh") /\
  setReasoningEffortByAlias [] "gpt-5" "" = [("model", JString "gpt-5")] /\
  GetBytes2 (JObject (setReasoningEffortByAlias [] "gpt-5" "")) "reasoning" "effort" = None.
Proof.
  cbv zeta. split; [|split].
  - destruct (setReasoningEffortByAlias_spec
                [("model", JString "gpt-5-high"); ("stream", JBool true)] "gpt-5" "  XHIGH ")
      as (_ & Hset & _).
    etransitivity; [apply Hset; vm_compute; discriminate | reflexivity].
  - destruct (setReasoningEffortByAlias_spec [] "gpt-5" "") as (_ & _ & Hempty & _).
    destruct Hempty as (Hout & _); [reflexivity|]. exact Hout.
  - destruct (setReasoningEffortByAlias_spec [] "gpt-5" "") as (_ & _ & Hempty & _).
    destruct Hempty as (_ & _ & Habsent); [reflexivity|]. apply Habsent. reflexivity.
Defined.

End PayloadMutatorExamples.

End PayloadMutator.

(** ** [internal/registry]: catalog entries *)
Module registry.

(** The fields of [ModelInfo] that the serializer and the merger tests
    read. *)
Record ModelInfo := {
  ID : string;
  Object : string;
  Created : Z;
  OwnedBy : string;
  Type_ : string;
  DisplayName : string;
  Description : string;
  ContextLength : Z;
  MaxCompletionTokens : Z;
  InputTokenLimit : Z;
  OutputTokenLimit : Z;
  SupportedParameters : list string;
}.

End registry.

(** ** ModelRegistryMerger: [mergeEssentialCopilotModels] *)
Module ModelRegistryMerger.
Import GoStrings registry.

(** An entry as the merger tests write one: [{ID: id, OwnedBy: "copilot"}]. *)
Definition bareModel (id : string) : ModelInfo :=
  {| ID := id; Object := ""; Created := 0; OwnedBy := "copilot"; Type_ := "";
     DisplayName := ""; Description := ""; ContextLength := 0; MaxCompletionTokens := 0;
     InputTokenLimit := 0; OutputTokenLimit := 0; SupportedParameters := [] |}.

Lemma filter_none {A} (p : A -> bool) (l : list A) :
  (forall x, In x l -> p x = false) -> List.filter p l = [].
Proof.
  induction l as [|x l IH]; intros H; [reflexivity|]. cbn [List.filter].
  rewrite (H x) by now left. apply IH. intros y Hy. apply H. now right.
Qed.

Section ModelRegistryMergerGeneric.
Context {lib : Strings}.

(** Identity of an entry: its ID compared without case, as the tests
    compare it. *)
Definition foldID (m : ModelInfo) : string := ToLower (ID m).

Definition existingIDs (models : list ModelInfo) : gset string :=
  list_to_set (map foldID models).

(** The entry synthesized from an essential model at time [now]. *)
Definition synthesize (now : Z) (essential : ModelInfo) : ModelInfo :=
  {| ID := ID essential; Object := Object essential; Created := now;
     OwnedBy := OwnedBy essential; Type_ := Type_ essential;
     DisplayName := DisplayName essential; Description := Description essential;
     ContextLength := ContextLength essential;
     MaxCompletionTokens := MaxCompletionTokens essential;
     InputTokenLimit := InputTokenLimit essential;
     OutputTokenLimit := OutputTokenLimit essential;
     SupportedParameters := SupportedParameters essential |}.

Definition isMissing (models : list ModelInfo) (essential : ModelInfo) : bool :=
  negb (bool_decide (foldID essential ∈ existingIDs models)).

(** Modelled from the spec: [mergeEssentialCopilotModels] and the table of
    essential models are not among the sources, only the tests are.  The
    IDs of the given models are collected first; then each essential model
    whose ID is not among them is appended, stamped with [now]. *)
Definition mergeEssentialWith (essentialModels models : list ModelInfo) (now : Z)
  : list ModelInfo :=
  fold_left (fun merged essential =>
               if isMissing models essential
               then (merged ++ [synthesize now essential])%list else merged)
            essentialModels models.

(** No two entries have IDs that are equal without case. *)
Definition distinctIDs (models : list ModelInfo) : Prop := NoDup (map foldID models).

Section Merge.
Variable essentialModels : list ModelInfo.

Lemma merge_unfold models now :
  mergeEssentialWith essentialModels models now
  = (models ++ map (synthesize now) (List.filter (isMissing models) essentialModels))%list.
Proof.
  unfold mergeEssentialWith.
  assert (Hfold : forall merged,
             fold_left (fun merged essential =>
                          if isMissing models essential
                          then (merged ++ [synthesize now essential])%list else merged)
                       essentialModels merged
             = (merged ++ map (synthesize now)
                              (List.filter (isMissing models) essentialModels))%list).
  { induction essentialModels as [|e rest IH]; intros merged;
      cbn [fold_left List.filter map].
    - now rewrite app_nil_r.
    - rewrite IH. destruct (isMissing models e); [|reflexivity].
      now rewrite <- app_assoc. }
  apply Hfold.
Qed.

Lemma isMissing_spec models e :
  isMissing models e = false <-> In (foldID e) (map foldID models).
Proof.
  unfold isMissing, existingIDs. rewrite negb_false_iff, bool_decide_eq_true.
  rewrite elem_of_list_to_set. apply list_elem_of_In.
Qed.

Lemma foldID_synthesize now l : map foldID (map (synthesize now) l) = map foldID l.
Proof. rewrite map_map. reflexivity. Qed.

Lemma merge_covers models now e :
  In e essentialModels ->
  isMissing (mergeEssentialWith essentialModels models now) e = false.
Proof.
  intros Hin. apply isMissing_spec. rewrite merge_unfold, map_app, foldID_synthesize.
  apply in_or_app. destruct (isMissing models e) eqn:E.
  - right. apply in_map. apply filter_In. split; [exact Hin | exact E].
  - left. now apply isMissing_spec.
Qed.

Lemma merge_idempotent models now now' :
  mergeEssentialWith essentialModels (mergeEssentialWith essentialModels models now) now'
  = mergeEssentialWith essentialModels models now.
Proof.
  rewrite (merge_unfold (mergeEssentialWith essentialModels models now)).
  replace (List.filter _ essentialModels) with (@nil ModelInfo); [apply app_nil_r|].
  symmetry. apply filter_none. apply merge_covers.
Qed.

Lemma filter_distinct (p : ModelInfo -> bool) l :
  NoDup (map foldID l) -> NoDup (map foldID (List.filter p l)).
Proof.
  induction l as [|x l IH]; cbn [map List.filter]; intros Hnd; [constructor|].
  apply NoDup_cons in Hnd as [Hx Hl]. destruct (p x); [|now apply IH].
  cbn [map]. apply NoDup_cons. split; [|now apply IH].
  rewrite list_elem_of_In in Hx |- *. intros Hin. apply Hx.
  apply in_map_iff in Hin as (y & Hy & Hyin). apply filter_In in Hyin as [Hyin _].
  rewrite <- Hy. now apply in_map.
Qed.

Lemma merge_distinct models now :
  distinctIDs essentialModels -> distinctIDs models ->
  distinctIDs (mergeEssentialWith essentialModels models now).
Proof.
  unfold distinctIDs. intros He Hm. rewrite merge_unfold, map_app, foldID_synthesize.
  apply NoDup_app. split; [exact Hm|]. split; [|now apply filter_distinct].
  intros id Hid Hnew. rewrite list_elem_of_In in Hid, Hnew.
  apply in_map_iff in Hnew as (e & <- & Hein). apply filter_In in Hein as [_ Hmiss].
  apply isMissing_spec in Hid. congruence.
Qed.

(** Whatever the table holds, two existing entries that clash are both
    kept. *)
Lemma merge_keeps_clash a b rest now :
  foldID a = foldID b ->
  ~ distinctIDs (mergeEssentialWith essentialModels (a :: b :: rest) now).
Proof.
  intros Heq Hd. unfold distinctIDs in Hd. rewrite merge_unfold, map_app in Hd.
  cbn [map app] in Hd. apply NoDup_cons in Hd as [Hhead _]. apply Hhead.
  rewrite Heq. apply elem_of_cons. now left.
Qed.
End Merge.

(** Modelled from the spec: the essential table with the one entry the
    tests require and the markers they check.  The specification asks for
    default limits above zero and names no figures, so the two limits are
    any two positive numbers; the fields no test reads are left empty. *)
Section Table.
Variables defaultContextLength defaultMaxCompletionTokens : positive.

Definition essentialCopilotModels : list ModelInfo :=
  [ {| ID := "gemini-3-flash-preview"; Object := "model"; Created := 0;
       OwnedBy := "copilot"; Type_ := "copilot";
       DisplayName := ""; Description := "";
       ContextLength := Z.pos defaultContextLength;
       MaxCompletionTokens := Z.pos defaultMaxCompletionTokens;
       InputTokenLimit := 0; OutputTokenLimit := 0;
       SupportedParameters := ["tools"] |} ].

Definition mergeEssentialCopilotModels (models : list ModelInfo) (now : Z)
  : list ModelInfo :=
  mergeEssentialWith essentialCopilotModels models now.

Lemma essential_distinct : distinctIDs essentialCopilotModels.
Proof. unfold distinctIDs, essentialCopilotModels. cbn [map]. apply NoDup_singleton. Qed.

(** C9, amended: whatever the positive default limits, the result is the
    existing entries, unchanged and in order, followed by one entry for
    each essential model whose ID is, without case, not among the existing
    ones; every such entry carries [now], positive limits and a non-empty
    parameter set with tools; merging the result again, at any time,
    changes nothing; and when the existing entries hold no two IDs equal
    without case, neither does the result. *)
Theorem mergeEssentialCopilotModels_appends :
  forall models now,
    let missing := List.filter (isMissing models) essentialCopilotModels in
    let merged := mergeEssentialCopilotModels models now in
    merged = (models ++ map (synthesize now) missing)%list /\
    (forall e, In e missing <->
               In e essentialCopilotModels /\ ~ In (foldID e) (map foldID models)) /\
    (forall m, In m (map (synthesize now) missing) ->
               Created m = now /\
               (0 < ContextLength m)%Z /\ (0 < MaxCompletionTokens m)%Z /\
               SupportedParameters m <> [] /\ In "tools" (SupportedParameters m)) /\
    (forall now', mergeEssentialCopilotModels merged now' = merged) /\
    (distinctIDs models -> distinctIDs merged).
Proof.
  intros models now missing merged. subst missing merged.
  unfold mergeEssentialCopilotModels.
  split; [apply merge_unfold|]. split; [|split; [|split]].
  - intros e. rewrite filter_In. split; intros [Hin Hm]; (split; [exact Hin|]).
    + intros Hex. apply isMissing_spec in Hex. congruence.
    + destruct (isMissing models e) eqn:E; [reflexivity|].
      exfalso. apply Hm. apply isMissing_spec. exact E.
  - intros m Hm. apply in_map_iff in Hm as (e & <- & He).
    apply filter_In in He as [He _]. destruct He as [<- | []]. cbn.
    split; [reflexivity|]. split; [lia|]. split; [lia|]. split; [discriminate | now left].
  - intros now'. apply merge_idempotent.
  - apply merge_distinct. exact essential_distinct.
Qed.
End Table.

End ModelRegistryMergerGeneric.

Section ModelRegistryMergerExamples.
Local Existing Instance asciiStrings.

(** C9 as stated fails where it says that the result never holds two
    entries with IDs equal without case: the existing entries are kept as
    they are, so two of them that already clash are both in the result. *)
Lemma merge_keeps_existing_clash_counterexample :
  let existing := [bareModel "gpt-5"; bareModel "GPT-5"] in
  firstn 2 (mergeEssentialCopilotModels 128000 16384 existing 0) = existing /\
  ~ distinctIDs (mergeEssentialCopilotModels 128000 16384 existing 0).
Proof.
  cbv zeta. split; [vm_compute; reflexivity|].
  apply merge_keeps_clash. reflexivity.
Qed.

(** The cases of [TestMergeEssentialCopilotModels]: the essential model is
    appended after the existing ones, carries the time of the call, and a
    second merge adds nothing. *)
Lemma mergeEssentialCopilotModels_appends_witness :
  let existing := [bareModel "gpt-5"; bareModel "gpt-4o"] in
  let merged := mergeEssentialCopilotModels 128000 16384 existing 1700000000 in
  map ID merged = ["gpt-5"; "gpt-4o"; "gemini-3-flash-preview"] /\
  mergeEssentialCopilotModels 128000 16384 merged 1700000001 = merged /\
  distinctIDs merged /\
  (forall m, In m (skipn 2 merged) ->
             Created m = 1700000000%Z /\ (0 < ContextLength m)%Z /\
             In "tools" (SupportedParameters m)).
Proof.
  cbv zeta.
  destruct (mergeEssentialCopilotModels_appends 128000 16384
              [bareModel "gpt-5"; bareModel "gpt-4o"] 1700000000)
    as (Hshape & _ & Hnew & Hidem & Hdistinct).
  split; [|split; [|split]].
  - rewrite Hshape. vm_compute. reflexivity.
  - apply Hidem.
  - apply Hdistinct. unfold distinctIDs. vm_compute.
    apply NoDup_cons. split; [|apply NoDup_singleton].
    intros Hin. apply list_elem_of_singleton in Hin. discriminate.
  - intros m Hm. rewrite Hshape in Hm.
    rewrite (skipn_app 2), skipn_all2 in Hm by (cbn; lia).
    cbn [length Nat.sub skipn app] in Hm.
    destruct (Hnew m Hm) as (Hc & Hctx & _ & _ & Ht). now split.
Defined.

Example merge_adds_gemini :
  map ID (mergeEssentialCopilotModels 128000 16384 [bareModel "gpt-5"] 7)
  = ["gpt-5"; "gemini-3-flash-preview"].
Proof. vm_compute. reflexivity. Qed.

Example merge_case_insensitive :
  map ID (mergeEssentialCopilotModels 128000 16384 [bareModel "GEMINI-3-FLASH-PREVIEW"] 7)
  = ["GEMINI-3-FLASH-PREVIEW"].
Proof. vm_compute. reflexivity. Qed.

End ModelRegistryMergerExamples.

End ModelRegistryMerger.

(** ** The repository's test tables, run on the embedding *)
Module RepoTests.
Import config HeaderProfile gjson Hints Executor Alias.

Definition str (s : string) : JSON := JString s.
Definition role (r : string) (content : JSON) : JSON :=
  JObject [("role", str r); ("content", content)].
Definition inputText (text : string) : JSON :=
  JArray [JObject [("type", str "input_text"); ("text", str text)]].
Definition typed (t : string) : JSON := JObject [("type", str t); ("call_id", str "123")].
Definition messages (entries : list JSON) : JSON := JObject [("messages", JArray entries)].
Definition input (entries : list JSON) : JSON := JObject [("input", JArray entries)].

(** [TestApplyCopilotHeaders_XInitiator]: payload and expected header. *)
Definition xInitiatorCases : list (JSON * string) :=
  [ (messages [role "user" (str "hello")], "user");
    (messages [role "user" (str "hello"); role "assistant" (str "hi")], "agent");
    (messages [role "user" (str "old"); role "user" (str "new")], "user");
    (messages [role "user" (str "hello");
               JObject [("role", str "tool"); ("tool_call_id", str "123");
                        ("content", str "result")]], "agent");
    (messages [role "system" (str "You are helpful"); role "user" (str "hello")], "agent");
    (input [role "user" (inputText "hello")], "user");
    (input [role "user" (inputText "hello"); typed "function_call"], "agent");
    (input [role "user" (inputText "old"); role "user" (inputText "new")], "user");
    (input [role "user" (inputText "hello"); typed "function_call_output"], "agent");
    (input [role "user" (inputText "hello"); role "assistant" (inputText "hi")], "agent");
    (input [role "user" (inputText "hello"); typed "reasoning"], "agent");
    (input [role "user" (inputText "hello"); typed "local_shell_call"], "agent");
    (input [role "user" (inputText "hello"); typed "mcp_call"], "agent");
    (messages [], "agent");
    (input [], "agent");
    (JObject [("model", str "gpt-4")], "agent");
    (JObject [("messages", JArray [role "user" (str "hello")]);
              ("input", JArray [typed "function_call"])], "agent");
    (JObject [("messages", JArray [role "user" (str "hello");
                                   role "assistant" (str "hi")]);
              ("input", JArray [role "user" (inputText "hello")])], "agent") ].

Definition key (cli vscode : list string) (profile : string) : option CopilotKey :=
  Some {| HeaderProfile := profile; CLIHeaderModels := cli;
          VSCodeChatHeaderModels := vscode;
          ForceAgentCall := false; AgentInitiatorPersist := false |}.

(** [TestCopilotHeaderProfileForModel]: model, config, expected profile. *)
Definition profileCases : list (string * option CopilotKey * string) :=
  [ ("", None, "cli"); ("gpt-4", None, "cli"); ("gpt-4o", None, "cli");
    ("gpt-4.1", None, "cli"); ("gpt-5", None, "cli"); ("claude-sonnet-4", None, "cli");
    ("claude-opus-4.5", None, "cli"); ("gemini-2.5-pro", None, "vscode-chat");
    ("some-unknown-model", None, "vscode-chat"); ("copilot-gpt-5", None, "cli");
    ("copilot-claude-sonnet-4", None, "cli");
    ("copilot-gemini-2.5-pro", None, "vscode-chat");
    ("gemini-2.5-pro", key ["gemini-2.5-pro"] [] "", "cli");
    ("copilot-gemini-2.5-pro", key ["gemini-2.5-pro"] [] "", "cli");
    ("gpt-5", key [] ["gpt-5"] "", "vscode-chat");
    ("copilot-gpt-5", key [] ["gpt-5"] "", "vscode-chat");
    ("some-unknown-model", key [] [] "cli", "cli");
    ("gpt-5", key [] [] "vscode-chat", "vscode-chat");
    ("gemini-3-pro", key ["gemini-3-pro"] [] "vscode-chat", "cli");
    ("gpt-5", key [] ["gpt-5"] "cli", "vscode-chat") ].

(** [TestResolveCodexAlias]: identifier and expected triple. *)
Definition aliasCases : list (string * (string * string * bool)) :=
  [ ("gpt-5-minimal", ("gpt-5", "minimal", true));
    ("gpt-5-low", ("gpt-5", "low", true));
    ("gpt-5-medium", ("gpt-5", "medium", true));
    ("gpt-5-high", ("gpt-5", "high", true));
    ("gpt-5-codex-low", ("gpt-5-codex", "low", true));
    ("gpt-5-codex-high", ("gpt-5-codex", "high", true));
    ("gpt-5.1-none", ("gpt-5.1", "none", true));
    ("gpt-5.1-high", ("gpt-5.1", "high", true));
    ("gpt-5.1-codex-max-xhigh", ("gpt-5.1-codex-max", "xhigh", true));
    ("gpt-5.2-xhigh", ("gpt-5.2", "xhigh", true));
    ("gpt-5.2-codex-xhigh", ("gpt-5.2-codex", "xhigh", true));
    ("gpt-5", ("", "", false));
    ("gpt-5-codex", ("", "", false));
    ("claude-sonnet-4", ("", "", false));
    ("", ("", "", false)) ].

End RepoTests.

Section RepoTestsExamples.
Local Existing Instance GoStrings.asciiStrings.
Local Existing Instance gjson.compactText.

Example TestApplyCopilotHeaders_XInitiator :
  map (fun c => (Executor.xInitiator Fixtures.plain (fst c) None).1) RepoTests.xInitiatorCases
  = map snd RepoTests.xInitiatorCases.
Proof. vm_compute. reflexivity. Qed.

Example TestCopilotHeaderProfileForModel :
  map (fun c => HeaderProfile.copilotHeaderProfileForModel (snd (fst c)) (fst (fst c)))
      RepoTests.profileCases
  = map snd RepoTests.profileCases.
Proof. vm_compute. reflexivity. Qed.

Example TestResolveCodexAlias :
  map (fun c => Alias.resolveCodexAlias (fst c)) RepoTests.aliasCases
  = map snd RepoTests.aliasCases.
Proof. vm_compute. reflexivity. Qed.

End RepoTestsExamples.

(** ** The ASCII fast paths of the string helpers *)
Module GoStringsFacts.
Import GoStrings.

Definition headNotSpace (s : string) : bool :=
  match s with
  | EmptyString => true
  | String c _ => negb (isSpace c)
  end.

Lemma lowerByte_space c : isSpace (lowerByte c) = isSpace c.
Proof. destruct c as [[] [] [] [] [] [] [] []]; reflexivity. Qed.

Lemma lowerByte_ascii c : (N_of_ascii (lowerByte c) <? 128)%N = (N_of_ascii c <? 128)%N.
Proof. destruct c as [[] [] [] [] [] [] [] []]; reflexivity. Qed.

Lemma lowerByte_idem c : lowerByte (lowerByte c) = lowerByte c.
Proof. destruct c as [[] [] [] [] [] [] [] []]; reflexivity. Qed.

Lemma asciiToLower_idem s : asciiToLower (asciiToLower s) = asciiToLower s.
Proof.
  induction s as [|c s IH]; cbn [asciiToLower]; [reflexivity|].
  now rewrite IH, lowerByte_idem.
Qed.

Lemma TrimLeftSpace_head s : headNotSpace (TrimLeftSpace s) = true.
Proof.
  induction s as [|c r IH]; [reflexivity|]. cbn [TrimLeftSpace].
  destruct (isSpace c) eqn:E; [exact IH|]. cbn. now rewrite E.
Qed.

Lemma TrimLeftSpace_fixed s : headNotSpace s = true -> TrimLeftSpace s = s.
Proof.
  destruct s as [|c r]; [reflexivity|]. cbn. intros H.
  apply negb_true_iff in H. now rewrite H.
Qed.

Lemma TrimRightSpace_cons c r :
  isSpace c = false -> TrimRightSpace (String c r) = String c (TrimRightSpace r).
Proof. intros H. cbn [TrimRightSpace]. rewrite H. now destruct (TrimRightSpace r). Qed.

Lemma TrimRightSpace_head s : headNotSpace s = true -> headNotSpace (TrimRightSpace s) = true.
Proof.
  destruct s as [|c r]; [reflexivity|]. cbn [headNotSpace]. intros H.
  apply negb_true_iff in H. rewrite (TrimRightSpace_cons c r H). cbn. now rewrite H.
Qed.

Lemma TrimRightSpace_idem s : TrimRightSpace (TrimRightSpace s) = TrimRightSpace s.
Proof.
  induction s as [|c r IH]; [reflexivity|]. cbn [TrimRightSpace].
  destruct (TrimRightSpace r) as [|d t] eqn:E.
  - destruct (isSpace c) eqn:Ec; [reflexivity|]. cbn. now rewrite Ec.
  - cbn [TrimRightSpace]. fold TrimRightSpace.
    change (match TrimRightSpace (String d t) with
            | EmptyString => if isSpace c then EmptyString else String c EmptyString
            | String a s0 => String c (String a s0)
            end = String c (String d t)).
    now rewrite IH.
Qed.

(** What the fast path of [TrimSpace] returns has no space at either end:
    trimming it again changes nothing. *)
Lemma asciiTrimSpace_idem s : asciiTrimSpace (asciiTrimSpace s) = asciiTrimSpace s.
Proof.
  unfold asciiTrimSpace.
  rewrite (TrimLeftSpace_fixed (TrimRightSpace (TrimLeftSpace s))).
  - apply TrimRightSpace_idem.
  - apply TrimRightSpace_head, TrimLeftSpace_head.
Qed.

Lemma asciiToLower_TrimLeftSpace s :
  asciiToLower (TrimLeftSpace s) = TrimLeftSpace (asciiToLower s).
Proof.
  induction s as [|c r IH]; [reflexivity|]. cbn [TrimLeftSpace asciiToLower].
  rewrite lowerByte_space. destruct (isSpace c); [exact IH | reflexivity].
Qed.

Lemma asciiToLower_TrimRightSpace s :
  asciiToLower (TrimRightSpace s) = TrimRightSpace (asciiToLower s).
Proof.
  induction s as [|c r IH]; [reflexivity|]. cbn [TrimRightSpace asciiToLower].
  rewrite <- IH, lowerByte_space.
  destruct (TrimRightSpace r) as [|d t]; cbn [asciiToLower]; [|reflexivity].
  destruct (isSpace c); reflexivity.
Qed.

Lemma asciiToLower_asciiTrimSpace s :
  asciiToLower (asciiTrimSpace s) = asciiTrimSpace (asciiToLower s).
Proof.
  unfold asciiTrimSpace. now rewrite asciiToLower_TrimRightSpace, asciiToLower_TrimLeftSpace.
Qed.

(** *** The fast paths keep a string ASCII *)

Lemma isASCII_asciiToLower s : isASCII (asciiToLower s) = isASCII s.
Proof.
  induction s as [|c r IH]; [reflexivity|]. cbn [asciiToLower isASCII].
  now rewrite IH, lowerByte_ascii.
Qed.

Lemma isASCII_TrimLeftSpace s : isASCII s = true -> isASCII (TrimLeftSpace s) = true.
Proof.
  induction s as [|c r IH]; [reflexivity|]. cbn [TrimLeftSpace]. intros H.
  destruct (isSpace c); [|exact H].
  cbn [isASCII] in H. apply andb_prop in H as [_ H]. now apply IH.
Qed.

Lemma isASCII_TrimRightSpace s : isASCII s = true -> isASCII (TrimRightSpace s) = true.
Proof.
  induction s as [|c r IH]; [reflexivity|]. cbn [TrimRightSpace isASCII]. intros H.
  apply andb_prop in H as [Hc Hr]. specialize (IH Hr).
  destruct (TrimRightSpace r) as [|d t].
  - destruct (isSpace c); [reflexivity|]. cbn [isASCII]. now rewrite Hc.
  - change (isASCII (String c (String d t))) with
      ((N_of_ascii c <? 128)%N && isASCII (String d t)).
    now rewrite Hc, IH.
Qed.

Lemma isASCII_asciiTrimSpace s : isASCII s = true -> isASCII (asciiTrimSpace s) = true.
Proof. intros H. now apply isASCII_TrimRightSpace, isASCII_TrimLeftSpace. Qed.

Lemma isASCII_app (a b : string) : isASCII (a ++ b) = isASCII a && isASCII b.
Proof.
  induction a as [|c a IH]; [reflexivity|].
  change (isASCII (String c (a ++ b)) = isASCII (String c a) && isASCII b).
  cbn [isASCII]. now rewrite IH, andb_assoc.
Qed.

End GoStringsFacts.

(** ** The inbound override header *)
Module HeaderFacts.
Import GoStrings GoStringsFacts http Hints.

Section HeaderFactsGeneric.
Context {lib : Strings}.

(** The first value stored under the canonical name of the flag. *)
Definition firstFlagValue (h : Header) : string :=
  match h !! "Force-Copilot-Agent" with
  | Some (v :: _) => v
  | _ => ""
  end.

Definition truthyTokens : list string := ["1"; "true"; "t"; "yes"; "y"; "on"].

Lemma truthy_tokens raw : truthy raw = existsb (String.eqb (ToLower raw)) truthyTokens.
Proof. unfold truthy, truthyTokens. cbn [existsb]. now rewrite orb_false_r, !orb_assoc. Qed.

(** The empty string is ASCII, so it is lower-cased to itself. *)
Lemma truthy_blank : truthy "" = false.
Proof. unfold truthy. on_ascii. reflexivity. Qed.

Lemma force_flag_first_value h :
  forceAgentCallFromHeaders (Some h) = truthy (TrimSpace (firstFlagValue h)).
Proof.
  unfold forceAgentCallFromHeaders.
  change (Header_Get h "force-copilot-agent") with (firstFlagValue h).
  change (Header_Get h "Force-Copilot-Agent") with (firstFlagValue h).
  destruct (String.eqb (TrimSpace (firstFlagValue h)) "") eqn:E.
  - rewrite E. apply String.eqb_eq in E. now rewrite E, truthy_blank.
  - now rewrite E.
Qed.

(** X1: the override flag is read from the first value stored under the
    canonical header name alone: it is on exactly when that value, trimmed
    and lower-cased, is one of 1, true, t, yes, y, on; a nil header map, a
    missing header and a blank value give off.  Setting the header under
    any spelling of its name decides the flag by the value set, and setting
    any other header leaves the flag as it was. *)
Theorem forceAgentCallFromHeaders_by_value :
  forceAgentCallFromHeaders None = false /\
  (forall h,
      forceAgentCallFromHeaders (Some h) = true <->
      In (ToLower (TrimSpace (firstFlagValue h))) truthyTokens) /\
  (forall h, TrimSpace (firstFlagValue h) = "" -> forceAgentCallFromHeaders (Some h) = false) /\
  (forall h name v,
      CanonicalMIMEHeaderKey name = "Force-Copilot-Agent" ->
      forceAgentCallFromHeaders (Some (Header_Set h name v)) = truthy (TrimSpace v)) /\
  (forall h name v,
      CanonicalMIMEHeaderKey name <> "Force-Copilot-Agent" ->
      forceAgentCallFromHeaders (Some (Header_Set h name v))
      = forceAgentCallFromHeaders (Some h)).
Proof.
  split; [reflexivity|]. split; [|split; [|split]].
  - intros h. rewrite force_flag_first_value, truthy_tokens. split.
    + intros H. apply existsb_exists in H as (t & Hin & Ht).
      apply String.eqb_eq in Ht. now rewrite Ht.
    + intros H. apply existsb_exists. eexists. split; [exact H | apply String.eqb_refl].
  - intros h H. now rewrite force_flag_first_value, H, truthy_blank.
  - intros h name v Hname. rewrite force_flag_first_value.
    unfold firstFlagValue, Header_Set. now rewrite Hname, lookup_insert_eq.
  - intros h name v Hname. rewrite !force_flag_first_value.
    unfold firstFlagValue, Header_Set. now rewrite lookup_insert_ne.
Qed.

End HeaderFactsGeneric.

Section HeaderFactsExamples.
Local Existing Instance asciiStrings.

(** The header in upper case with a padded value, and another header. *)
Lemma forceAgentCallFromHeaders_by_value_witness :
  forceAgentCallFromHeaders (Some (Header_Set ∅ "FORCE-COPILOT-AGENT" " Yes ")) = true /\
  forceAgentCallFromHeaders (Some (Header_Set ∅ "X-Initiator" "true")) = false /\
  forceAgentCallFromHeaders (Some {[ "Force-Copilot-Agent" := ["off"; "true"] ]}) = false.
Proof.
  destruct forceAgentCallFromHeaders_by_value as (Hnil & Hiff & Hblank & Hset & Hother).
  split; [|split].
  - rewrite Hset by reflexivity. reflexivity.
  - rewrite Hother by (vm_compute; discriminate). apply Hblank. reflexivity.
  - destruct (forceAgentCallFromHeaders (Some {[ "Force-Copilot-Agent" := ["off"; "true"] ]}))
      eqn:E; [|reflexivity].
    apply Hiff in E. vm_compute in E.
    repeat (destruct E as [E | E]; [discriminate|]). destruct E.
Defined.

End HeaderFactsExamples.

End HeaderFacts.

(** ** The other hints: user turns, vision, cache key *)
Module HintShape.
Import GoStrings GoStringsFacts gjson http Hints.

Section HintShapeGeneric.
Context {lib : Strings} {src : SourceText}.

Definition isUser (item : JSON) : bool := String.eqb (roleOf item) "user".

(** The last entry of the array is a user entry. *)
Definition endsWithUser (arr : list JSON) : bool :=
  match last arr with
  | Some item => isUser item
  | None => false
  end.

Definition messageImage (msg : JSON) : bool :=
  contentHas (fun part => String.eqb (typeOf part) "image_url") msg.

Definition inputImage (item : JSON) : bool := contentHas isResponsesAPIVisionContent item.

(** The array under [key], when it is one. *)
Definition arrayAt (payload : JSON) (key : string) : list JSON :=
  if IsArray (GetBytes payload key) then Array (GetBytes payload key) else [].

Lemma last_cons_cons {A} (x y : A) l : last (x :: y :: l) = last (y :: l).
Proof. reflexivity. Qed.

Lemma scanMessages_fields arr : forall h,
  userFromPayload (scanMessages arr h) = userFromPayload h || existsb isUser arr /\
  lastUserFromPayload (scanMessages arr h) = lastUserFromPayload h || endsWithUser arr /\
  hasVision (scanMessages arr h) = hasVision h || existsb messageImage arr /\
  promptCacheKey (scanMessages arr h) = promptCacheKey h.
Proof.
  induction arr as [|msg rest IH]; intros h.
  - cbn. now rewrite !orb_false_r.
  - cbn [scanMessages existsb]. unfold endsWithUser, isUser in *.
    destruct (IH (if String.eqb (roleOf msg) "user"
                  then setLastUser (match rest with [] => true | _ :: _ => false end)
                         (setUser true (setVision (messageImage msg) h))
                  else if negb (String.eqb (roleOf msg) "")
                       then setAgent true (setVision (messageImage msg) h)
                       else setVision (messageImage msg) h)) as (Hu & Hl & Hv & Hk).
    unfold messageImage in *. rewrite Hu, Hl, Hv, Hk. clear IH Hu Hl Hv Hk.
    destruct rest as [|next rest'].
    + cbn. destruct (String.eqb (roleOf msg) "user");
        [|destruct (negb (String.eqb (roleOf msg) ""))]; cbn;
        rewrite ?orb_false_r, ?orb_true_r; auto.
    + rewrite last_cons_cons.
      destruct (String.eqb (roleOf msg) "user");
        [|destruct (negb (String.eqb (roleOf msg) ""))]; cbn [setLastUser setUser setAgent
          setVision userFromPayload lastUserFromPayload hasVision promptCacheKey];
        rewrite ?orb_false_r, ?orb_true_r, <- ?orb_assoc; auto.
Qed.

Lemma scanInput_fields arr : forall h,
  userFromPayload (scanInput arr h) = userFromPayload h || existsb isUser arr /\
  lastUserFromPayload (scanInput arr h) = lastUserFromPayload h || endsWithUser arr /\
  hasVision (scanInput arr h) = hasVision h || existsb inputImage arr /\
  promptCacheKey (scanInput arr h) = promptCacheKey h.
Proof.
  induction arr as [|item rest IH]; intros h.
  - cbn. now rewrite !orb_false_r.
  - cbn [scanInput existsb]. unfold endsWithUser, isUser in *.
    match goal with
    | |- context [scanInput rest ?h'] => destruct (IH h') as (Hu & Hl & Hv & Hk)
    end.
    unfold inputImage in *. rewrite Hu, Hl, Hv, Hk. clear IH Hu Hl Hv Hk.
    destruct rest as [|next rest'].
    + cbn. destruct (String.eqb (roleOf item) "user"); cbn;
        rewrite ?orb_false_r, ?orb_true_r; auto.
    + rewrite last_cons_cons.
      destruct (String.eqb (roleOf item) "user");
        cbn [setLastUser setUser setAgent setVision userFromPayload lastUserFromPayload
               hasVision promptCacheKey];
        rewrite ?orb_false_r, ?orb_true_r, <- ?orb_assoc; auto.
Qed.

Lemma endsWithUser_exists arr : endsWithUser arr = true -> existsb isUser arr = true.
Proof.
  unfold endsWithUser. destruct (last arr) as [item|] eqn:E; [|discriminate].
  intros H. apply existsb_exists. exists item. split; [|exact H].
  apply list_elem_of_In. apply last_Some in E as (l' & ->).
  apply elem_of_app. right. apply elem_of_cons. now left.
Qed.

Lemma collect_fields payload headers :
  let h := collectCopilotHeaderHints payload headers in
  userFromPayload h
  = existsb isUser (arrayAt payload "messages") || existsb isUser (arrayAt payload "input") /\
  lastUserFromPayload h
  = endsWithUser (arrayAt payload "messages") || endsWithUser (arrayAt payload "input") /\
  hasVision h
  = existsb messageImage (arrayAt payload "messages")
    || existsb inputImage (arrayAt payload "input") /\
  promptCacheKey h = promptCacheKeyFromPayload payload.
Proof.
  cbv zeta. unfold collectCopilotHeaderHints, arrayAt.
  destruct (IsArray (GetBytes payload "input"));
    destruct (IsArray (GetBytes payload "messages"));
    repeat match goal with
      | |- context [scanInput ?a ?h] =>
          destruct (scanInput_fields a h) as (-> & -> & -> & ->)
      | |- context [scanMessages ?a ?h] =>
          destruct (scanMessages_fields a h) as (-> & -> & -> & ->)
      end;
    cbn; rewrite ?orb_false_r; auto.
Qed.

End HintShapeGeneric.

End HintShape.

Module HintShapeFacts.
Import GoStrings GoStringsFacts gjson http Hints HintShape.

Section HintShapeFactsGeneric.
Context {lib : Strings} {src : SourceText}.

(** X2: userFromPayload holds exactly when some entry of the messages
    array or of the input array has the role user (trimmed, lower-cased);
    lastUserFromPayload holds exactly when the last entry of the messages
    array or the last entry of the input array has it, either array being
    enough when both are present; lastUserFromPayload implies
    userFromPayload; and with no entry in either array both are false. *)
Theorem user_turn_hints :
  forall payload headers,
    let h := collectCopilotHeaderHints payload headers in
    userFromPayload h
    = existsb isUser (arrayAt payload "messages") || existsb isUser (arrayAt payload "input") /\
    lastUserFromPayload h
    = endsWithUser (arrayAt payload "messages") || endsWithUser (arrayAt payload "input") /\
    (lastUserFromPayload h = true -> userFromPayload h = true) /\
    (arrayAt payload "messages" = [] -> arrayAt payload "input" = [] ->
     userFromPayload h = false /\ lastUserFromPayload h = false).
Proof.
  intros payload headers h.
  destruct (collect_fields payload headers) as (Hu & Hl & _ & _). fold h in Hu, Hl.
  split; [exact Hu|]. split; [exact Hl|]. split.
  - rewrite Hu, Hl. intros H. apply orb_prop in H as [H | H];
      apply endsWithUser_exists in H; rewrite H; [reflexivity | apply orb_true_r].
  - intros Hm Hi. rewrite Hu, Hl, Hm, Hi. split; reflexivity.
Qed.

Lemma contentHas_parts isImage item :
  contentHas isImage item = true <->
  exists parts part, Get (Some item) "content" = Some (JArray parts) /\
                     In part parts /\ isImage part = true.
Proof.
  unfold contentHas. split.
  - intros H. apply andb_prop in H as [Ha He].
    destruct (Get (Some item) "content") as [[| | | |parts|]|]; try discriminate.
    apply existsb_exists in He as (part & Hin & Hp). exists parts, part. auto.
  - intros (parts & part & -> & Hin & Hp). cbn. apply existsb_exists. eauto.
Qed.

(** X3: hasVision holds exactly when some entry of the messages array has
    an array content with a part of type image_url, or some entry of the
    input array has an array content with a part of type input_image; a
    content that is a string or absent never counts, and neither roles nor
    headers matter. *)
Theorem vision_hint :
  forall payload headers,
    hasVision (collectCopilotHeaderHints payload headers) = true <->
    (exists msg parts part,
        In msg (arrayAt payload "messages") /\
        Get (Some msg) "content" = Some (JArray parts) /\
        In part parts /\ typeOf part = "image_url") \/
    (exists item parts part,
        In item (arrayAt payload "input") /\
        Get (Some item) "content" = Some (JArray parts) /\
        In part parts /\ typeOf part = "input_image").
Proof.
  intros payload headers.
  destruct (collect_fields payload headers) as (_ & _ & Hv & _). cbv zeta in Hv.
  rewrite Hv, orb_true_iff, !existsb_exists. unfold messageImage, inputImage.
  split.
  - intros [(msg & Hin & Hc) | (item & Hin & Hc)];
      apply contentHas_parts in Hc as (parts & part & Hcontent & Hpart & Ht);
      [left | right]; eexists _, parts, part;
      (split; [exact Hin|]); (split; [exact Hcontent|]); (split; [exact Hpart|]);
      now apply String.eqb_eq in Ht.
  - intros [(msg & parts & part & Hin & Hcontent & Hpart & Ht)
           | (item & parts & part & Hin & Hcontent & Hpart & Ht)];
      [left; exists msg | right; exists item]; (split; [exact Hin|]);
      apply contentHas_parts; exists parts, part;
      (split; [exact Hcontent|]); (split; [exact Hpart|]);
      unfold isResponsesAPIVisionContent; rewrite Ht; reflexivity.
Qed.

(** X4: the prompt cache key is the trimmed top-level prompt_cache_key
    when that is not blank, and the trimmed metadata.prompt_cache_key
    otherwise; it is empty exactly when both are blank or missing, and the
    hints carry it whatever the headers are. *)
Theorem prompt_cache_key_precedence :
  forall payload,
    let top := TrimSpace (String_ (GetBytes payload "prompt_cache_key")) in
    let nested := TrimSpace (String_ (GetBytes2 payload "metadata" "prompt_cache_key")) in
    (top <> "" -> promptCacheKeyFromPayload payload = top) /\
    (top = "" -> promptCacheKeyFromPayload payload = nested) /\
    (promptCacheKeyFromPayload payload = "" <-> top = "" /\ nested = "") /\
    (forall headers,
        promptCacheKey (collectCopilotHeaderHints payload headers)
        = promptCacheKeyFromPayload payload).
Proof.
  intros payload top nested.
  assert (Hmissing : forall r : Result, Exists r = false -> TrimSpace (String_ r) = "").
  { intros [v|]; [discriminate | cbn [String_]; on_ascii; reflexivity]. }
  assert (Hkey : promptCacheKeyFromPayload payload = if String.eqb top "" then nested else top).
  { unfold promptCacheKeyFromPayload. fold top nested.
    destruct (Exists (GetBytes payload "prompt_cache_key")) eqn:Et.
    - cbn [andb]. destruct (String.eqb top ""); cbn [negb]; [|reflexivity].
      destruct (Exists (GetBytes2 payload "metadata" "prompt_cache_key")) eqn:En.
      + cbn [andb]. destruct (String.eqb nested "") eqn:E; cbn [negb]; [|reflexivity].
        apply String.eqb_eq in E. now rewrite E.
      + cbn [andb]. unfold nested. now rewrite (Hmissing _ En).
    - cbn [andb]. unfold top at 1. rewrite (Hmissing _ Et). cbn [String.eqb].
      destruct (Exists (GetBytes2 payload "metadata" "prompt_cache_key")) eqn:En.
      + cbn [andb]. destruct (String.eqb nested "") eqn:E; cbn [negb]; [|reflexivity].
        apply String.eqb_eq in E. now rewrite E.
      + cbn [andb]. unfold nested. now rewrite (Hmissing _ En). }
  split; [|split; [|split]].
  - intros H. apply String.eqb_neq in H. now rewrite Hkey, H.
  - intros H. now rewrite Hkey, H.
  - rewrite Hkey. destruct (String.eqb top "") eqn:E.
    + apply String.eqb_eq in E. split; [now split | now intros [_ Hn]].
    + apply String.eqb_neq in E. split; [congruence | now intros [Ht _]].
  - intros headers. now destruct (HintShape.collect_fields payload headers) as (_ & _ & _ & Hk).
Qed.

End HintShapeFactsGeneric.

Section HintShapeFactsExamples.
Local Existing Instance asciiStrings.
Local Existing Instance compactText.

(** A user entry that is last in [input] while [messages] ends with the
    assistant, and two empty arrays. *)
Lemma user_turn_hints_witness :
  let mixed := JObject [("messages", JArray [Fixtures.userText "hello";
                                             JObject [("role", JString "assistant")]]);
                        ("input", JArray [Fixtures.userText "again"])] in
  lastUserFromPayload (collectCopilotHeaderHints mixed None) = true /\
  userFromPayload (collectCopilotHeaderHints mixed None) = true /\
  userFromPayload (collectCopilotHeaderHints
                     (JObject [("messages", JArray []); ("input", JArray [])]) None) = false.
Proof.
  cbv zeta. split; [|split].
  - destruct (user_turn_hints
                (JObject [("messages", JArray [Fixtures.userText "hello";
                                               JObject [("role", JString "assistant")]]);
                          ("input", JArray [Fixtures.userText "again"])]) None)
      as (_ & Hl & _). rewrite Hl. reflexivity.
  - destruct (user_turn_hints
                (JObject [("messages", JArray [Fixtures.userText "hello";
                                               JObject [("role", JString "assistant")]]);
                          ("input", JArray [Fixtures.userText "again"])]) None)
      as (_ & Hl & Himp & _). apply Himp. rewrite Hl. reflexivity.
  - destruct (user_turn_hints (JObject [("messages", JArray []); ("input", JArray [])]) None)
      as (_ & _ & _ & Hempty). now apply Hempty.
Defined.

(** The vision cases of [TestApplyCopilotHeaders_Vision] for [input]. *)
Lemma vision_hint_witness :
  hasVision
    (collectCopilotHeaderHints
       (JObject [("input",
                  JArray [JObject [("role", JString "user");
                                   ("content",
                                    JArray [JObject [("type", JString "input_text")];
                                            JObject [("type", JString "input_image")]])]])])
       None) = true.
Proof.
  apply vision_hint. right.
  eexists _, _, (JObject [("type", JString "input_image")]).
  split; [left; reflexivity|]. split; [reflexivity|].
  split; [right; left; reflexivity | reflexivity].
Defined.

(** A blank top-level key next to a padded key under metadata. *)
Lemma prompt_cache_key_precedence_witness :
  promptCacheKeyFromPayload
    (JObject [("prompt_cache_key", JString "   ");
              ("metadata", JObject [("prompt_cache_key", JString " thread-7 ")])])
  = "thread-7" /\
  promptCacheKeyFromPayload
    (JObject [("prompt_cache_key", JString "thread-1");
              ("metadata", JObject [("prompt_cache_key", JString "thread-7")])])
  = "thread-1".
Proof.
  split.
  - destruct (prompt_cache_key_precedence
                (JObject [("prompt_cache_key", JString "   ");
                          ("metadata", JObject [("prompt_cache_key", JString " thread-7 ")])]))
      as (_ & Hnested & _). rewrite Hnested; reflexivity.
  - destruct (prompt_cache_key_precedence
                (JObject [("prompt_cache_key", JString "thread-1");
                          ("metadata", JObject [("prompt_cache_key", JString "thread-7")])]))
      as (Htop & _). rewrite Htop; [reflexivity | vm_compute; discriminate].
Defined.

End HintShapeFactsExamples.

End HintShapeFacts.

(** ** From payload to [X-Initiator] *)
Module EndToEnd.
Import GoStrings config gjson http Hints Executor HintFacts HintShape CounterFacts.

Section EndToEndGeneric.
Context {lib : Strings} {src : SourceText}.

Lemma xInitiator_verdict e payload incoming :
  (xInitiator e payload incoming).1
  = if (shouldUseAgentInitiator e (collectCopilotHeaderHints payload incoming)).1
    then "agent" else "user".
Proof.
  unfold xInitiator.
  now destruct (shouldUseAgentInitiator e (collectCopilotHeaderHints payload incoming)).
Qed.

Lemma agentSignal_none payload :
  agentSignal payload = false ->
  GetBytes payload "previous_response_id" = None /\
  nonEmptyArray (GetBytes payload "tools") = false /\
  nonEmptyArray (GetBytes payload "functions") = false /\
  (GetBytes payload "tool_choice" = None \/
   String_ (GetBytes payload "tool_choice") = "none") /\
  (forall msg, In msg (arrayAt payload "messages") ->
               roleOf msg = "" \/ roleOf msg = "user") /\
  (forall item, In item (arrayAt payload "input") ->
                (roleOf item = "" \/ roleOf item = "user") /\
                typeOf item ∉ responsesAPIAgentTypes).
Proof.
  unfold agentSignal, arrayAt. intros H.
  repeat (apply orb_false_elim in H as [H ?]).
  assert (Hrole : forall x, otherRole x = false -> roleOf x = "" \/ roleOf x = "user").
  { intros x Hx. unfold otherRole in Hx.
    destruct (String.eqb (roleOf x) "") eqn:E1; [left; now apply String.eqb_eq|].
    destruct (String.eqb (roleOf x) "user") eqn:E2; [right; now apply String.eqb_eq|].
    discriminate. }
  split; [now destruct (GetBytes payload "previous_response_id")|].
  split; [assumption|]. split; [assumption|]. split; [|split].
  - destruct (GetBytes payload "tool_choice") as [tc|]; [right|now left].
    match goal with
    | Htc : Exists _ && negb _ = false |- _ =>
        cbn [Exists andb] in Htc; apply negb_false_iff in Htc; now apply String.eqb_eq in Htc
    end.
  - intros msg Hin. destruct (IsArray (GetBytes payload "messages")); [|destruct Hin].
    apply Hrole.
    match goal with
    | Hm : true && existsb otherRole _ = false |- _ =>
        cbn [andb] in Hm;
        destruct (otherRole msg) eqn:E; [|reflexivity];
        rewrite <- Hm; symmetry; apply existsb_exists; eauto
    end.
  - intros item Hin. destruct (IsArray (GetBytes payload "input")); [|destruct Hin].
    match goal with
    | Hi : true && existsb _ _ = false |- _ =>
        cbn [andb] in Hi;
        assert (Hitem : otherRole item || isResponsesAPIAgentItem item = false)
          by (destruct (otherRole item || isResponsesAPIAgentItem item) eqn:E; [|reflexivity];
              rewrite <- Hi; symmetry; apply existsb_exists; eauto)
    end.
    apply orb_false_elim in Hitem as [Ho Ha]. split; [now apply Hrole|].
    unfold isResponsesAPIAgentItem in Ha.
    destruct (String.eqb (roleOf item) "assistant" || String.eqb (roleOf item) "tool");
      [discriminate|].
    now apply bool_decide_eq_false in Ha.
Qed.

(** X5: a request is stamped user only if the override header is off, no
    credential entry forces agent, the payload has no previous_response_id,
    no non-empty tools or functions array, no tool_choice other than none,
    no entry with a role other than user, no input entry of an agent type,
    and the last entry of messages or of input is a user entry; with
    persistence on and a cache key, the stored counter was not positive.
    The header is never anything but user or agent. *)
Theorem user_initiator_sound :
  forall e payload incoming,
    ((xInitiator e payload incoming).1 = "user" \/
     (xInitiator e payload incoming).1 = "agent") /\
    ((xInitiator e payload incoming).1 = "user" ->
     forceAgentCallFromHeaders incoming = false /\
     (forall k, In k (entries e) -> ForceAgentCall k = false) /\
     GetBytes payload "previous_response_id" = None /\
     nonEmptyArray (GetBytes payload "tools") = false /\
     nonEmptyArray (GetBytes payload "functions") = false /\
     (GetBytes payload "tool_choice" = None \/
      String_ (GetBytes payload "tool_choice") = "none") /\
     (forall msg, In msg (arrayAt payload "messages") ->
                  roleOf msg = "" \/ roleOf msg = "user") /\
     (forall item, In item (arrayAt payload "input") ->
                   (roleOf item = "" \/ roleOf item = "user") /\
                   typeOf item ∉ responsesAPIAgentTypes) /\
     (endsWithUser (arrayAt payload "messages") = true \/
      endsWithUser (arrayAt payload "input") = true) /\
     (agentInitiatorPersistEnabled e = true ->
      promptCacheKeyFromPayload payload <> "" ->
      (counterOf e (promptCacheKeyFromPayload payload) <= 0)%Z)).
Proof.
  intros e payload incoming. rewrite xInitiator_verdict.
  set (h := collectCopilotHeaderHints payload incoming).
  split; [destruct (shouldUseAgentInitiator e h).1; auto|].
  intros Hv.
  assert (Hfalse : (shouldUseAgentInitiator e h).1 = false)
    by (destruct (shouldUseAgentInitiator e h).1; [discriminate | reflexivity]).
  clear Hv. rewrite InitiatorFacts.decision_rules_agree in Hfalse.
  unfold initiatorBySpec, initiatorRules in Hfalse. cbn [HeaderProfile.firstMatch] in Hfalse.
  unfold h in Hfalse.
  rewrite InitiatorFacts.collect_force, collect_agent in Hfalse.
  destruct (collect_fields payload incoming) as (_ & Hl & _ & Hk). cbv zeta in Hl, Hk.
  rewrite Hl, Hk in Hfalse. clear Hl Hk.
  destruct (forceAgentCallFromHeaders incoming); [discriminate|].
  destruct (existsb ForceAgentCall (entries e)) eqn:Ef; [discriminate|].
  destruct (agentSignal payload) eqn:Ea; [discriminate|].
  destruct (negb (userFromPayload (collectCopilotHeaderHints payload incoming)));
    [discriminate|].
  destruct (endsWithUser (arrayAt payload "messages") || endsWithUser (arrayAt payload "input"))
    eqn:El; [|discriminate]. cbn [negb] in Hfalse.
  split; [reflexivity|]. split.
  { intros k Hin. destruct (ForceAgentCall k) eqn:E; [|reflexivity].
    rewrite <- Ef. symmetry. apply existsb_exists. eauto. }
  destruct (agentSignal_none payload Ea) as (H1 & H2 & H3 & H4 & H5 & H6).
  repeat (split; [assumption|]).
  split; [now apply orb_prop in El|].
  intros Hp Hkey. rewrite InitiatorFacts.agentInitiatorPersistEnabled_entries in Hp.
  apply String.eqb_neq in Hkey. rewrite Hp, Hkey in Hfalse. cbn in Hfalse.
  apply Z.ltb_ge in Hfalse. destruct e as [ex|]; [exact Hfalse|].
  unfold counterOf, countersOf, counter. rewrite lookup_empty. cbn. lia.
Qed.

End EndToEndGeneric.

Section EndToEndExamples.
Local Existing Instance asciiStrings.
Local Existing Instance compactText.

(** The user-only payload of the tests on a fresh executor. *)
Lemma user_initiator_sound_witness :
  nonEmptyArray (GetBytes Fixtures.userOnly "tools") = false /\
  endsWithUser (arrayAt Fixtures.userOnly "messages") = true.
Proof.
  destruct (user_initiator_sound Fixtures.plain Fixtures.userOnly None) as (_ & Hsound).
  destruct Hsound as (_ & _ & _ & Htools & _ & _ & _ & _ & Hlast & _);
    [vm_compute; reflexivity|].
  split; [exact Htools|].
  destruct Hlast as [Hm | Hi]; [exact Hm | vm_compute in Hi; discriminate].
Defined.

End EndToEndExamples.

End EndToEnd.

(** ** Sequences that mix user turns with agent calls *)
Module SequenceFacts.
Import GoStrings config gjson http Hints Executor CounterFacts.

(** Rules (a), (c), (d) and (e) fail on the hints. *)
Definition passes (h : copilotHeaderHints) : bool :=
  negb (forceAgentFromHeaders h) && negb (agentFromPayload h) &&
  userFromPayload h && lastUserFromPayload h.

(** The calls of [hs] that reach the counter of [key]. *)
Definition countedUses (key : string) (hs : list copilotHeaderHints) : Z :=
  uses key (List.filter freshTurn hs).

Definition bumped (ex : CopilotExecutor) (key : string) : CopilotExecutor :=
  {| cfg := cfg ex;
     initiatorCount := <[key := (counter (initiatorCount ex) key + 1)%Z]> (initiatorCount ex) |}.

Lemma step_mixed ex h :
  forceAgentCallEnabled (Some ex) = false ->
  agentInitiatorPersistEnabled (Some ex) = true ->
  shouldUseAgentInitiator (Some ex) h
  = if freshTurn h
    then ((0 <? counter (initiatorCount ex) (promptCacheKey h))%Z,
          Some (bumped ex (promptCacheKey h)))
    else (negb (passes h), Some ex).
Proof.
  intros Hf Hp. unfold shouldUseAgentInitiator, freshTurn, passes. rewrite Hf, Hp.
  destruct (forceAgentFromHeaders h), (agentFromPayload h), (userFromPayload h),
    (lastUserFromPayload h), (String.eqb (promptCacheKey h) ""); reflexivity.
Qed.

Lemma bumped_flags ex key :
  forceAgentCallEnabled (Some (bumped ex key)) = forceAgentCallEnabled (Some ex) /\
  agentInitiatorPersistEnabled (Some (bumped ex key)) = agentInitiatorPersistEnabled (Some ex).
Proof. split; reflexivity. Qed.

Lemma bumped_counter ex key k :
  counter (initiatorCount (bumped ex key)) k
  = (counter (initiatorCount ex) k + if String.eqb key k then 1 else 0)%Z.
Proof.
  unfold bumped. cbn [initiatorCount]. destruct (String.eqb key k) eqn:E.
  - apply String.eqb_eq in E. subst k. now rewrite counter_insert_eq.
  - apply String.eqb_neq in E. rewrite counter_insert_ne by exact E. lia.
Qed.

Lemma countedUses_cons key h rest :
  countedUses key (h :: rest)
  = ((if freshTurn h && String.eqb (promptCacheKey h) key then 1 else 0)
     + countedUses key rest)%Z.
Proof.
  unfold countedUses. cbn [List.filter]. destruct (freshTurn h); [|reflexivity].
  cbn [uses andb]. reflexivity.
Qed.

Lemma classifyAll_mixed hs : forall ex,
  forceAgentCallEnabled (Some ex) = false ->
  agentInitiatorPersistEnabled (Some ex) = true ->
  (forall i h, hs !! i = Some h ->
     (classifyAll (Some ex) hs).1 !! i
     = Some (if freshTurn h
             then (0 <? counter (initiatorCount ex) (promptCacheKey h)
                        + countedUses (promptCacheKey h) (take i hs))%Z
             else negb (passes h))) /\
  (forall k, counterOf (classifyAll (Some ex) hs).2 k
             = (counter (initiatorCount ex) k + countedUses k hs)%Z).
Proof.
  induction hs as [|a rest IH]; intros ex Hf Hp.
  - split; [discriminate|]. intros k. unfold countedUses, counterOf, countersOf.
    cbn [List.filter uses classifyAll snd]. lia.
  - rewrite classifyAll_cons, (step_mixed ex a Hf Hp).
    destruct (freshTurn a) eqn:Ea; cbn [fst snd].
    + destruct (IH (bumped ex (promptCacheKey a))
                  (eq_trans (proj1 (bumped_flags ex _)) Hf)
                  (eq_trans (proj2 (bumped_flags ex _)) Hp)) as [IHv IHc].
      split.
      * intros [|i] h Hi.
        -- cbn in Hi. injection Hi as <-. cbn [lookup list_lookup take].
           rewrite Ea. unfold countedUses. cbn. now rewrite Z.add_0_r.
        -- cbn in Hi. cbn [lookup list_lookup].
           etransitivity; [exact (IHv i h Hi)|].
           cbn [take]. rewrite countedUses_cons, Ea, bumped_counter. cbn [andb].
           destruct (freshTurn h); [|reflexivity]. do 2 f_equal. lia.
      * intros k. rewrite IHc, bumped_counter, countedUses_cons, Ea. cbn [andb]. lia.
    + destruct (IH ex Hf Hp) as [IHv IHc]. split.
      * intros [|i] h Hi.
        -- cbn in Hi. injection Hi as <-. cbn [lookup list_lookup]. now rewrite Ea.
        -- cbn in Hi. cbn [lookup list_lookup].
           etransitivity; [exact (IHv i h Hi)|].
           cbn [take]. rewrite countedUses_cons, Ea. cbn [andb].
           destruct (freshTurn h); [|reflexivity]. do 2 f_equal.
      * intros k. rewrite IHc, countedUses_cons, Ea. cbn [andb]. lia.
Qed.

(** X6: on an executor with persistence on and no force-agent entry, for
    any sequence of calls whatever their hints: a call that fails one of
    rules (a), (c), (d), (e) is agent and is not counted; a call that
    passes them without a cache key is user every time; a call that passes
    them with a cache key is agent exactly when the counter found at the
    start plus the earlier counted calls of that key is positive.  So agent
    calls never use up the user turn of their key, and at the end each
    counter has grown by the number of counted calls of its key. *)
Theorem mixed_sequence_classification :
  forall ex hs,
    forceAgentCallEnabled (Some ex) = false ->
    agentInitiatorPersistEnabled (Some ex) = true ->
    (forall i h, hs !! i = Some h ->
       (classifyAll (Some ex) hs).1 !! i
       = Some (if passes h
               then if String.eqb (promptCacheKey h) "" then false
                    else (0 <? counter (initiatorCount ex) (promptCacheKey h)
                               + countedUses (promptCacheKey h) (take i hs))%Z
               else true)) /\
    (forall i h, hs !! i = Some h -> freshTurn h = true ->
       counter (initiatorCount ex) (promptCacheKey h) = 0%Z ->
       (forall j h', j < i -> hs !! j = Some h' ->
                     promptCacheKey h' = promptCacheKey h -> freshTurn h' = false) ->
       (classifyAll (Some ex) hs).1 !! i = Some false) /\
    (forall k, counterOf (classifyAll (Some ex) hs).2 k
               = (counter (initiatorCount ex) k + countedUses k hs)%Z).
Proof.
  intros ex hs Hf Hp. destruct (classifyAll_mixed hs ex Hf Hp) as [Hv Hc].
  assert (Hfresh : forall h, freshTurn h = passes h && negb (String.eqb (promptCacheKey h) ""))
    by reflexivity.
  split; [|split; [|exact Hc]].
  - intros i h Hi. rewrite (Hv i h Hi), Hfresh.
    destruct (passes h), (String.eqb (promptCacheKey h) ""); reflexivity.
  - intros i h Hi Hh Hzero Hearlier. rewrite (Hv i h Hi), Hh, Hzero. do 2 f_equal.
    assert (Hnone : forall l, (forall h', In h' l -> promptCacheKey h' = promptCacheKey h ->
                                          freshTurn h' = false) ->
                              countedUses (promptCacheKey h) l = 0%Z).
    { induction l as [|x l IHl]; intros Hl; [reflexivity|].
      rewrite countedUses_cons, IHl by (intros; apply Hl; [now right | assumption]).
      destruct (String.eqb (promptCacheKey x) (promptCacheKey h)) eqn:E.
      - apply String.eqb_eq in E. rewrite (Hl x (or_introl eq_refl) E). reflexivity.
      - now rewrite andb_false_r. }
    rewrite Hnone; [reflexivity|].
    intros h' Hin Hk. apply list_elem_of_In, list_elem_of_lookup in Hin as (j & Hj).
    apply lookup_take_Some in Hj as [Hj Hlt]. exact (Hearlier j h' Hlt Hj Hk).
Qed.

Section SequenceFactsExamples.
Local Existing Instance asciiStrings.
Local Existing Instance compactText.

(** A forced call and an agent call on a thread, then its first user
    turn, then a second one. *)
Lemma mixed_sequence_classification_witness :
  let user := collectCopilotHeaderHints (Fixtures.threadPayload "thread-1") None in
  let forced := collectCopilotHeaderHints (Fixtures.threadPayload "thread-1")
                  (Some (Header_Set ∅ "Force-Copilot-Agent" "1")) in
  (classifyAll Fixtures.persisting [forced; user; user]).1 !! 1 = Some false /\
  counterOf (classifyAll Fixtures.persisting [forced; user; user]).2 "thread-1" = 2%Z.
Proof.
  cbv zeta.
  set (user := collectCopilotHeaderHints (Fixtures.threadPayload "thread-1") None).
  set (forced := collectCopilotHeaderHints (Fixtures.threadPayload "thread-1")
                   (Some (Header_Set ∅ "Force-Copilot-Agent" "1"))).
  destruct (mixed_sequence_classification (NewCopilotExecutor
              {| Config_CopilotKey :=
                   [ {| HeaderProfile := ""; CLIHeaderModels := [];
                        VSCodeChatHeaderModels := [];
                        ForceAgentCall := false; AgentInitiatorPersist := true |} ] |})
              [forced; user; user]) as (_ & Hturn & Hcount); [reflexivity | reflexivity |].
  split.
  - apply (Hturn 1 user); [reflexivity | vm_compute; reflexivity | vm_compute; reflexivity |].
    intros j h' Hj Hlook _. destruct j as [|j]; [|lia].
    cbn in Hlook. injection Hlook as <-. vm_compute. reflexivity.
  - etransitivity; [apply Hcount | vm_compute; reflexivity].
Defined.

End SequenceFactsExamples.

End SequenceFacts.

(** ** The profile selector and the spelling of the model *)
Module ProfileInvariance.
Import GoStrings GoStringsFacts config HeaderProfile.

Lemma cons_append c (p s : string) : String c p ++ s = String c (p ++ s).
Proof. reflexivity. Qed.

Lemma nil_append (s : string) : "" ++ s = s.
Proof. reflexivity. Qed.

Lemma TrimPrefix_none s p : HasPrefix s p = false -> TrimPrefix s p = s.
Proof. unfold TrimPrefix. now intros ->. Qed.

(** [normalizeModelID] on the fast paths. *)
Definition asciiNormalize (model : string) : string := asciiTrimSpace (asciiToLower model).

Lemma asciiNormalize_idem model : asciiNormalize (asciiNormalize model) = asciiNormalize model.
Proof.
  unfold asciiNormalize.
  now rewrite asciiToLower_asciiTrimSpace, asciiTrimSpace_idem, asciiToLower_idem.
Qed.

Lemma asciiNormalize_ascii model : isASCII model = true -> isASCII (asciiNormalize model) = true.
Proof. intros H. apply isASCII_asciiTrimSpace. now rewrite isASCII_asciiToLower. Qed.

Lemma asciiNormalize_alias m :
  asciiNormalize m = m -> asciiNormalize ("copilot-" ++ m) = "copilot-" ++ m.
Proof.
  unfold asciiNormalize. intros H.
  assert (Hlower : asciiToLower m = m).
  { rewrite <- H at 1. now rewrite asciiToLower_asciiTrimSpace, asciiToLower_idem. }
  assert (Hright : TrimRightSpace m = m).
  { rewrite <- H at 1. unfold asciiTrimSpace. now rewrite TrimRightSpace_idem. }
  unfold asciiTrimSpace.
  rewrite !cons_append, nil_append. cbn [asciiToLower TrimLeftSpace].
  change (isSpace (lowerByte "c")) with false. cbn iota.
  rewrite !TrimRightSpace_cons by reflexivity.
  now rewrite Hlower, Hright.
Qed.

Section ProfileInvarianceGeneric.
Context {lib : Strings}.

(** An ASCII model is normalized by the two fast paths. *)
Lemma normalizeModelID_ascii model :
  isASCII model = true -> normalizeModelID model = asciiNormalize model.
Proof.
  intros H. unfold normalizeModelID, asciiNormalize. rewrite (ToLower_ascii _ H).
  apply TrimSpace_ascii. now rewrite isASCII_asciiToLower.
Qed.

Lemma profile_of_normalized entry model model' :
  normalizeModelID model = normalizeModelID model' ->
  copilotHeaderProfileForModel entry model = copilotHeaderProfileForModel entry model'.
Proof. intros Hn. unfold copilotHeaderProfileForModel. now rewrite Hn. Qed.

(** X7: for a model written in ASCII, normalization is the byte-wise
    lowering of the letters A to Z followed by the removal of the ASCII
    spaces at both ends; the result is ASCII and normalizing it again
    changes nothing, so the model and its normalized spelling get the same
    profile under every config. *)
Theorem profile_ignores_case_and_padding :
  forall entry model,
    isASCII model = true ->
    normalizeModelID model = asciiTrimSpace (asciiToLower model) /\
    isASCII (normalizeModelID model) = true /\
    normalizeModelID (normalizeModelID model) = normalizeModelID model /\
    copilotHeaderProfileForModel entry model
    = copilotHeaderProfileForModel entry (normalizeModelID model).
Proof.
  intros entry model H.
  assert (Hidem : normalizeModelID (normalizeModelID model) = normalizeModelID model).
  { rewrite (normalizeModelID_ascii model H).
    rewrite (normalizeModelID_ascii _ (asciiNormalize_ascii model H)).
    apply asciiNormalize_idem. }
  split; [exact (normalizeModelID_ascii model H)|]. split; [|split; [exact Hidem|]].
  - rewrite (normalizeModelID_ascii model H). now apply asciiNormalize_ascii.
  - apply profile_of_normalized. symmetry. exact Hidem.
Qed.

(** X8: the routing prefix does not change the profile: for a model
    written in ASCII that is already in normalized form and does not itself
    start with copilot-, the alias copilot-model gets the profile of the
    model, under every config. *)
Theorem profile_ignores_routing_prefix :
  forall entry m,
    isASCII m = true ->
    normalizeModelID m = m -> HasPrefix m "copilot-" = false ->
    copilotHeaderProfileForModel entry ("copilot-" ++ m)
    = copilotHeaderProfileForModel entry m.
Proof.
  intros entry m Ha Hm Hp.
  assert (Hm' : asciiNormalize m = m) by (now rewrite <- (normalizeModelID_ascii m Ha)).
  assert (Halias : normalizeModelID ("copilot-" ++ m) = "copilot-" ++ m).
  { rewrite normalizeModelID_ascii; [now apply asciiNormalize_alias|].
    rewrite isASCII_app, Ha. reflexivity. }
  unfold copilotHeaderProfileForModel.
  rewrite Halias, Hm, TrimPrefix_app, (TrimPrefix_none m _ Hp).
  replace (String.eqb ("copilot-" ++ m) "") with false by reflexivity.
  destruct (String.eqb m ""); reflexivity.
Qed.

Definition withoutOverrides (e : CopilotKey) : CopilotKey :=
  {| HeaderProfile := HeaderProfile e; CLIHeaderModels := []; VSCodeChatHeaderModels := [];
     ForceAgentCall := ForceAgentCall e; AgentInitiatorPersist := AgentInitiatorPersist e |}.

Definition aliasSpelled (v : string) : bool := HasPrefix (normalizeModelID v) "copilot-".

Lemma alias_entries_miss models d :
  forallb aliasSpelled models = true -> HasPrefix d "copilot-" = false ->
  listsModel models d = false.
Proof.
  intros Hall Hd. unfold listsModel. destruct (existsb _ models) eqn:E; [|reflexivity].
  apply existsb_exists in E as (v & Hin & Hv). apply String.eqb_eq in Hv.
  rewrite forallb_forall in Hall. specialize (Hall v Hin). unfold aliasSpelled in Hall.
  congruence.
Qed.

(** X9: the override lists are compared with the de-aliased model, but
    their entries are not de-aliased.  So for a request whose de-aliased
    model does not start with copilot-, entries that are spelled with the
    prefix never match: a config whose override lists hold only such
    entries selects the profile it would select with both lists empty. *)
Theorem alias_spelled_overrides_never_match :
  forall e model,
    HasPrefix (TrimPrefix (normalizeModelID model) "copilot-") "copilot-" = false ->
    forallb aliasSpelled (CLIHeaderModels e) = true ->
    forallb aliasSpelled (VSCodeChatHeaderModels e) = true ->
    copilotHeaderProfileForModel (Some e) model
    = copilotHeaderProfileForModel (Some (withoutOverrides e)) model.
Proof.
  intros e model Hd Hc Hv. unfold copilotHeaderProfileForModel.
  rewrite (alias_entries_miss _ _ Hc Hd), (alias_entries_miss _ _ Hv Hd). reflexivity.
Qed.

End ProfileInvarianceGeneric.

Section ProfileInvarianceExamples.
Local Existing Instance asciiStrings.

(** A padded spelling in mixed case. *)
Lemma profile_ignores_case_and_padding_witness :
  copilotHeaderProfileForModel None "  Gemini-2.5-PRO " = "vscode-chat".
Proof.
  destruct (profile_ignores_case_and_padding None "  Gemini-2.5-PRO " eq_refl)
    as (_ & _ & _ & Hprofile).
  rewrite Hprofile. vm_compute. reflexivity.
Defined.

(** The alias of a model the config lists under its VSCodeChat overrides. *)
Lemma profile_ignores_routing_prefix_witness :
  copilotHeaderProfileForModel (RepoTests.key [] ["gemini-3-pro-preview"] "")
    "copilot-gemini-3-pro-preview" = "vscode-chat".
Proof.
  change "copilot-gemini-3-pro-preview" with ("copilot-" ++ "gemini-3-pro-preview").
  rewrite profile_ignores_routing_prefix by reflexivity. vm_compute. reflexivity.
Defined.

(** Listing copilot-gpt-5 under the VSCodeChat overrides does not move
    requests for copilot-gpt-5 off the CLI profile. *)
Lemma alias_spelled_overrides_never_match_witness :
  copilotHeaderProfileForModel (RepoTests.key [] ["copilot-gpt-5"] "") "copilot-gpt-5" = "cli".
Proof.
  unfold RepoTests.key.
  rewrite alias_spelled_overrides_never_match by reflexivity. vm_compute. reflexivity.
Defined.

End ProfileInvarianceExamples.

End ProfileInvariance.

(** ** Stamping the outbound headers *)
Module Stamping.
Import GoStrings config HeaderProfile gjson http Hints Executor.

Section StampingGeneric.
Context {lib : Strings} {src : SourceText}.

Section ApplyHeaders.

(** [copilotauth.CopilotHeaders] and [copilotauth.CopilotUserAgent] are
    declared outside the sources: the entries of the returned map, in the
    order the range statement visits them, and the constant are taken as
    they come.  Header names are expected to be tokens, as
    [CanonicalMIMEHeaderKey] assumes. *)
Variable CopilotHeaders : string -> string -> bool -> list (string * string).
Variable CopilotUserAgent : string.

Definition setAll (entries : list (string * string)) (r : Header) : Header :=
  fold_left (fun r kv => Header_Set r (fst kv) (snd kv)) entries r.

Definition applyCopilotHeaders (e : option CopilotExecutor) (r : Header)
    (copilotToken : string) (payload : JSON) (incoming : option Header)
  : Header * option CopilotExecutor :=
  let hints := collectCopilotHeaderHints payload incoming in
  let '(isAgentCall, e') := shouldUseAgentInitiator e hints in
  let headers := CopilotHeaders copilotToken "" (hasVision hints) in
  let r := setAll headers r in
  let r := Header_Set r "X-Interaction-Type" "conversation-agent" in
  let r := Header_Set r "Openai-Intent" "conversation-agent" in
  let r := Header_Set r "X-Stainless-Retry-Count" "0" in
  let r := Header_Set r "X-Stainless-Lang" "js" in
  let r := Header_Set r "X-Stainless-Package-Version" "5.20.1" in
  let r := Header_Set r "X-Stainless-OS" "Linux" in
  let r := Header_Set r "X-Stainless-Arch" "arm64" in
  let r := Header_Set r "X-Stainless-Runtime" "node" in
  let r := Header_Set r "X-Stainless-Runtime-Version" "v22.15.0" in
  let r := Header_Set r "User-Agent" CopilotUserAgent in
  let r := if isAgentCall then Header_Set r "X-Initiator" "agent"
           else Header_Set r "X-Initiator" "user" in
  (applyCopilotHeaderProfile e' r (String_ (GetBytes payload "model")), e').

End ApplyHeaders.

(** The block of literals stamped on every request. *)
Definition fingerprint : list (string * string) :=
  [ ("X-Interaction-Type", "conversation-agent");
    ("Openai-Intent", "conversation-agent");
    ("X-Stainless-Retry-Count", "0");
    ("X-Stainless-Lang", "js");
    ("X-Stainless-Package-Version", "5.20.1");
    ("X-Stainless-OS", "Linux");
    ("X-Stainless-Arch", "arm64");
    ("X-Stainless-Runtime", "node");
    ("X-Stainless-Runtime-Version", "v22.15.0") ].

(** The headers of the VSCodeChat profile. *)
Definition vscodeChatBlock : list (string * string) :=
  [ ("Copilot-Integration-Id", "vscode-chat");
    ("Editor-Plugin-Version", "copilot-chat/0.35.2");
    ("Editor-Version", "vscode/1.108.0-insider");
    ("VScode-SessionId", "00000000-0000-0000-0000-000000000000");
    ("VScode-MachineId", "00000000-0000-0000-0000-000000000000");
    ("OpenAI-Intent", "conversation-agent") ].

Lemma Get_Set_eq (h : Header) k k' v :
  CanonicalMIMEHeaderKey k = CanonicalMIMEHeaderKey k' -> Header_Get (Header_Set h k v) k' = v.
Proof. intros H. unfold Header_Get, Header_Set. now rewrite H, lookup_insert_eq. Qed.

Lemma Get_Set_ne (h : Header) k k' v :
  CanonicalMIMEHeaderKey k <> CanonicalMIMEHeaderKey k' ->
  Header_Get (Header_Set h k v) k' = Header_Get h k'.
Proof. intros H. unfold Header_Get, Header_Set. now rewrite lookup_insert_ne. Qed.

Lemma lookup_Set_ne (h : Header) k key v :
  CanonicalMIMEHeaderKey k <> key -> Header_Set h k v !! key = h !! key.
Proof. intros H. unfold Header_Set. now rewrite lookup_insert_ne. Qed.

Lemma Set_id (h : Header) k v :
  h !! CanonicalMIMEHeaderKey k = Some [v] -> Header_Set h k v = h.
Proof. intros H. unfold Header_Set. now apply insert_id. Qed.

Lemma vscode_as_setAll r : applyCopilotVSCodeChatHeaderProfile r = setAll vscodeChatBlock r.
Proof. reflexivity. Qed.

(** After a run of [Set] calls, a name of the run reads the value of its
    last entry. *)
Lemma setAll_last entries : forall (r : Header) name,
  Header_Get (setAll entries r) name
  = match List.find (fun kv => String.eqb (CanonicalMIMEHeaderKey (fst kv))
                                          (CanonicalMIMEHeaderKey name)) (rev entries) with
    | Some kv => snd kv
    | None => Header_Get r name
    end.
Proof.
  induction entries as [|[k v] rest IH] using rev_ind; intros r name; [reflexivity|].
  unfold setAll. rewrite fold_left_app, rev_unit. cbn [fold_left List.find fst snd].
  fold (setAll rest r).
  destruct (String.eqb (CanonicalMIMEHeaderKey k) (CanonicalMIMEHeaderKey name)) eqn:E.
  - apply String.eqb_eq in E. now apply Get_Set_eq.
  - apply String.eqb_neq in E. rewrite Get_Set_ne by exact E. apply IH.
Qed.

Lemma setAll_frame entries : forall (r : Header) key,
  (forall kv, In kv entries -> CanonicalMIMEHeaderKey (fst kv) <> key) ->
  setAll entries r !! key = r !! key.
Proof.
  induction entries as [|[k v] rest IH]; intros r key H; [reflexivity|].
  cbn [setAll fold_left]. fold (setAll rest (Header_Set r k v)).
  rewrite IH by (intros kv Hin; apply H; now right).
  apply lookup_Set_ne. apply (H (k, v)). now left.
Qed.

Lemma setAll_lookup entries : forall (r : Header) key,
  setAll entries r !! key
  = match List.find (fun kv => String.eqb (CanonicalMIMEHeaderKey (fst kv)) key)
                    (rev entries) with
    | Some kv => Some [snd kv]
    | None => r !! key
    end.
Proof.
  induction entries as [|[k v] rest IH] using rev_ind; intros r key; [reflexivity|].
  unfold setAll. rewrite fold_left_app, rev_unit. cbn [fold_left List.find fst snd].
  fold (setAll rest r). unfold Header_Set.
  destruct (String.eqb (CanonicalMIMEHeaderKey k) key) eqn:E.
  - apply String.eqb_eq in E. subst key. apply lookup_insert_eq.
  - apply String.eqb_neq in E. rewrite lookup_insert_ne by exact E. apply IH.
Qed.

Lemma setAll_idempotent entries (r : Header) :
  setAll entries (setAll entries r) = setAll entries r.
Proof.
  apply map_eq. intros key. rewrite (setAll_lookup entries (setAll entries r)).
  rewrite (setAll_lookup entries r). now destruct (List.find _ (rev entries)).
Qed.

Lemma copilotKeyConfig_entries e : copilotKeyConfig e = head (entries e).
Proof. destruct e as [[[[[|k ks]]|] m]|]; reflexivity. Qed.

Ltac read_header :=
  repeat (rewrite Get_Set_ne by (vm_compute; discriminate));
  first [ rewrite Get_Set_eq by reflexivity; reflexivity | reflexivity ].

Ltac each_entry H :=
  repeat (destruct H as [[= <- <-] | H]; [read_header|]); destruct H.

(** X10: applying the header profile of a model either leaves the request
    headers exactly as they are (CLI) or sets the six headers of the
    VSCodeChat block to their literals and leaves every header of another
    name as it is; applying it a second time changes nothing. *)
Theorem applyCopilotHeaderProfile_effect :
  forall e (r : Header) model,
    let profile := copilotHeaderProfileForModel (copilotKeyConfig e) model in
    let r' := applyCopilotHeaderProfile e r model in
    (profile = copilotHeaderProfileCLI -> r' = r) /\
    (profile = copilotHeaderProfileVSCodeChat ->
     (forall name value, In (name, value) vscodeChatBlock -> Header_Get r' name = value) /\
     (forall key,
         (forall kv, In kv vscodeChatBlock -> CanonicalMIMEHeaderKey (fst kv) <> key) ->
         r' !! key = r !! key)) /\
    applyCopilotHeaderProfile e r' model = r'.
Proof.
  intros e r model profile r'. subst r'. unfold applyCopilotHeaderProfile. fold profile.
  unfold applyProfile. split; [|split].
  - intros ->. reflexivity.
  - intros ->. cbn [String.eqb]. rewrite String.eqb_refl. split.
    + intros name value Hin. unfold applyCopilotVSCodeChatHeaderProfile, vscodeChatBlock in *.
      each_entry Hin.
    + intros key Hkey. rewrite vscode_as_setAll. now apply setAll_frame.
  - destruct (String.eqb profile copilotHeaderProfileVSCodeChat); [|reflexivity].
    rewrite !vscode_as_setAll. apply setAll_idempotent.
Qed.

(** X11: whatever [CopilotHeaders] returns, whatever the request held
    and whichever profile the model selects, after [applyCopilotHeaders]
    the header X-Initiator is the verdict of the classifier (agent or
    user), the nine headers of the fingerprint block and User-Agent hold
    their literals, and under the VSCodeChat profile so do the six headers
    of its block; the executor is left as the classifier left it. *)
Theorem applyCopilotHeaders_stamps :
  forall CopilotHeaders CopilotUserAgent e (r : Header) copilotToken payload incoming,
    let out := applyCopilotHeaders CopilotHeaders CopilotUserAgent e r copilotToken
                 payload incoming in
    Header_Get out.1 "X-Initiator" = (xInitiator e payload incoming).1 /\
    out.2 = (xInitiator e payload incoming).2 /\
    (forall name value, In (name, value) fingerprint -> Header_Get out.1 name = value) /\
    Header_Get out.1 "User-Agent" = CopilotUserAgent /\
    (copilotHeaderProfileForModel (copilotKeyConfig e) (String_ (GetBytes payload "model"))
     = copilotHeaderProfileVSCodeChat ->
     forall name value, In (name, value) vscodeChatBlock -> Header_Get out.1 name = value).
Proof.
  intros CopilotHeaders CopilotUserAgent e r copilotToken payload incoming out. subst out.
  unfold applyCopilotHeaders, xInitiator.
  pose proof (CounterFacts.step_entries e (collectCopilotHeaderHints payload incoming)) as He.
  destruct (shouldUseAgentInitiator e (collectCopilotHeaderHints payload incoming))
    as [isAgentCall e'].
  cbn [fst snd] in *. unfold applyCopilotHeaderProfile.
  rewrite (copilotKeyConfig_entries e'), He, <- (copilotKeyConfig_entries e).
  set (profile := copilotHeaderProfileForModel (copilotKeyConfig e)
                    (String_ (GetBytes payload "model"))).
  set (r0 := setAll (CopilotHeaders copilotToken "" _) r).
  unfold applyProfile, applyCopilotVSCodeChatHeaderProfile, applyCopilotCLIHeaderProfile.
  split; [|split; [reflexivity|split; [|split]]].
  - destruct (String.eqb profile copilotHeaderProfileVSCodeChat), isAgentCall; read_header.
  - intros name value Hin. unfold fingerprint in Hin.
    destruct (String.eqb profile copilotHeaderProfileVSCodeChat), isAgentCall;
      each_entry Hin.
  - destruct (String.eqb profile copilotHeaderProfileVSCodeChat), isAgentCall; read_header.
  - intros ->. cbn [String.eqb]. rewrite String.eqb_refl.
    intros name value Hin. unfold vscodeChatBlock in Hin.
    destruct isAgentCall; each_entry Hin.
Qed.

End StampingGeneric.

Section StampingExamples.
Local Existing Instance asciiStrings.
Local Existing Instance compactText.

(** A model outside the allowlist and one inside it, over a request that
    already carries an initiator. *)
Lemma applyCopilotHeaderProfile_effect_witness :
  let r : Header := Header_Set ∅ "X-Initiator" "user" in
  Header_Get (applyCopilotHeaderProfile Fixtures.plain r "gemini-2.5-pro")
             "editor-plugin-version" = "copilot-chat/0.35.2" /\
  Header_Get (applyCopilotHeaderProfile Fixtures.plain r "gemini-2.5-pro") "X-Initiator"
  = "user" /\
  applyCopilotHeaderProfile Fixtures.plain r "gpt-5" = r.
Proof.
  cbv zeta.
  destruct (applyCopilotHeaderProfile_effect Fixtures.plain
              (Header_Set ∅ "X-Initiator" "user") "gemini-2.5-pro") as (_ & Hvs & _).
  destruct Hvs as (Hvals & Hframe); [vm_compute; reflexivity|]. split; [|split].
  - rewrite <- (Hvals "Editor-Plugin-Version" "copilot-chat/0.35.2")
      by (right; left; reflexivity). reflexivity.
  - unfold Header_Get. rewrite Hframe; [reflexivity|].
    intros kv Hin. unfold vscodeChatBlock in Hin.
    repeat (destruct Hin as [<- | Hin]; [vm_compute; discriminate|]). destruct Hin.
  - destruct (applyCopilotHeaderProfile_effect Fixtures.plain
                (Header_Set ∅ "X-Initiator" "user") "gpt-5") as (Hcli & _).
    apply Hcli. vm_compute. reflexivity.
Defined.

(** The user-only payload for a model of the VSCodeChat profile, with a
    [CopilotHeaders] that tries to set the initiator itself. *)
Lemma applyCopilotHeaders_stamps_witness :
  let out := applyCopilotHeaders
               (fun token _ vision => [("Authorization", token); ("X-Initiator", "agent")])
               "GitHubCopilotChat" Fixtures.plain ∅ "tok"
               (JObject [("model", JString "gemini-2.5-pro");
                         ("messages", JArray [Fixtures.userText "hello"])]) None in
  Header_Get out.1 "X-Initiator" = "user" /\
  Header_Get out.1 "Copilot-Integration-Id" = "vscode-chat".
Proof.
  cbv zeta.
  destruct (applyCopilotHeaders_stamps
              (fun token _ vision => [("Authorization", token); ("X-Initiator", "agent")])
              "GitHubCopilotChat" Fixtures.plain ∅ "tok"
              (JObject [("model", JString "gemini-2.5-pro");
                        ("messages", JArray [Fixtures.userText "hello"])]) None)
    as (Hinit & _ & _ & _ & Hvs).
  split.
  - etransitivity; [exact Hinit | vm_compute; reflexivity].
  - apply Hvs; [vm_compute; reflexivity | left; reflexivity].
Defined.

End StampingExamples.

End Stamping.

(** ** [internal/registry]: [ToOpenAIModelMap] *)
Module ModelMap.
Import registry.

(** The values the serializer stores in its [map[string]any]. *)
Inductive any :=
| AnyString (s : string)
| AnyInt (n : Z).

(** The fallback of a preferred limit to the provider's own. *)
Definition orNative (preferred native : Z) : Z :=
  if (preferred <=? 0)%Z && (0 <? native)%Z then native else preferred.

(** [info == nil] is [None], and so is the nil map returned for it. *)
Definition ToOpenAIModelMap (info : option ModelInfo) : option (gmap string any) :=
  match info with
  | None => None
  | Some info =>
      let result : gmap string any :=
        <["owned_by" := AnyString (OwnedBy info)]>
          (<["created" := AnyInt (Created info)]>
             (<["object" := AnyString "model"]>
                (<["id" := AnyString (ID info)]> ∅))) in
      let contextLength := orNative (ContextLength info) (InputTokenLimit info) in
      let result :=
        if (0 <? contextLength)%Z
        then <["context_window" := AnyInt contextLength]>
               (<["context_length" := AnyInt contextLength]> result)
        else result in
      let maxCompletionTokens := orNative (MaxCompletionTokens info) (OutputTokenLimit info) in
      let result :=
        if (0 <? maxCompletionTokens)%Z
        then <["max_tokens" := AnyInt maxCompletionTokens]>
               (<["max_completion_tokens" := AnyInt maxCompletionTokens]> result)
        else result in
      let result :=
        if (0 <? InputTokenLimit info)%Z
        then <["inputTokenLimit" := AnyInt (InputTokenLimit info)]> result else result in
      let result :=
        if (0 <? OutputTokenLimit info)%Z
        then <["outputTokenLimit" := AnyInt (OutputTokenLimit info)]> result else result in
      Some result
  end.

(** A limit as the listing shows it: there only when positive. *)
Definition shown (n : Z) : option any := if (0 <? n)%Z then Some (AnyInt n) else None.

Definition limitKeys : list string :=
  [ "context_length"; "context_window"; "max_completion_tokens"; "max_tokens";
    "inputTokenLimit"; "outputTokenLimit" ].

Ltac read_map :=
  repeat first [ rewrite lookup_insert_eq
               | rewrite lookup_insert_ne by discriminate
               | rewrite lookup_empty ].

Lemma map_limits info result :
  ToOpenAIModelMap (Some info) = Some result ->
  result !! "context_length"
  = shown (orNative (ContextLength info) (InputTokenLimit info)) /\
  result !! "context_window" = result !! "context_length" /\
  result !! "max_completion_tokens"
  = shown (orNative (MaxCompletionTokens info) (OutputTokenLimit info)) /\
  result !! "max_tokens" = result !! "max_completion_tokens" /\
  result !! "inputTokenLimit" = shown (InputTokenLimit info) /\
  result !! "outputTokenLimit" = shown (OutputTokenLimit info).
Proof.
  unfold ToOpenAIModelMap, shown. intros [= <-].
  destruct (0 <? orNative (ContextLength info) (InputTokenLimit info))%Z,
    (0 <? orNative (MaxCompletionTokens info) (OutputTokenLimit info))%Z,
    (0 <? InputTokenLimit info)%Z, (0 <? OutputTokenLimit info)%Z;
    repeat split; read_map; reflexivity.
Qed.

Lemma map_base info result :
  ToOpenAIModelMap (Some info) = Some result ->
  result !! "id" = Some (AnyString (ID info)) /\
  result !! "object" = Some (AnyString "model") /\
  result !! "created" = Some (AnyInt (Created info)) /\
  result !! "owned_by" = Some (AnyString (OwnedBy info)).
Proof.
  unfold ToOpenAIModelMap. intros [= <-].
  destruct (0 <? orNative (ContextLength info) (InputTokenLimit info))%Z,
    (0 <? orNative (MaxCompletionTokens info) (OutputTokenLimit info))%Z,
    (0 <? InputTokenLimit info)%Z, (0 <? OutputTokenLimit info)%Z;
    repeat split; read_map; reflexivity.
Qed.

Lemma map_keys info result key :
  ToOpenAIModelMap (Some info) = Some result ->
  is_Some (result !! key) ->
  In key (["id"; "object"; "created"; "owned_by"] ++ limitKeys)%list.
Proof.
  unfold ToOpenAIModelMap. intros [= <-].
  destruct (0 <? orNative (ContextLength info) (InputTokenLimit info))%Z,
    (0 <? orNative (MaxCompletionTokens info) (OutputTokenLimit info))%Z,
    (0 <? InputTokenLimit info)%Z, (0 <? OutputTokenLimit info)%Z;
    repeat (rewrite lookup_insert; case_decide;
            [subst key; intros _; unfold limitKeys; cbn [app In];
             repeat first [left; reflexivity | right]|]);
    rewrite lookup_empty; intros [x Hx]; discriminate.
Qed.

Lemma shown_positive n v : shown n = Some v -> exists k, v = AnyInt k /\ (0 < k)%Z.
Proof.
  unfold shown. destruct (0 <? n)%Z eqn:E; [|discriminate].
  intros [= <-]. exists n. split; [reflexivity | now apply Z.ltb_lt].
Qed.

(** X12: for every catalog entry the listing shows context_length as
    ContextLength when that is positive, else as InputTokenLimit when that
    is positive, else not at all, and max_completion_tokens likewise from
    MaxCompletionTokens and OutputTokenLimit; context_window and max_tokens
    are there exactly when their originals are, with the same value;
    inputTokenLimit and outputTokenLimit are there exactly when positive;
    so no limit is ever listed with a value that is zero or negative. *)
Theorem ToOpenAIModelMap_limits :
  forall info, exists result,
    ToOpenAIModelMap (Some info) = Some result /\
    result !! "context_length"
    = (if (0 <? ContextLength info)%Z then Some (AnyInt (ContextLength info))
       else shown (InputTokenLimit info)) /\
    result !! "max_completion_tokens"
    = (if (0 <? MaxCompletionTokens info)%Z then Some (AnyInt (MaxCompletionTokens info))
       else shown (OutputTokenLimit info)) /\
    result !! "context_window" = result !! "context_length" /\
    result !! "max_tokens" = result !! "max_completion_tokens" /\
    result !! "inputTokenLimit" = shown (InputTokenLimit info) /\
    result !! "outputTokenLimit" = shown (OutputTokenLimit info) /\
    (forall key v, In key limitKeys -> result !! key = Some v ->
                   exists n, v = AnyInt n /\ (0 < n)%Z).
Proof.
  intros info. destruct (ToOpenAIModelMap (Some info)) as [result|] eqn:E; [|discriminate].
  exists result. split; [reflexivity|].
  destruct (map_limits info result E) as (Hc & Hcw & Hm & Hmt & Hi & Ho).
  assert (Hor : forall p n, shown (orNative p n)
                            = if (0 <? p)%Z then Some (AnyInt p) else shown n).
  { intros p n. unfold orNative, shown.
    destruct (Z.leb_spec p 0) as [Hq | Hq]; cbn [andb].
    - destruct (Z.ltb_spec 0 n) as [Hn | Hn]; cbn iota.
      + destruct (Z.ltb_spec 0 p); [lia|].
        destruct (Z.ltb_spec 0 n); [reflexivity | lia].
      + destruct (Z.ltb_spec 0 p); [lia | reflexivity].
    - destruct (Z.ltb_spec 0 p); [reflexivity | lia]. }
  rewrite Hor in Hc, Hm.
  split; [exact Hc|]. split; [exact Hm|]. split; [exact Hcw|]. split; [exact Hmt|].
  split; [exact Hi|]. split; [exact Ho|].
  intros key v Hin Hv. rewrite <- Hor in Hc, Hm. unfold limitKeys in Hin.
  repeat (destruct Hin as [<- | Hin];
          [rewrite ?Hcw, ?Hmt, ?Hc, ?Hm, ?Hi, ?Ho in Hv; exact (shown_positive _ _ Hv)|]).
  destruct Hin.
Qed.

(** [TestV1Models_FallbacksFromGeminiTokenLimits]: only the provider's own
    limits are known. *)
Lemma ToOpenAIModelMap_limits_witness :
  exists result,
    ToOpenAIModelMap
      (Some {| ID := "gemini"; Object := "model"; Created := 1; OwnedBy := "google";
               Type_ := ""; DisplayName := ""; Description := "";
               ContextLength := 0; MaxCompletionTokens := 0;
               InputTokenLimit := 999999; OutputTokenLimit := 4242;
               SupportedParameters := [] |}) = Some result /\
    result !! "context_length" = Some (AnyInt 999999) /\
    result !! "max_tokens" = Some (AnyInt 4242).
Proof.
  destruct (ToOpenAIModelMap_limits
              {| ID := "gemini"; Object := "model"; Created := 1; OwnedBy := "google";
                 Type_ := ""; DisplayName := ""; Description := "";
                 ContextLength := 0; MaxCompletionTokens := 0;
                 InputTokenLimit := 999999; OutputTokenLimit := 4242;
                 SupportedParameters := [] |})
    as (result & Hr & Hc & Hm & _ & Hmt & _).
  exists result. split; [exact Hr|]. split; [exact Hc|]. rewrite Hmt. exact Hm.
Defined.

(** X13: the listing of a nil entry is nil; every other entry is listed
    with its id, created and owned_by, with the object marker model
    whatever its own Object field holds, and with no key outside these four
    and the six limit keys. *)
Theorem ToOpenAIModelMap_base_fields :
  ToOpenAIModelMap None = None /\
  (forall info, exists result,
      ToOpenAIModelMap (Some info) = Some result /\
      result !! "id" = Some (AnyString (ID info)) /\
      result !! "object" = Some (AnyString "model") /\
      result !! "created" = Some (AnyInt (Created info)) /\
      result !! "owned_by" = Some (AnyString (OwnedBy info)) /\
      (forall key, is_Some (result !! key) ->
                   In key (["id"; "object"; "created"; "owned_by"] ++ limitKeys)%list)).
Proof.
  split; [reflexivity|]. intros info.
  destruct (ToOpenAIModelMap (Some info)) as [result|] eqn:E; [|discriminate].
  exists result. split; [reflexivity|].
  destruct (map_base info result E) as (H1 & H2 & H3 & H4).
  repeat (split; [assumption|]). intros key. now apply (map_keys info).
Qed.

End ModelMap.

(** ** The earlier revision of the classifier

    The sources hold a second copy of [copilot_headers.go] from before
    the user-turn hints: roles are compared as written, only assistant and
    tool count, there are no conservative checks on the payload, and the
    counter is reached before the payload signal is looked at. *)
Module Legacy.
Import GoStrings config gjson http.

Section LegacyGeneric.
Context {lib : Strings} {src : SourceText}.

Definition isResponsesAPIAgentItem (item : JSON) : bool :=
  if String.eqb (String_ (Get (Some item) "role")) "assistant" then true
  else bool_decide (Hints.typeOf item ∈ Hints.responsesAPIAgentTypes).

Record copilotHeaderHints := {
  hasVision : bool;
  agentFromPayload : bool;
  forceAgentFromHeaders : bool;
  promptCacheKey : string;
}.

Definition setVision (cond : bool) (h : copilotHeaderHints) : copilotHeaderHints :=
  {| hasVision := hasVision h || cond; agentFromPayload := agentFromPayload h;
     forceAgentFromHeaders := forceAgentFromHeaders h; promptCacheKey := promptCacheKey h |}.

Definition setAgent (cond : bool) (h : copilotHeaderHints) : copilotHeaderHints :=
  {| hasVision := hasVision h; agentFromPayload := agentFromPayload h || cond;
     forceAgentFromHeaders := forceAgentFromHeaders h; promptCacheKey := promptCacheKey h |}.

Definition agentRoleAsWritten (msg : JSON) : bool :=
  let role := String_ (Get (Some msg) "role") in
  String.eqb role "assistant" || String.eqb role "tool".

Fixpoint scanMessages (arr : list JSON) (hints : copilotHeaderHints) : copilotHeaderHints :=
  match arr with
  | [] => hints
  | msg :: rest =>
      let hints :=
        setVision (Hints.contentHas (fun part => String.eqb (Hints.typeOf part) "image_url") msg)
                  hints in
      scanMessages rest (setAgent (agentRoleAsWritten msg) hints)
  end.

Fixpoint scanInput (arr : list JSON) (hints : copilotHeaderHints) : copilotHeaderHints :=
  match arr with
  | [] => hints
  | item :: rest =>
      let hints := setVision (Hints.contentHas Hints.isResponsesAPIVisionContent item) hints in
      scanInput rest (setAgent (isResponsesAPIAgentItem item) hints)
  end.

Definition collectCopilotHeaderHints (payload : JSON) (headers : option Header)
  : copilotHeaderHints :=
  let hints :=
    {| hasVision := false; agentFromPayload := false;
       forceAgentFromHeaders := Hints.forceAgentCallFromHeaders headers;
       promptCacheKey := Hints.promptCacheKeyFromPayload payload |} in
  let messages := GetBytes payload "messages" in
  let hints := if IsArray messages then scanMessages (Array messages) hints else hints in
  let input := GetBytes payload "input" in
  let hints := if IsArray input then scanInput (Array input) hints else hints in
  hints.

Definition shouldUseAgentInitiator (e : option Executor.CopilotExecutor)
    (h : copilotHeaderHints) : bool * option Executor.CopilotExecutor :=
  if forceAgentFromHeaders h then (true, e) else
  if Executor.forceAgentCallEnabled e then (true, e) else
  match e with
  | Some ex =>
      if Executor.agentInitiatorPersistEnabled e && negb (String.eqb (promptCacheKey h) "")
      then
        let '(count, ex') := Executor.bump (promptCacheKey h) ex in
        if agentFromPayload h then (true, Some ex') else ((0 <? count)%Z, Some ex')
      else (agentFromPayload h, e)
  | None => (agentFromPayload h, e)
  end.

Lemma legacy_scanMessages_fields arr : forall h,
  agentFromPayload (scanMessages arr h) = agentFromPayload h || existsb agentRoleAsWritten arr /\
  hasVision (scanMessages arr h) = hasVision h || existsb HintShape.messageImage arr /\
  forceAgentFromHeaders (scanMessages arr h) = forceAgentFromHeaders h /\
  promptCacheKey (scanMessages arr h) = promptCacheKey h.
Proof.
  induction arr as [|msg rest IH]; intros h.
  - cbn. now rewrite !orb_false_r.
  - cbn [scanMessages existsb].
    match goal with
    | |- context [scanMessages rest ?h'] => destruct (IH h') as (-> & -> & -> & ->)
    end.
    cbn. now rewrite !orb_assoc.
Qed.

Lemma legacy_scanInput_fields arr : forall h,
  agentFromPayload (scanInput arr h) = agentFromPayload h || existsb isResponsesAPIAgentItem arr /\
  hasVision (scanInput arr h) = hasVision h || existsb HintShape.inputImage arr /\
  forceAgentFromHeaders (scanInput arr h) = forceAgentFromHeaders h /\
  promptCacheKey (scanInput arr h) = promptCacheKey h.
Proof.
  induction arr as [|item rest IH]; intros h.
  - cbn. now rewrite !orb_false_r.
  - cbn [scanInput existsb].
    match goal with
    | |- context [scanInput rest ?h'] => destruct (IH h') as (-> & -> & -> & ->)
    end.
    cbn. now rewrite !orb_assoc.
Qed.

Lemma legacy_collect_fields payload headers :
  let h := collectCopilotHeaderHints payload headers in
  agentFromPayload h
  = existsb agentRoleAsWritten (HintShape.arrayAt payload "messages")
    || existsb isResponsesAPIAgentItem (HintShape.arrayAt payload "input") /\
  hasVision h
  = existsb HintShape.messageImage (HintShape.arrayAt payload "messages")
    || existsb HintShape.inputImage (HintShape.arrayAt payload "input") /\
  forceAgentFromHeaders h = Hints.forceAgentCallFromHeaders headers /\
  promptCacheKey h = Hints.promptCacheKeyFromPayload payload.
Proof.
  cbv zeta. unfold collectCopilotHeaderHints, HintShape.arrayAt.
  destruct (IsArray (GetBytes payload "input"));
    destruct (IsArray (GetBytes payload "messages"));
    repeat match goal with
      | |- context [scanInput ?a ?h] =>
          destruct (legacy_scanInput_fields a h) as (-> & -> & -> & ->)
      | |- context [scanMessages ?a ?h] =>
          destruct (legacy_scanMessages_fields a h) as (-> & -> & -> & ->)
      end;
    cbn; rewrite ?orb_false_r; auto.
Qed.

End LegacyGeneric.

End Legacy.

Module RevisionFacts.
Import GoStrings config gjson http Executor CounterFacts.

Section RevisionFactsGeneric.
Context {lib : Strings} {src : SourceText}.

Lemma written_role_normalized item :
  Legacy.agentRoleAsWritten item = true -> HintFacts.otherRole item = true.
Proof.
  unfold Legacy.agentRoleAsWritten, HintFacts.otherRole, Hints.roleOf. intros H.
  apply orb_prop in H as [H | H]; apply String.eqb_eq in H; rewrite H; on_ascii; reflexivity.
Qed.

Lemma legacy_item_is_item item :
  Legacy.isResponsesAPIAgentItem item = true -> Hints.isResponsesAPIAgentItem item = true.
Proof.
  unfold Legacy.isResponsesAPIAgentItem, Hints.isResponsesAPIAgentItem, Hints.roleOf.
  destruct (String.eqb (String_ (Get (Some item) "role")) "assistant") eqn:E.
  - intros _. apply String.eqb_eq in E. rewrite E. on_ascii. reflexivity.
  - intros ->. now destruct (_ || _).
Qed.

Lemma legacy_signal_kept payload headers :
  Legacy.agentFromPayload (Legacy.collectCopilotHeaderHints payload headers) = true ->
  Hints.agentFromPayload (Hints.collectCopilotHeaderHints payload headers) = true.
Proof.
  destruct (Legacy.legacy_collect_fields payload headers) as (Ha & _). cbv zeta in Ha.
  rewrite Ha, HintFacts.collect_agent. unfold HintFacts.agentSignal, HintShape.arrayAt.
  intros H. apply orb_prop in H as [H | H].
  - destruct (IsArray (GetBytes payload "messages")); [|discriminate].
    rewrite (HintFacts.existsb_weaken _ _ _ written_role_normalized H).
    cbn. now rewrite !orb_true_r.
  - destruct (IsArray (GetBytes payload "input")); [|discriminate].
    rewrite (HintFacts.existsb_weaken Legacy.isResponsesAPIAgentItem
               (fun item => HintFacts.otherRole item || Hints.isResponsesAPIAgentItem item) _
               (fun x Hx => eq_trans (f_equal (orb (HintFacts.otherRole x))
                                              (legacy_item_is_item x Hx))
                                     (orb_true_r _)) H).
    cbn. now rewrite !orb_true_r.
Qed.

(** X14: the revision with the user-turn hints is at least as
    conservative as the earlier one.  On every payload and header map the
    two agree on the vision hint, the force flag and the cache key; an
    agent signal of the earlier hints is an agent signal of the later ones;
    from the same executor state, a call the earlier classifier marks agent
    is marked agent by the later one; and the later one never counts a call
    the earlier one does not count. *)
Theorem later_revision_more_conservative :
  forall e payload headers,
    let old := Legacy.collectCopilotHeaderHints payload headers in
    let new := Hints.collectCopilotHeaderHints payload headers in
    Legacy.hasVision old = Hints.hasVision new /\
    Legacy.forceAgentFromHeaders old = Hints.forceAgentFromHeaders new /\
    Legacy.promptCacheKey old = Hints.promptCacheKey new /\
    (Legacy.agentFromPayload old = true -> Hints.agentFromPayload new = true) /\
    ((Legacy.shouldUseAgentInitiator e old).1 = true ->
     (shouldUseAgentInitiator e new).1 = true) /\
    (forall k, (counterOf (shouldUseAgentInitiator e new).2 k
                <= counterOf (Legacy.shouldUseAgentInitiator e old).2 k)%Z).
Proof.
  intros e payload headers old new.
  destruct (Legacy.legacy_collect_fields payload headers) as (_ & Hv & Hf & Hk).
  destruct (HintShape.collect_fields payload headers) as (_ & _ & Hv' & Hk').
  pose proof (InitiatorFacts.collect_force payload headers) as Hf'.
  pose proof (legacy_signal_kept payload headers) as Ha.
  cbv zeta in Hv, Hf, Hk, Hv', Hk'. fold old in Hv, Hf, Hk, Ha. fold new in Hv', Hk', Hf', Ha.
  split; [congruence|]. split; [congruence|]. split; [congruence|]. split; [exact Ha|].
  assert (Hkey : Legacy.promptCacheKey old = Hints.promptCacheKey new) by congruence.
  assert (Hforce : Legacy.forceAgentFromHeaders old = Hints.forceAgentFromHeaders new)
    by congruence.
  clearbody old new. clear Hv Hf Hk Hv' Hk' Hf'.
  unfold Legacy.shouldUseAgentInitiator, shouldUseAgentInitiator.
  rewrite Hforce, Hkey.
  destruct (Hints.forceAgentFromHeaders new); [split; [reflexivity | intros; lia]|].
  destruct (forceAgentCallEnabled e); [split; [reflexivity | intros; lia]|].
  destruct e as [ex|].
  - destruct (agentInitiatorPersistEnabled (Some ex)
              && negb (String.eqb (Hints.promptCacheKey new) "")) eqn:Ep.
    + unfold bump.
      assert (Hup : forall k,
                 (counterOf (Some ex) k
                  <= counterOf (Some {| cfg := cfg ex;
                                        initiatorCount :=
                                          <[Hints.promptCacheKey new :=
                                              (counter (initiatorCount ex)
                                                       (Hints.promptCacheKey new) + 1)%Z]>
                                            (initiatorCount ex) |}) k)%Z).
      { intros k. unfold counterOf, countersOf. cbn [initiatorCount].
        destruct (decide (Hints.promptCacheKey new = k)) as [<- | Hne].
        - rewrite counter_insert_eq. lia.
        - rewrite counter_insert_ne by exact Hne. lia. }
      destruct (Legacy.agentFromPayload old) eqn:Eo.
      * rewrite (Ha eq_refl). split; [reflexivity | exact Hup].
      * destruct (Hints.agentFromPayload new); [split; [reflexivity | exact Hup]|].
        destruct (negb (Hints.userFromPayload new)); [split; [reflexivity | exact Hup]|].
        destruct (negb (Hints.lastUserFromPayload new)); [split; [reflexivity | exact Hup]|].
        cbn [fst snd]. split; [tauto | intros; lia].
    + destruct (Legacy.agentFromPayload old) eqn:Eo.
      * rewrite (Ha eq_refl). split; [reflexivity | intros; lia].
      * split; [discriminate|]. intros k.
        destruct (Hints.agentFromPayload new), (negb (Hints.userFromPayload new)),
          (negb (Hints.lastUserFromPayload new)); cbn [snd]; lia.
  - destruct (Legacy.agentFromPayload old) eqn:Eo.
    + rewrite (Ha eq_refl). split; [reflexivity | intros; lia].
    + split; [discriminate|]. intros k.
      destruct (Hints.agentFromPayload new), (negb (Hints.userFromPayload new)),
        (negb (Hints.lastUserFromPayload new)); cbn [snd]; lia.
Qed.

End RevisionFactsGeneric.

Section RevisionFactsExamples.
Local Existing Instance asciiStrings.
Local Existing Instance compactText.

(** An agent call on a thread and then its first user turn: the earlier
    revision has counted the agent call and answers agent, the later one
    answers user. *)
Lemma later_revision_more_conservative_witness :
  let agentCall := JObject [("prompt_cache_key", JString "thread-1");
                            ("input", JArray [Fixtures.userText "hello";
                                              JObject [("type", JString "function_call")]])] in
  (shouldUseAgentInitiator Fixtures.persisting
     (Hints.collectCopilotHeaderHints agentCall None)).1 = true /\
  (Legacy.shouldUseAgentInitiator
     (Legacy.shouldUseAgentInitiator Fixtures.persisting
        (Legacy.collectCopilotHeaderHints agentCall None)).2
     (Legacy.collectCopilotHeaderHints (Fixtures.threadPayload "thread-1") None)).1 = true /\
  (shouldUseAgentInitiator
     (shouldUseAgentInitiator Fixtures.persisting
        (Hints.collectCopilotHeaderHints agentCall None)).2
     (Hints.collectCopilotHeaderHints (Fixtures.threadPayload "thread-1") None)).1 = false.
Proof.
  cbv zeta. split; [|split; vm_compute; reflexivity].
  apply (later_revision_more_conservative Fixtures.persisting
           (JObject [("prompt_cache_key", JString "thread-1");
                     ("input", JArray [Fixtures.userText "hello";
                                       JObject [("type", JString "function_call")]])]) None).
  vm_compute. reflexivity.
Defined.

End RevisionFactsExamples.

End RevisionFacts.

(** ** Configurations under which the classifier keeps no state *)
Module StatelessFacts.
Import GoStrings config gjson http Hints Executor CounterFacts SequenceFacts.

Lemma step_forced e h :
  forceAgentCallEnabled e = true -> shouldUseAgentInitiator e h = (true, e).
Proof.
  intros H. unfold shouldUseAgentInitiator. rewrite H.
  now destruct (forceAgentFromHeaders h).
Qed.

Lemma step_plain e h :
  forceAgentCallEnabled e = false -> agentInitiatorPersistEnabled e = false ->
  shouldUseAgentInitiator e h = (negb (passes h), e).
Proof.
  intros Hf Hp. unfold shouldUseAgentInitiator, passes. rewrite Hf, Hp.
  destruct (forceAgentFromHeaders h), (agentFromPayload h), (userFromPayload h),
    (lastUserFromPayload h), e; reflexivity.
Qed.

(** X15: when some credential entry sets ForceAgentCall, every call of
    every sequence is agent and the executor is never written; when no
    entry sets ForceAgentCall or AgentInitiatorPersist (in particular with
    no configuration or behind a nil receiver), the verdict of each call is
    decided by its own hints alone (user exactly when rules (a), (c), (d),
    (e) all fail) and the executor is never written, whatever cache keys
    the calls carry. *)
Theorem classifier_stateless_without_persistence :
  forall e hs,
    (forceAgentCallEnabled e = true ->
     (classifyAll e hs).1 = map (fun _ => true) hs /\ (classifyAll e hs).2 = e) /\
    (forceAgentCallEnabled e = false -> agentInitiatorPersistEnabled e = false ->
     (classifyAll e hs).1 = map (fun h => negb (passes h)) hs /\ (classifyAll e hs).2 = e).
Proof.
  intros e hs. split.
  - intros Hf. induction hs as [|h rest [IHv IHe]]; [split; reflexivity|].
    rewrite classifyAll_cons, (step_forced e h Hf). cbn [fst snd map].
    rewrite IHv, IHe. split; reflexivity.
  - intros Hf Hp. induction hs as [|h rest [IHv IHe]]; [split; reflexivity|].
    rewrite classifyAll_cons, (step_plain e h Hf Hp). cbn [fst snd map].
    rewrite IHv, IHe. split; reflexivity.
Qed.

Section StatelessFactsExamples.
Local Existing Instance asciiStrings.
Local Existing Instance compactText.

(** The same thread three times without persistence, and once under a
    forcing entry. *)
Lemma classifier_stateless_without_persistence_witness :
  let user := collectCopilotHeaderHints (Fixtures.threadPayload "thread-1") None in
  let forcing := Some (NewCopilotExecutor
                         {| Config_CopilotKey :=
                              [ {| HeaderProfile := ""; CLIHeaderModels := [];
                                   VSCodeChatHeaderModels := [];
                                   ForceAgentCall := true;
                                   AgentInitiatorPersist := true |} ] |}) in
  (classifyAll Fixtures.plain [user; user; user]).1 = [false; false; false] /\
  (classifyAll forcing [user]) = ([true], forcing).
Proof.
  cbv zeta. split.
  - destruct (classifier_stateless_without_persistence Fixtures.plain
                [collectCopilotHeaderHints (Fixtures.threadPayload "thread-1") None;
                 collectCopilotHeaderHints (Fixtures.threadPayload "thread-1") None;
                 collectCopilotHeaderHints (Fixtures.threadPayload "thread-1") None])
      as (_ & Hplain).
    destruct Hplain as (Hv & _); [reflexivity | reflexivity |].
    rewrite Hv. vm_compute. reflexivity.
  - match goal with
    | |- classifyAll ?e ?hs = _ =>
        destruct (classifier_stateless_without_persistence e hs) as (Hforced & _);
        destruct Hforced as (Hv & He); [reflexivity|];
        rewrite (surjective_pairing (classifyAll e hs)), Hv, He
    end.
    reflexivity.
Defined.

End StatelessFactsExamples.

End StatelessFacts.

(** The remaining tables of [copilot_headers_test.go]. *)
Module RepoTestsMore.
Import gjson Hints RepoTests.

Definition typeOnly (t : string) : JSON := JObject [("type", str t); ("id", str "123")].

(** [TestIsResponsesAPIAgentItem]: item and expected answer. *)
Definition agentItemCases : list (JSON * bool) :=
  [ (role "user" (inputText "hello"), false);
    (role "system" (str "You are helpful"), false);
    (role "assistant" (inputText "hi"), true);
    (role "tool" (inputText "tool output"), true);
    (typeOnly "function_call", true); (typeOnly "function_call_output", true);
    (typeOnly "computer_call", true); (typeOnly "computer_call_output", true);
    (typeOnly "web_search_call", true); (typeOnly "file_search_call", true);
    (typeOnly "code_interpreter_call", true); (typeOnly "local_shell_call", true);
    (typeOnly "local_shell_call_output", true); (typeOnly "mcp_call", true);
    (typeOnly "mcp_list_tools", true); (typeOnly "mcp_approval_request", true);
    (typeOnly "mcp_approval_response", true); (typeOnly "image_generation_call", true);
    (typeOnly "reasoning", true); (typeOnly "unknown_future_type", false);
    (JObject [("type", str "message"); ("role", str "user")], false) ].

Definition imagePart (t : string) : JSON :=
  JObject [("type", str t); ("image_url", JObject [("url", str "data:image/png;base64,...")])].
Definition textPart (t : string) : JSON := JObject [("type", str t); ("text", str "describe")].

(** [TestApplyCopilotHeaders_Vision]: payload and expected vision flag. *)
Definition visionCases : list (JSON * bool) :=
  [ (messages [role "user" (str "hello")], false);
    (messages [role "user" (JArray [textPart "text"; imagePart "image_url"])], true);
    (input [role "user" (inputText "hello")], false);
    (input [role "user" (JArray [textPart "input_text"; imagePart "input_image"])], true);
    (JObject [("messages", JArray [role "user" (JArray [textPart "text";
                                                         imagePart "image_url"])]);
              ("input", JArray [role "user" (inputText "hello")])], true);
    (JObject [("messages", JArray [role "user" (str "hello")]);
              ("input", JArray [role "user" (JArray [textPart "input_text";
                                                      imagePart "input_image"])])], true) ].

End RepoTestsMore.

Section RepoTestsMoreExamples.
Local Existing Instance GoStrings.asciiStrings.
Local Existing Instance gjson.compactText.

Example TestIsResponsesAPIAgentItem :
  map (fun c => Hints.isResponsesAPIAgentItem (fst c)) RepoTestsMore.agentItemCases
  = map snd RepoTestsMore.agentItemCases.
Proof. vm_compute. reflexivity. Qed.

Example TestApplyCopilotHeaders_Vision :
  map (fun c => Hints.hasVision (Hints.collectCopilotHeaderHints (fst c) None))
      RepoTestsMore.visionCases
  = map snd RepoTestsMore.visionCases.
Proof. vm_compute. reflexivity. Qed.

End RepoTestsMoreExamples.
